(** * sshp: the parallel execution engine of [src/sshp.c]

    A shallow embedding of the engine of the parallel ssh manager: the three
    output formatters ([process_data_line_by_line], [process_data_group],
    [process_data_join]), the stream reader ([read_active_fd]), the reaper
    ([wait_for_child]), the scheduler ([main_loop]), the join aggregator
    ([join_mode_finish]) and the roster and argument set-up ([parse_hosts],
    [push_arguments], [build_ssh_command]).

    Conventions of the embedding:
    - a C [int] or [long] is a [Z]; a [char] is a [Byte.byte]; a [char *]
      buffer obtained from [malloc] is a [list byte] of the allocated length
      whose initial content is arbitrary;
    - a pointer to a [Host] is the position of the host in the roster;
    - [err], [errx] and [exit] end the run with [Exit code]; a failed
      [assert] ends it with [Abort]; a load or store outside an allocation
      ends it with [Fault];
    - what the kernel answers ([pipe], [fork], [read], [epoll_wait],
      [waitpid], the clock) is an input of the functions that ask. *)

From Stdlib Require Import ZArith Lia Bool String.
From Stdlib Require Import Strings.Byte.
From Stdlib Require Import Numbers.DecimalString.
From Stdlib Require Import Sorting.Sorted.
From stdpp Require Import base tactics option list numbers gmap.

Local Open Scope Z_scope.

(* ================================================================== *)
(** ** Outcomes of a computation *)

Inductive result (A : Type) : Type :=
| Ok (a : A)            (* the call returns *)
| Exit (code : Z)       (* err(code, ...), errx(code, ...) or exit(code) *)
| Abort                 (* a failed assert *)
| Fault.                (* an access outside an allocation, or through NULL *)

Arguments Ok {A} a.
Arguments Exit {A} code.
Arguments Abort {A}.
Arguments Fault {A}.

Definition bind {A B : Type} (m : result A) (k : A -> result B) : result B :=
  match m with
  | Ok a => k a
  | Exit c => Exit c
  | Abort => Abort
  | Fault => Fault
  end.

Notation "'do' x <- m ; k" := (bind m (fun x => k))
  (at level 10, x pattern, m at level 100, k at level 200,
   format "'[v' 'do'  x  <-  m ; '/' k ']'").

(** [assert(b)] *)
Definition assert (b : bool) : result unit :=
  if b then Ok tt else Abort.

(* ================================================================== *)
(** ** Bytes, C strings and arrays *)

Definition NUL : byte := x00.
Definition NL : byte := x0a.
Definition CR : byte := x0d.

Global Instance byte_eq_decision : EqDecision byte := byte_eq_dec.

(** A string literal of the source, as its bytes (without the terminator). *)
Definition lit (s : string) : list byte := list_byte_of_string s.

(** The bytes [printf("%s", p)] writes when [p] points to [buf]: everything
    before the first nul.  Without a nul inside the allocation the read
    leaves it. *)
Fixpoint cstr (buf : list byte) : result (list byte) :=
  match buf with
  | [] => Fault
  | c :: rest =>
      if decide (c = NUL) then Ok []
      else do s <- cstr rest; Ok (c :: s)
  end.

(** [p[i] = c] on an allocation [buf]. *)
Definition store (buf : list byte) (i : Z) (c : byte) : result (list byte) :=
  if decide (0 <= i < Z.of_nat (length buf))
  then Ok (<[Z.to_nat i := c]> buf)
  else Fault.

(** [p[i]] on an allocation [buf]. *)
Definition load (buf : list byte) (i : Z) : result byte :=
  if decide (0 <= i)
  then match buf !! Z.to_nat i with
       | Some c => Ok c
       | None => Fault
       end
  else Fault.

(** [printf("%d", n)] *)
Definition print_int (n : Z) : list byte :=
  lit (NilZero.string_of_int (Z.to_int n)).

(* ================================================================== *)
(** ** Data model *)

(** [enum ProgMode] *)
Inductive ProgMode := MODE_LINE_BY_LINE | MODE_GROUP | MODE_JOIN.

(** [enum PipeType] *)
Inductive PipeType := PIPE_STDOUT | PIPE_STDERR | PIPE_STDIO.

Global Instance ProgMode_eq_decision : EqDecision ProgMode.
Proof. solve_decision. Defined.
Global Instance PipeType_eq_decision : EqDecision PipeType.
Proof. solve_decision. Defined.

(** [struct child_process]; [output] is [None] for the NULL pointer. *)
Record ChildProcess := mkChildProcess {
  pid : Z;
  stdout_fd : Z;
  stderr_fd : Z;
  stdio_fd : Z;
  output : option (list byte);
  output_idx : Z;
  exit_code : Z;
  started_time : Z;
  finished_time : Z
}.

(** [struct host]; the [next] pointer is the order of the roster list. *)
Record Host := mkHost {
  name : list byte;
  cp : option ChildProcess
}.

(** [struct fd_event] *)
Record FdEvent := mkFdEvent {
  host : nat;
  fd : Z;
  buffer : option (list byte);
  offset : Z;
  type : PipeType
}.

(** The fields of [opts] the engine reads. *)
Record Opts := mkOpts {
  anonymous : bool;
  debug : bool;
  exit_codes : bool;
  group : bool;
  join : bool;
  max_jobs : Z;
  silent : bool;
  trim : bool;
  max_line_length : Z;
  max_output_length : Z;
  mode : ProgMode
}.

(** [struct colors] *)
Record Colors := mkColors {
  black : list byte;
  red : list byte;
  green : list byte;
  yellow : list byte;
  blue : list byte;
  magenta : list byte;
  cyan : list byte;
  white : list byte;
  reset : list byte
}.

(** The palette [main] installs before the options are read, kept when
    colour is off. *)
Definition colors_off : Colors := mkColors [] [] [] [] [] [] [] [] [].

(** The palette [parse_arguments] installs when colour is on. *)
Definition ESC : byte := x1b.
Definition colors_on : Colors :=
  mkColors (ESC :: lit "[0;30m") (ESC :: lit "[0;31m") (ESC :: lit "[0;32m")
           (ESC :: lit "[0;33m") (ESC :: lit "[0;34m") (ESC :: lit "[0;35m")
           (ESC :: lit "[0;36m") (ESC :: lit "[0;37m") (ESC :: lit "[0m").

(** What standard output has received, with the two file-scope statics that
    describe it: [newline_printed], and [last_host] of
    [process_data_group]. *)
Record Console := mkConsole {
  out : list byte;
  newline_printed : bool;
  last_host : option nat
}.

Definition console_init : Console := mkConsole [] true None.

(** [printf] of already formatted bytes. *)
Definition emit (s : list byte) (k : Console) : Console :=
  mkConsole (out k ++ s) (newline_printed k) (last_host k).

Definition PROG_NAME : list byte := lit "sshp".

(* ================================================================== *)
(** ** Printing helpers *)

(** [fdev_get_color] *)
Definition fdev_get_color (cl : Colors) (fdev : FdEvent) : list byte :=
  match type fdev with
  | PIPE_STDOUT => green cl
  | PIPE_STDERR => red cl
  | PIPE_STDIO => []
  end.

(** [print_host_header]: [printf("[%s%s%s]", colors.cyan, host->name,
    colors.reset)]; the name is printed as a C string. *)
Definition print_host_header (cl : Colors) (h : Host) (k : Console)
  : Console :=
  emit (lit "[" ++ cyan cl ++ name h ++ reset cl ++ lit "]") k.

(** [print_line_buffer] (line-by-line mode). *)
Definition print_line_buffer (o : Opts) (cl : Colors) (h : Host)
    (fdev : FdEvent) (k : Console) : result Console :=
  match buffer fdev with
  | None => Abort
  | Some buf =>
      let color := fdev_get_color cl fdev in
      let k := if anonymous o then k
               else emit (lit " ") (print_host_header cl h k) in
      do line <- cstr buf;
      Ok (emit (color ++ line ++ reset cl) k)
  end.

(* ================================================================== *)
(** ** Line-by-line mode *)

Definition set_buffer (fdev : FdEvent) (b : option (list byte)) : FdEvent :=
  mkFdEvent (host fdev) (fd fdev) b (offset fdev) (type fdev).

Definition set_offset (fdev : FdEvent) (n : Z) : FdEvent :=
  mkFdEvent (host fdev) (fd fdev) (buffer fdev) n (type fdev).

(** [fdev->buffer[fdev->offset] = c; fdev->offset++;] *)
Definition push_byte (fdev : FdEvent) (c : byte) : result FdEvent :=
  match buffer fdev with
  | None => Fault
  | Some buf =>
      do buf' <- store buf (offset fdev) c;
      Ok (mkFdEvent (host fdev) (fd fdev) (Some buf') (offset fdev + 1)
                    (type fdev))
  end.

(** [fdev->buffer[fdev->offset] = c;] *)
Definition poke_byte (fdev : FdEvent) (c : byte) : result FdEvent :=
  match buffer fdev with
  | None => Fault
  | Some buf =>
      do buf' <- store buf (offset fdev) c;
      Ok (set_buffer fdev (Some buf'))
  end.

(** One turn of the loop of [process_data_line_by_line], on the byte [c]. *)
Definition line_by_line_byte (o : Opts) (cl : Colors) (h : Host)
    (st : FdEvent * Console) (c : byte) : result (FdEvent * Console) :=
  let '(fdev, k) := st in
  do fdev <-
    (if decide (offset fdev < max_line_length o) then push_byte fdev c
     else if decide (offset fdev = max_line_length o) then push_byte fdev NL
     else Ok fdev);
  if decide (c = NL) then
    do _ <- assert (bool_decide (offset fdev > 0));
    do _ <- assert (bool_decide (offset fdev < max_line_length o + 2));
    do fdev <- poke_byte fdev NUL;
    do k <- print_line_buffer o cl h fdev k;
    Ok (set_offset fdev 0, k)
  else Ok (fdev, k).

(** The [for] loop over the bytes of a chunk. *)
Fixpoint line_by_line_loop (o : Opts) (cl : Colors) (h : Host)
    (st : FdEvent * Console) (buf : list byte)
  : result (FdEvent * Console) :=
  match buf with
  | [] => Ok st
  | c :: rest =>
      do st <- line_by_line_byte o cl h st c;
      line_by_line_loop o cl h st rest
  end.

(** [process_data_line_by_line(fdev, buf, bytes)] with [bytes] the length
    of [buf]. *)
Definition process_data_line_by_line (o : Opts) (cl : Colors) (h : Host)
    (fdev : FdEvent) (k : Console) (buf : list byte)
  : result (FdEvent * Console) :=
  do _ <- assert (bool_decide (Z.of_nat (length buf) > 0));
  line_by_line_loop o cl h (fdev, k) buf.

(** The [MODE_LINE_BY_LINE] case of [read_active_fd] at end of file. *)
Definition eof_line_by_line (o : Opts) (cl : Colors) (h : Host)
    (fdev : FdEvent) (k : Console) : result (FdEvent * Console) :=
  if decide (offset fdev = 0) then Ok (fdev, k)
  else
    match buffer fdev with
    | None => Fault
    | Some buf =>
        do last <- load buf (offset fdev - 1);
        do fdev <- (if decide (last <> NL) then push_byte fdev NL
                    else Ok fdev);
        do _ <- assert (bool_decide (offset fdev < max_line_length o + 2));
        do fdev <- poke_byte fdev NUL;
        do k <- print_line_buffer o cl h fdev k;
        Ok (set_offset fdev 0, k)
    end.

(* ================================================================== *)
(** ** Join mode: capture *)

(** The [for] loop of [process_data_join]; the last branch is its
    [break]. *)
Fixpoint join_loop (o : Opts) (fdev : FdEvent) (buf : list byte)
  : result FdEvent :=
  match buf with
  | [] => Ok fdev
  | c :: rest =>
      if decide (offset fdev < max_output_length o) then
        do fdev <- push_byte fdev c;
        join_loop o fdev rest
      else if decide (offset fdev = max_line_length o) then
        do fdev <- push_byte fdev NUL;
        join_loop o fdev rest
      else Ok fdev
  end.

(** [process_data_join(fdev, buf, bytes)] *)
Definition process_data_join (o : Opts) (fdev : FdEvent) (buf : list byte)
  : result FdEvent :=
  do _ <- assert (bool_decide (Z.of_nat (length buf) > 0));
  join_loop o fdev buf.

(** The [MODE_JOIN] case of [read_active_fd] at end of file, up to the
    hand-over of the buffer: the terminator. *)
Definition eof_join (o : Opts) (fdev : FdEvent) : result FdEvent :=
  if decide (offset fdev <= max_output_length o) then push_byte fdev NUL
  else Ok fdev.

(* ================================================================== *)
(** ** Group mode *)

(** [buf[bytes - 1] == '\n'] *)
Definition last_is_newline (buf : list byte) : bool :=
  bool_decide (last buf = Some NL).

(** [process_data_group(fdev, buf, bytes)]; [hi] is the pointer
    [fdev->host] and [h] the host it points to.  The [write] of the chunk is
    taken to be complete (a short one ends the run with [err(3, ...)]). *)
Definition process_data_group (o : Opts) (cl : Colors) (hi : nat) (h : Host)
    (fdev : FdEvent) (k : Console) (buf : list byte) : result Console :=
  do _ <- assert (bool_decide (Z.of_nat (length buf) > 0));
  let k :=
    if decide (last_host k <> Some hi) then
      let k := if negb (newline_printed k) then emit [NL] k else k in
      if negb (anonymous o) then emit [NL] (print_host_header cl h k)
      else k
    else k in
  let k := emit (fdev_get_color cl fdev) k in
  let k := emit buf k in
  let k := emit (reset cl) k in
  Ok (mkConsole (out k) (last_is_newline buf) (Some hi)).

(* ================================================================== *)
(** ** The stream reader *)

(** What the [read] that ends a drain returns, when the ones before it
    returned data. *)
Inductive ReadEnd :=
| ReadEOF           (* 0 *)
| ReadWouldBlock    (* -1 with errno EWOULDBLOCK *)
| ReadFailed.       (* -1 with another errno *)

(** The [switch (opts.mode)] on a chunk of [bytes > 0] bytes. *)
Definition process_data (o : Opts) (cl : Colors) (h : Host)
    (fdev : FdEvent) (k : Console) (buf : list byte)
  : result (FdEvent * Console) :=
  match mode o with
  | MODE_JOIN =>
      do _ <- assert (bool_decide (buffer fdev <> None));
      do fdev <- process_data_join o fdev buf;
      Ok (fdev, k)
  | MODE_LINE_BY_LINE =>
      do _ <- assert (bool_decide (buffer fdev <> None));
      process_data_line_by_line o cl h fdev k buf
  | MODE_GROUP =>
      do k <- process_data_group o cl (host fdev) h fdev k buf;
      Ok (fdev, k)
  end.

(** The [while] loop of [read_active_fd], over what the successive [read]
    calls return: [reads] one after the other, then [fin].  A [read] of
    zero bytes is the end of file.  The boolean tells whether the end of
    file was met. *)
Fixpoint read_loop (o : Opts) (cl : Colors) (h : Host)
    (fdev : FdEvent) (k : Console) (reads : list (list byte)) (fin : ReadEnd)
  : result (FdEvent * Console * bool) :=
  match reads with
  | [] =>
      match fin with
      | ReadEOF => Ok (fdev, k, true)
      | ReadWouldBlock => Ok (fdev, k, false)
      | ReadFailed => Exit 3
      end
  | buf :: rest =>
      if decide (length buf = 0%nat) then Ok (fdev, k, true)
      else if silent o then read_loop o cl h fdev k rest fin
      else
        do (fdev, k) <- process_data o cl h fdev k buf;
        read_loop o cl h fdev k rest fin
  end.

(** The [switch (opts.mode)] of [read_active_fd] at end of file.  The third
    component is the buffer handed over to [host->cp->output] ([None] when
    the mode hands nothing over). *)
Definition process_eof (o : Opts) (cl : Colors) (h : Host)
    (fdev : FdEvent) (k : Console)
  : result (FdEvent * Console * option (option (list byte))) :=
  match mode o with
  | MODE_LINE_BY_LINE =>
      do (fdev, k) <- eof_line_by_line o cl h fdev k;
      Ok (fdev, k, None)
  | MODE_GROUP => Ok (fdev, k, None)
  | MODE_JOIN =>
      do fdev <- eof_join o fdev;
      Ok (set_buffer fdev None, k, Some (buffer fdev))
  end.

(* ================================================================== *)
(** ** Composing the command *)

Definition MAX_ARGS : Z := 256.

(** [push_arguments(s, ...)]: [base] is [base_ssh_command] up to the static
    [idx], which is its length. *)
Fixpoint push_arguments (base : list (list byte)) (args : list (list byte))
  : result (list (list byte)) :=
  match args with
  | [] => Ok base
  | s :: rest =>
      if decide (Z.of_nat (length base) >= MAX_ARGS - 2) then Exit 2
      else push_arguments (base ++ [s]) rest
  end.

(** The inner [while] of [build_ssh_command] over one null terminated
    array [item]; [command] is the filled part of the output array, [idx]
    its length. *)
Fixpoint build_items (size : Z) (command : list (list byte))
    (item : list (list byte)) : result (list (list byte)) :=
  match item with
  | [] => Ok command
  | arg :: rest =>
      let command := command ++ [arg] in
      if decide (Z.of_nat (length command) >= size) then Exit 2
      else build_items size command rest
  end.

(** [build_ssh_command(host, command, size)] *)
Definition build_ssh_command (base remote : list (list byte)) (h : Host)
    (size : Z) : result (list (list byte)) :=
  do _ <- assert (bool_decide (size > 0));
  do command <- build_items size [] base;
  do command <- build_items size command [name h];
  do command <- build_items size command remote;
  do _ <- assert (bool_decide (Z.of_nat (length command) < size));
  Ok command.

(* ================================================================== *)
(** ** The engine state *)

(** File-scope state that does not change while [main_loop] runs. *)
Record Globals := mkGlobals {
  opts : Opts;
  colors : Colors;
  base_ssh_command : list (list byte);
  remote_command : list (list byte);
  stdout_isatty : bool
}.

(** What the engine did, in order. *)
Inductive Action :=
| Forked (h : nat) (p : Z)                 (* fork() for host h returned p *)
| Closed (h : nat) (t : PipeType) (d : Z)  (* end of file, close(d) *)
| Reaped (h : nat) (p : Z).                (* waitpid(p, ...) for host h *)

Global Instance Action_eq_decision : EqDecision Action.
Proof. solve_decision. Defined.

(** The roster with its child records, the interest list of the epoll
    instance (each registered descriptor with the [FdEvent] its data
    pointer refers to), standard output, and the actions so far. *)
Record World := mkWorld {
  hosts : list Host;
  watch : gmap Z FdEvent;
  console : Console;
  actions : list Action
}.

(** [child_process_create] *)
Definition child_process_create : ChildProcess :=
  mkChildProcess (-1) (-1) (-1) (-1) None (-1) (-1) (-1) (-1).

(** [child_process_stdio_done] *)
Definition child_process_stdio_done (c : ChildProcess) : bool :=
  (bool_decide (stdout_fd c = -2) && bool_decide (stderr_fd c = -2))
  || bool_decide (stdio_fd c = -2).

(** [host_create] *)
Definition host_create (n : list byte) : Host := mkHost n None.

(** The descriptor field of the child record a pipe type selects. *)
Definition cp_fd (t : PipeType) (c : ChildProcess) : Z :=
  match t with
  | PIPE_STDOUT => stdout_fd c
  | PIPE_STDERR => stderr_fd c
  | PIPE_STDIO => stdio_fd c
  end.

Definition set_cp_fd (t : PipeType) (v : Z) (c : ChildProcess)
  : ChildProcess :=
  match t with
  | PIPE_STDOUT =>
      mkChildProcess (pid c) v (stderr_fd c) (stdio_fd c) (output c)
        (output_idx c) (exit_code c) (started_time c) (finished_time c)
  | PIPE_STDERR =>
      mkChildProcess (pid c) (stdout_fd c) v (stdio_fd c) (output c)
        (output_idx c) (exit_code c) (started_time c) (finished_time c)
  | PIPE_STDIO =>
      mkChildProcess (pid c) (stdout_fd c) (stderr_fd c) v (output c)
        (output_idx c) (exit_code c) (started_time c) (finished_time c)
  end.

Definition set_output (b : option (list byte)) (c : ChildProcess)
  : ChildProcess :=
  mkChildProcess (pid c) (stdout_fd c) (stderr_fd c) (stdio_fd c) b
    (output_idx c) (exit_code c) (started_time c) (finished_time c).

Definition set_output_idx (i : Z) (c : ChildProcess) : ChildProcess :=
  mkChildProcess (pid c) (stdout_fd c) (stderr_fd c) (stdio_fd c) (output c)
    i (exit_code c) (started_time c) (finished_time c).

Definition set_cp (c : option ChildProcess) (h : Host) : Host :=
  mkHost (name h) c.

Definition set_name (n : list byte) (h : Host) : Host :=
  mkHost n (cp h).

(** [safe_malloc(size, msg)]: [junk] is what the fresh memory holds.  The
    allocation itself is taken to succeed (a failed one ends the run with
    [err(3, ...)]). *)
Definition safe_malloc (junk : nat -> byte) (size : Z)
  : result (list byte) :=
  do _ <- assert (bool_decide (size > 0));
  Ok (map junk (seq 0 (Z.to_nat size))).

(** [fdev_create(host, type)]; [hi] is the pointer [host], [c] its child
    record. *)
Definition fdev_create (o : Opts) (junk : nat -> byte) (hi : nat)
    (c : ChildProcess) (t : PipeType) : result FdEvent :=
  do buf <-
    match mode o with
    | MODE_LINE_BY_LINE =>
        do b <- safe_malloc junk (max_line_length o + 2); Ok (Some b)
    | MODE_JOIN =>
        do b <- safe_malloc junk (max_output_length o + 1); Ok (Some b)
    | MODE_GROUP => Ok None
    end;
  let d := cp_fd t c in
  do _ <- assert (bool_decide (d >= 0));
  Ok (mkFdEvent hi d buf 0 t).

(** [lsplit_str(s, c)] on the C string [s]: the string it leaves behind,
    and whether it cut. *)
Fixpoint lsplit_str (s : list byte) (c : byte) : list byte * bool :=
  match s with
  | [] => ([], false)
  | x :: rest =>
      if decide (x = c) then ([], true)
      else let '(s', b) := lsplit_str rest c in (x :: s', b)
  end.

(** [ends_in_newline] on a C string. *)
Definition ends_in_newline (s : list byte) : bool :=
  if decide (length s = 0%nat) then false
  else bool_decide (last s = Some NL).

(* ================================================================== *)
(** ** Spawning and registering *)

(** What the kernel answers while one host is admitted: the read ends of
    the pipes [make_pipe] creates, whether [pipe] and [fcntl] succeed, the
    child's pid ([None] when [fork] fails; the embedding follows the
    parent), the clock ([None] when [clock_gettime] fails), and the content
    of the memory [malloc] returns for the buffer of each pipe. *)
Record Admission := mkAdmission {
  adm_stdout : Z;
  adm_stderr : Z;
  adm_stdio : Z;
  adm_pipe_ok : bool;
  adm_fork : option positive;
  adm_clock : option Z;
  adm_junk : PipeType -> nat -> byte
}.

Definition set_hosts (hs : list Host) (w : World) : World :=
  mkWorld hs (watch w) (console w) (actions w).

Definition set_watch (m : gmap Z FdEvent) (w : World) : World :=
  mkWorld (hosts w) m (console w) (actions w).

Definition set_console (k : Console) (w : World) : World :=
  mkWorld (hosts w) (watch w) k (actions w).

Definition log (a : Action) (w : World) : World :=
  mkWorld (hosts w) (watch w) (console w) (actions w ++ [a]).

(** [monotonic_time_ms] *)
Definition monotonic_time_ms (clock : option Z) : result Z :=
  match clock with
  | Some t => Ok t
  | None => Exit 3
  end.

(** [spawn_child_process(host)], in the parent; [hi] is the pointer
    [host].  The composed command is built (and may be too long) before it
    is overwritten by the fixed test command, which only the child uses. *)
Definition spawn_child_process (g : Globals) (a : Admission) (hi : nat)
    (w : World) : result World :=
  match hosts w !! hi with
  | None => Fault
  | Some h =>
      do _ <- assert (bool_decide (cp h = None));
      do _ <- build_ssh_command (base_ssh_command g) (remote_command g) h
                MAX_ARGS;
      do _ <- (if adm_pipe_ok a then Ok tt else Exit 3);
      match adm_fork a with
      | None => Exit 3
      | Some p =>
          let c := child_process_create in
          let c :=
            match mode (opts g) with
            | MODE_JOIN => set_cp_fd PIPE_STDIO (adm_stdio a) c
            | _ => set_cp_fd PIPE_STDERR (adm_stderr a)
                     (set_cp_fd PIPE_STDOUT (adm_stdout a) c)
            end in
          do t <- monotonic_time_ms (adm_clock a);
          let c :=
            mkChildProcess (Z.pos p) (stdout_fd c) (stderr_fd c)
              (stdio_fd c) (output c) (output_idx c) (exit_code c) t
              (finished_time c) in
          Ok (log (Forked hi (Z.pos p))
                (set_hosts (<[hi := set_cp (Some c) h]> (hosts w)) w))
      end
  end.

(** [register_child_process_fd(host, type)]: [epoll_ctl] refuses a
    descriptor that is registered already. *)
Definition register_child_process_fd (g : Globals) (a : Admission)
    (hi : nat) (t : PipeType) (w : World) : result World :=
  match hosts w !! hi with
  | None => Fault
  | Some h =>
      match cp h with
      | None => Abort
      | Some c =>
          do fdev <- fdev_create (opts g) (adm_junk a t) hi c t;
          match watch w !! fd fdev with
          | Some _ => Exit 3
          | None => Ok (set_watch (<[fd fdev := fdev]> (watch w)) w)
          end
      end
  end.

(** [register_child_process_fds(host)] *)
Definition register_child_process_fds (g : Globals) (a : Admission)
    (hi : nat) (w : World) : result World :=
  match mode (opts g) with
  | MODE_JOIN => register_child_process_fd g a hi PIPE_STDIO w
  | _ =>
      do w <- register_child_process_fd g a hi PIPE_STDOUT w;
      register_child_process_fd g a hi PIPE_STDERR w
  end.

(* ================================================================== *)
(** ** Reading a ready descriptor *)

(** One entry of what [epoll_wait] returns, with what the kernel answers
    while the entry is handled: the registered descriptor whose data
    pointer the entry carries, the results of the [read] calls, and, for
    the case that the child is reaped, the status [waitpid] stores
    ([None] when it fails) and the clock. *)
Record Ready := mkReady {
  rdy_fd : Z;
  rdy_reads : list (list byte);
  rdy_end : ReadEnd;
  rdy_wait : option Z;
  rdy_clock : option Z
}.

(** [read_active_fd(fdev)], with the host pointer [fdev->host] that
    [main_loop] reads before the call. *)
Definition read_active_fd (g : Globals) (r : Ready) (w : World)
  : result (World * bool * nat) :=
  match watch w !! rdy_fd r with
  | None => Fault
  | Some fdev =>
      let hi := host fdev in
      match hosts w !! hi with
      | None => Fault
      | Some h =>
          match cp h with
          | None => Fault
          | Some c =>
              do (fdev, k, eof) <-
                read_loop (opts g) (colors g) h fdev (console w)
                  (rdy_reads r) (rdy_end r);
              if eof then
                let t := type fdev in
                let d := cp_fd t c in
                let c := set_cp_fd t (-2) c in
                do (fdev, k, handed) <-
                  process_eof (opts g) (colors g) h fdev k;
                let c := match handed with
                         | Some b => set_output b c
                         | None => c
                         end in
                Ok (mkWorld (<[hi := set_cp (Some c) h]> (hosts w))
                      (delete (rdy_fd r) (delete d (watch w)))
                      k
                      (actions w ++ [Closed hi t d]),
                    true, hi)
              else
                Ok (mkWorld (hosts w)
                      (<[rdy_fd r := fdev]> (watch w))
                      k
                      (actions w),
                    false, hi)
          end
      end
  end.

(* ================================================================== *)
(** ** The reaper *)

(** [WEXITSTATUS] of <sys/wait.h>. *)
Definition WEXITSTATUS (status : Z) : Z :=
  Z.shiftr (Z.land status 65280) 8.

(** [wait_for_child(host)]; [hi] is the pointer [host]. *)
Definition wait_for_child (g : Globals) (r : Ready) (hi : nat) (w : World)
  : result World :=
  match hosts w !! hi with
  | None => Fault
  | Some h =>
      match cp h with
      | None => Fault
      | Some c =>
          match rdy_wait r with
          | None => Exit 3
          | Some status =>
              do t <- monotonic_time_ms (rdy_clock r);
              let c' :=
                mkChildProcess (-2) (stdout_fd c) (stderr_fd c) (stdio_fd c)
                  (output c) (output_idx c) (WEXITSTATUS status)
                  (started_time c) t in
              let w := log (Reaped hi (pid c))
                         (set_hosts (<[hi := set_cp (Some c') h]> (hosts w))
                            w) in
              if exit_codes (opts g) || debug (opts g) then
                let cl := colors g in
                let delta := finished_time c' - started_time c' in
                let code_color :=
                  if decide (exit_code c' = 0) then green cl else red cl in
                let k := console w in
                let k := if negb (newline_printed k)
                         then mkConsole (out k ++ [NL]) true (last_host k)
                         else k in
                let k :=
                  emit (lit "[" ++ cyan cl ++ name h ++ reset cl
                        ++ lit "] exited: "
                        ++ code_color ++ print_int (exit_code c') ++ reset cl
                        ++ lit " (" ++ magenta cl ++ print_int delta
                        ++ reset cl ++ lit " ms)" ++ [NL]) k in
                Ok (set_console k w)
              else Ok w
          end
      end
  end.

(** [print_progress_line(done, num_hosts)] *)
Definition print_progress_line (cl : Colors) (done num_hosts : Z)
    (k : Console) : Console :=
  emit (lit "[" ++ cyan cl ++ PROG_NAME ++ reset cl ++ lit "] finished "
        ++ magenta cl ++ print_int done ++ reset cl ++ lit "/"
        ++ magenta cl ++ print_int num_hosts ++ reset cl ++ [CR]) k.

(* ================================================================== *)
(** ** The scheduler *)

(** Where [main_loop] stands: at the test of the outer [while], at the
    test of the admission [while], in [epoll_wait], in the [for] loop with
    the entries still to handle, or returned. *)
Inductive Pc :=
| AtHead
| Launching
| Waiting
| Dispatching (evs : list Ready)
| Returned.

(** The locals of [main_loop] ([cur_host] is a position in the roster, past
    its end for NULL) and the engine state. *)
Record Loop := mkLoop {
  world : World;
  cur_host : nat;
  outstanding : Z;
  done : Z;
  pc : Pc
}.

Definition set_pc (p : Pc) (s : Loop) : Loop :=
  mkLoop (world s) (cur_host s) (outstanding s) (done s) p.

(** What the kernel answers during one step: an admission, and the result
    of [epoll_wait] ([None] for -1). *)
Record Input := mkInput {
  in_admission : Admission;
  in_events : option (list Ready)
}.

(** [main_loop] up to the first test of the outer [while]. *)
Definition main_loop_enter (g : Globals) (num_hosts : Z) (hs : list Host)
  : Loop :=
  let k := console_init in
  let k := if bool_decide (mode (opts g) = MODE_JOIN) && stdout_isatty g
           then print_progress_line (colors g) 0 num_hosts k
           else k in
  mkLoop (mkWorld hs ∅ k []) 0 0 0 AtHead.

(** One turn of the admission [while]. *)
Definition admit_host (g : Globals) (a : Admission) (s : Loop) : result Loop :=
  let hi := cur_host s in
  do w <- spawn_child_process g a hi (world s);
  do w <-
    (if trim (opts g) then
       match hosts w !! hi with
       | None => Fault
       | Some h =>
           Ok (set_hosts
                 (<[hi := set_name (lsplit_str (name h) "."%byte).1 h]>
                    (hosts w)) w)
       end
     else Ok w);
  do w <- register_child_process_fds g a hi w;
  Ok (mkLoop w (S hi) (outstanding s + 1) (done s) Launching).

(** One turn of the [for] loop over the entries of [epoll_wait]. *)
Definition dispatch (g : Globals) (num_hosts : Z) (r : Ready) (s : Loop)
  : result Loop :=
  do (w, fd_closed, hi) <- read_active_fd g r (world s);
  match hosts w !! hi with
  | None => Fault
  | Some h =>
      match cp h with
      | None => Abort
      | Some c =>
          if fd_closed && child_process_stdio_done c then
            do w <- wait_for_child g r hi w;
            let outstanding := outstanding s - 1 in
            let done := done s + 1 in
            let w :=
              if decide (mode (opts g) = MODE_JOIN) then
                let k := print_progress_line (colors g) done num_hosts
                           (console w) in
                let k := if decide (done = num_hosts) then emit [NL] k
                         else k in
                set_console k w
              else w in
            Ok (mkLoop w (cur_host s) outstanding done (pc s))
          else Ok (mkLoop w (cur_host s) (outstanding s) (done s) (pc s))
      end
  end.

(** One step of [main_loop]. *)
Definition step (g : Globals) (num_hosts : Z) (i : Input) (s : Loop)
  : result Loop :=
  match pc s with
  | AtHead =>
      if decide ((cur_host s < length (hosts (world s)))%nat
                 \/ outstanding s > 0)
      then
        do _ <- assert (bool_decide (outstanding s <= max_jobs (opts g)));
        Ok (set_pc Launching s)
      else Ok (set_pc Returned s)
  | Launching =>
      if decide ((cur_host s < length (hosts (world s)))%nat
                 /\ outstanding s < max_jobs (opts g))
      then admit_host g (in_admission i) s
      else Ok (set_pc Waiting s)
  | Waiting =>
      match in_events i with
      | None => Exit 3
      | Some evs => Ok (set_pc (Dispatching evs) s)
      end
  | Dispatching [] => Ok (set_pc AtHead s)
  | Dispatching (r :: evs) =>
      do s <- dispatch g num_hosts r s;
      Ok (set_pc (Dispatching evs) s)
  | Returned => Ok s
  end.

(** [main_loop(num_hosts)] on the roster [hs], for as many steps as there
    are inputs. *)
Fixpoint run (g : Globals) (num_hosts : Z) (ins : list Input) (s : Loop)
  : result Loop :=
  match ins with
  | [] => Ok s
  | i :: rest =>
      do s <- step g num_hosts i s;
      run g num_hosts rest s
  end.

Definition main_loop (g : Globals) (num_hosts : Z) (hs : list Host)
    (ins : list Input) : result Loop :=
  run g num_hosts ins (main_loop_enter g num_hosts hs).

(* ================================================================== *)
(** ** The join aggregator *)

(** A loop whose body can end the run, over the values [l] of its
    variable. *)
Fixpoint for_each {A S : Type} (body : S -> A -> result S) (l : list A)
    (s : S) : result S :=
  match l with
  | [] => Ok s
  | x :: rest =>
      do s <- body s x;
      for_each body rest s
  end.

(** [strcmp] on two allocations: the difference of the first bytes that
    differ, 0 when a nul is reached before. *)
Fixpoint strcmp (a b : list byte) : result Z :=
  match a, b with
  | x :: a', y :: b' =>
      if decide (x <> y)
      then Ok (Z.of_N (Byte.to_N x) - Z.of_N (Byte.to_N y))
      else if decide (x = NUL) then Ok 0
      else strcmp a' b'
  | _, _ => Fault
  end.

(** [p[i] = v] on an allocation of [int]. *)
Definition store_int (a : list Z) (i : Z) (v : Z) : result (list Z) :=
  if decide (0 <= i < Z.of_nat (length a))
  then Ok (<[Z.to_nat i := v]> a)
  else Fault.

(** [h->cp->output_idx] and [h->cp->output] for the host at position [j]. *)
Definition host_output_idx (hs : list Host) (j : nat) : result Z :=
  match hs !! j with
  | Some (mkHost _ (Some c)) => Ok (output_idx c)
  | _ => Fault
  end.

Definition host_output (hs : list Host) (j : nat) : result (list byte) :=
  match hs !! j with
  | Some (mkHost _ (Some c)) =>
      match output c with
      | Some b => Ok b
      | None => Fault
      end
  | _ => Fault
  end.

(** [h->cp->output_idx = v] for the host at position [j]. *)
Definition set_host_output_idx (hs : list Host) (j : nat) (v : Z)
  : result (list Host) :=
  match hs !! j with
  | Some (mkHost n (Some c)) =>
      Ok (<[j := mkHost n (Some (set_output_idx v c))]> hs)
  | _ => Fault
  end.

(** The body of the inner [for] of [join_mode_finish], for [h2] at
    position [j]; [i] is the position of [h1]. *)
Definition join_inner_body (i : nat) (idx : Z) (st : list Host * Z)
    (j : nat) : result (list Host * Z) :=
  let '(hs, num_same) := st in
  do idx2 <- host_output_idx hs j;
  if decide (idx2 >= 0) then Ok (hs, num_same)
  else
    do o1 <- host_output hs i;
    do o2 <- host_output hs j;
    do d <- strcmp o1 o2;
    if decide (d = 0) then
      do hs <- set_host_output_idx hs j idx;
      Ok (hs, num_same + 1)
    else Ok (hs, num_same).

(** The body of the outer [for], for [h1] at position [i]. *)
Definition join_outer_body (st : list Host * Z * list Z) (i : nat)
  : result (list Host * Z * list Z) :=
  let '(hs, idx, count) := st in
  do idx1 <- host_output_idx hs i;
  if decide (idx1 >= 0) then Ok (hs, idx, count)
  else
    do hs <- set_host_output_idx hs i idx;
    do (hs, num_same) <-
      for_each (join_inner_body i idx)
        (seq (S i) (length hs - S i)) (hs, 1);
    do count <- store_int count idx num_same;
    Ok (hs, idx + 1, count).

(** The first loop of [join_mode_finish]: the roster with its class
    indices, the number of classes and the sizes of the classes.
    [junk] is what the fresh [count] array holds. *)
Definition join_classes (junk : nat -> Z) (num_hosts : Z) (hs : list Host)
  : result (list Host * Z * list Z) :=
  do _ <- assert (bool_decide (4 * num_hosts > 0));
  let count := map junk (seq 0 (Z.to_nat num_hosts)) in
  for_each join_outer_body (seq 0 (length hs)) (hs, 0, count).

(** The walk over the roster that prints the members of class [i]: the
    positions printed, in the order printed. *)
Fixpoint class_members_from (hs : list Host) (j : nat) (i : Z)
  : result (list nat) :=
  match hs with
  | [] => Ok []
  | h :: rest =>
      match cp h with
      | None => Fault
      | Some c =>
          do ms <- class_members_from rest (S j) i;
          if decide (output_idx c <> i) then Ok ms
          else Ok (j :: ms)
      end
  end.

Definition class_members (hs : list Host) (i : Z) : result (list nat) :=
  class_members_from hs 0 i.

(** [pluralize] *)
Definition pluralize (num : Z) : list byte :=
  if decide (num = 1) then [] else lit "s".

(** The block [join_mode_finish] prints for class [i]. *)
Definition print_class (cl : Colors) (num_hosts : Z) (hs : list Host)
    (count : list Z) (k : Console) (i : nat) : result Console :=
  match count !! i with
  | None => Fault
  | Some n =>
      let k := emit (lit "hosts (" ++ magenta cl ++ print_int n ++ reset cl
                     ++ lit "/" ++ magenta cl ++ print_int num_hosts
                     ++ reset cl ++ lit "):" ++ cyan cl) k in
      do ms <- class_members hs (Z.of_nat i);
      let k := emit (concat (map (fun j =>
                       match hs !! j with
                       | Some h => lit " " ++ name h
                       | None => []
                       end) ms)) k in
      match last ms with
      | None => Abort
      | Some j =>
          do b <- match host_output hs j with
                  | Ok b => Ok b
                  | _ => Abort
                  end;
          do s <- cstr b;
          let k := emit (reset cl ++ [NL] ++ s) k in
          let k := if negb (ends_in_newline s) then emit [NL] k else k in
          Ok (emit [NL] k)
      end
  end.

(** [join_mode_finish(num_hosts)] *)
Definition join_mode_finish (cl : Colors) (junk : nat -> Z) (num_hosts : Z)
    (hs : list Host) (k : Console) : result (list Host * Console) :=
  do (hs, idx, count) <- join_classes junk num_hosts hs;
  let k := emit [NL] k in
  let k := emit (lit "finished with " ++ magenta cl ++ print_int idx
                 ++ reset cl ++ lit " unique result" ++ pluralize idx
                 ++ [NL; NL]) k in
  do k <- for_each (print_class cl num_hosts hs count)
            (seq 0 (Z.to_nat idx)) k;
  Ok (hs, k).

(* ================================================================== *)
(** ** Reading the roster *)

(** The bytes one [fgets] call takes from the stream: at most [n], ending
    with the first newline; and the rest of the stream. *)
Fixpoint fgets_take (n : nat) (f : list byte) : list byte * list byte :=
  match n, f with
  | S n', c :: rest =>
      if decide (c = NL) then ([c], rest)
      else let '(l, r) := fgets_take n' rest in (c :: l, r)
  | _, _ => ([], f)
  end.

(** [fgets(s, size, f)]: [None] for NULL at the end of the stream, else the
    bytes stored before the terminator and the rest of the stream. *)
Definition fgets (size : Z) (f : list byte)
  : option (list byte * list byte) :=
  match f with
  | [] => None
  | _ => Some (fgets_take (Z.to_nat (size - 1)) f)
  end.

(** The C string an array starts with, when the array is known to hold a
    terminator after [bytes]. *)
Fixpoint until_nul (bytes : list byte) : list byte :=
  match bytes with
  | [] => []
  | c :: rest => if decide (c = NUL) then [] else c :: until_nul rest
  end.

(** The [switch (prefix)] of [parse_hosts]: comments and blank lines. *)
Definition skipped_prefix (c : byte) : bool :=
  bool_decide (c = "#"%byte) || bool_decide (c = " "%byte)
  || bool_decide (c = NL) || bool_decide (c = NUL).

(** The [while] of [parse_hosts], for at most [fuel] calls of [fgets];
    [None] when they do not reach the end of the stream.  [hmax] is
    [HOST_NAME_MAX] of <limits.h>; [hs] is the list built so far. *)
Fixpoint parse_hosts_loop (fuel : nat) (hmax : Z) (f : list byte)
    (hs : list Host) (num_hosts lineno : Z)
  : option (result (list Host * Z)) :=
  match fuel with
  | O => None
  | S fuel =>
      match fgets hmax f with
      | None => Some (Ok (hs, num_hosts))
      | Some (bytes, f) =>
          let hostname := until_nul bytes in
          let prefix := hd NUL hostname in
          if skipped_prefix prefix
          then parse_hosts_loop fuel hmax f hs num_hosts (lineno + 1)
          else
            let '(hostname, cut) := lsplit_str hostname NL in
            if negb cut then Some (Exit 2)
            else parse_hosts_loop fuel hmax f (hs ++ [host_create hostname])
                   (num_hosts + 1) (lineno + 1)
      end
  end.

(** [parse_hosts(f)]: the list [hosts] and the number of hosts.  Every
    [fgets] call takes a byte when [hmax] is at least 2, so one call more
    than the stream has bytes reaches its end. *)
Definition parse_hosts (hmax : Z) (f : list byte)
  : option (result (list Host * Z)) :=
  parse_hosts_loop (S (length f)) hmax f [] 0 1.

(* ================================================================== *)
(** ** Reference descriptions

    What the specification says the engine shows, written from its words;
    the properties compare them with the functions above. *)

(** A descriptor's life in [read_active_fd]: the drains that end with
    EWOULDBLOCK, one after the other, then the drain that meets the end of
    file.  Returns the event record, standard output and the buffer handed
    to the child record. *)
Fixpoint stream_session (o : Opts) (cl : Colors) (h : Host)
    (fdev : FdEvent) (k : Console) (drains : list (list (list byte)))
    (final : list (list byte))
  : result (FdEvent * Console * option (option (list byte))) :=
  match drains with
  | [] =>
      do (fdev, k, _) <- read_loop o cl h fdev k final ReadEOF;
      process_eof o cl h fdev k
  | reads :: rest =>
      do (fdev, k, eof) <- read_loop o cl h fdev k reads ReadWouldBlock;
      if (eof : bool) then process_eof o cl h fdev k
      else stream_session o cl h fdev k rest final
  end.

(** The bytes of a stream delivered in these drains. *)
Definition stream_bytes (drains : list (list (list byte)))
    (final : list (list byte)) : list byte :=
  concat (concat drains ++ final).

(** Every [read] that returned data returned at least a byte. *)
Definition chunks_nonempty (reads : list (list byte)) : Prop :=
  Forall (fun buf => buf <> []) reads.

(** The lines of a stream: [scan cur s] gives the lines [s] completes,
    when [cur] is the line begun before [s], and the line left begun. *)
Fixpoint scan (cur : list byte) (s : list byte)
  : list (list byte) * list byte :=
  match s with
  | [] => ([], cur)
  | c :: rest =>
      if decide (c = NL) then
        let '(ls, r) := scan [] rest in (cur :: ls, r)
      else scan (cur ++ [c]) rest
  end.

(** The lines of a whole stream, without their newlines; a last line that
    lacks its newline counts when it is not empty. *)
Definition lines_of (s : list byte) : list (list byte) :=
  let '(ls, r) := scan [] s in
  ls ++ (if decide (r = []) then [] else [r]).

(** The prefix of a printed line. *)
Definition line_header (o : Opts) (cl : Colors) (h : Host) : list byte :=
  if anonymous o then []
  else lit "[" ++ cyan cl ++ name h ++ reset cl ++ lit "]" ++ lit " ".

Definition pipe_color (cl : Colors) (t : PipeType) : list byte :=
  match t with
  | PIPE_STDOUT => green cl
  | PIPE_STDERR => red cl
  | PIPE_STDIO => []
  end.

(** What line-by-line mode prints for the line [l] of a stream: the line
    cut at [max_line_length] bytes, its newline, and of that what
    precedes a nul. *)
Definition printed_line (o : Opts) (cl : Colors) (h : Host) (t : PipeType)
    (l : list byte) : list byte :=
  line_header o cl h ++ pipe_color cl t
  ++ until_nul (take (Z.to_nat (max_line_length o)) l ++ [NL])
  ++ reset cl.

(** What the line buffer holds of the line begun: the line, or its first
    [m] bytes and the injected newline. *)
Definition pending (m : nat) (cur : list byte) : list byte :=
  if decide (length cur <= m)%nat then cur else take m cur ++ [NL].

(** The line buffer of [fdev] holds the line begun [cur], for
    [max_line_length] [m]: an array of [m + 2] bytes that starts with
    [pending m cur], and the fill offset is the length of that. *)
Definition line_state (m : nat) (fdev : FdEvent) (cur : list byte) : Prop :=
  exists rest,
    buffer fdev = Some (pending m cur ++ rest)
    /\ length (pending m cur ++ rest) = (m + 2)%nat
    /\ offset fdev = Z.of_nat (length (pending m cur))
    /\ NL ∉ cur.

(** The chunks successive [read] calls return on one descriptor, handed to
    the formatter of the mode one after the other. *)
Definition dispatch_chunks (o : Opts) (cl : Colors) (h : Host)
    (fdev : FdEvent) (k : Console) (chunks : list (list byte))
  : result (FdEvent * Console) :=
  for_each (fun st buf => process_data o cl h (fst st) (snd st) buf)
    chunks (fdev, k).

(* ================================================================== *)
(** ** Sample data for the worked examples *)

(** The options [main] starts from. *)
Definition opts_default : Opts :=
  mkOpts false false false false false 50 false false 1024 8192
    MODE_LINE_BY_LINE.

(** [--max-line-length 4] *)
Definition opts_line4 : Opts :=
  mkOpts false false false false false 50 false false 4 8192
    MODE_LINE_BY_LINE.

(** A host named [h], not started, and started with the descriptors 5 and
    6 for its two pipes. *)
Definition host_h : Host := host_create (lit "h").

Definition child_5_6 : ChildProcess :=
  mkChildProcess 1000 5 6 (-1) None (-1) (-1) 0 (-1).

(** Fresh memory that holds the byte [?] everywhere. *)
Definition junk_marks : nat -> byte := fun _ => "?"%byte.

(** The event record [fdev_create] makes for the standard output of that
    child with [--max-line-length 4]. *)
Definition fdev_line4 : FdEvent :=
  mkFdEvent 0 5 (Some (replicate 6 "?"%byte)) 0 PIPE_STDOUT.

(** The capture buffer of [fdev] after the bytes [seen] of the stream, for
    [max_output_length] [n], [max_line_length] [mll] and a buffer that held
    [junk0] when it was allocated: the first [n] bytes seen, then either
    the rest of the allocation untouched, with the fill offset after the
    bytes, or the nul written by [process_data_join], with the fill offset
    one further; the latter needs the two limits to agree. *)
Definition join_state (n : nat) (mll : Z) (junk0 : list byte)
    (fdev : FdEvent) (seen : list byte) : Prop :=
  length junk0 = S n
  /\ ((buffer fdev
       = Some (take n seen ++ drop (length (take n seen)) junk0)
       /\ offset fdev = Z.of_nat (length (take n seen)))
      \/ (buffer fdev = Some (take n seen ++ [NUL])
          /\ offset fdev = Z.of_nat n + 1
          /\ (n < length seen)%nat
          /\ mll = Z.of_nat n)).




(** Chunks of several descriptors handed to the formatter in the order of
    their events; each comes with the event record it was read for, whose
    host is looked up in the roster [hs]. *)
Definition dispatch_events (o : Opts) (cl : Colors) (hs : list Host)
    (k : Console) (chunks : list (FdEvent * list byte)) : result Console :=
  for_each (fun k c =>
    match hs !! host (fst c) with
    | None => Fault
    | Some h =>
        do st <- process_data o cl h (fst c) k (snd c);
        Ok (snd st)
    end) chunks k.

(** The maximal runs of consecutive chunks of one host, with their host. *)
Fixpoint group_runs (chunks : list (FdEvent * list byte))
  : list (nat * list (FdEvent * list byte)) :=
  match chunks with
  | [] => []
  | c :: rest =>
      match group_runs rest with
      | (hi, cs) :: runs =>
          if decide (hi = host (fst c)) then (hi, c :: cs) :: runs
          else (host (fst c), [c]) :: (hi, cs) :: runs
      | [] => [(host (fst c), [c])]
      end
  end.

(** A chunk between the colour of its stream and the colour reset. *)
Definition framed (cl : Colors) (c : FdEvent * list byte) : list byte :=
  pipe_color cl (type (fst c)) ++ snd c ++ reset cl.

(** The header of host [hi] on its own line, unless anonymous. *)
Definition group_header (o : Opts) (cl : Colors) (hs : list Host) (hi : nat)
  : list byte :=
  if anonymous o then []
  else lit "[" ++ cyan cl
       ++ match hs !! hi with Some h => name h | None => [] end
       ++ reset cl ++ lit "]" ++ [NL].

(** Whether the last byte of the last chunk of a run is a newline. *)
Definition run_ends_in_newline (cs : list (FdEvent * list byte)) : bool :=
  match last cs with
  | Some c => last_is_newline (snd c)
  | None => true
  end.

(** What group mode prints for a sequence of runs: before each run a
    newline if the byte before it was not one ([nl] tells), then the header
    of the host, once, then the chunks of the run. *)
Fixpoint render_runs (o : Opts) (cl : Colors) (hs : list Host) (nl : bool)
    (runs : list (nat * list (FdEvent * list byte))) : list byte :=
  match runs with
  | [] => []
  | (hi, cs) :: rest =>
      (if nl then [] else [NL]) ++ group_header o cl hs hi
      ++ concat (map (framed cl) cs)
      ++ render_runs o cl hs (run_ends_in_newline cs) rest
  end.

(** The same when the host [prev] has emitted last: a first run of that
    host continues without newline and header. *)
Definition render_after (o : Opts) (cl : Colors) (hs : list Host)
    (prev : option nat) (nl : bool)
    (runs : list (nat * list (FdEvent * list byte))) : list byte :=
  match runs with
  | [] => []
  | (hi, cs) :: rest =>
      if decide (prev = Some hi) then
        concat (map (framed cl) cs)
        ++ render_runs o cl hs (run_ends_in_newline cs) rest
      else render_runs o cl hs nl runs
  end.

(** [--group] and three chunks, two of host 0 and one of host 1. *)
Definition opts_group : Opts :=
  mkOpts false false false true false 50 false false 1024 8192 MODE_GROUP.

Definition roster_a_b : list Host :=
  [mkHost (lit "a") (Some child_5_6); mkHost (lit "b") (Some child_5_6)].

Definition fdev_group (hi : nat) (t : PipeType) : FdEvent :=
  mkFdEvent hi 5 None 0 t.



(** The class index of a host, and of the host at a position of the
    roster (-1, the index of a host without class, past the end). *)
Definition class_of (h : Host) : Z :=
  match cp h with
  | Some c => output_idx c
  | None => -1
  end.

Definition cls (hs : list Host) (j : nat) : Z :=
  match hs !! j with
  | Some h => class_of h
  | None => -1
  end.

(** A host with another class index, and with none. *)
Definition set_class (v : Z) (h : Host) : Host :=
  mkHost (name h) (set_output_idx v <$> cp h).

Definition erase_class (h : Host) : Host := set_class (-1) h.

(** Every host of the roster has a child record whose captured output is
    an allocation that holds the C string at the same position of
    [outs]. *)
Definition captured (hs : list Host) (outs : list (list byte)) : Prop :=
  Forall2 (fun h s =>
    exists c b, cp h = Some c /\ output c = Some b /\ cstr b = Ok s) hs outs.

Definition junk_ints : nat -> Z := fun _ => 7.

(** What holds of the class indices [D] when the outer loop of
    [join_mode_finish] has handled the positions before [a] and formed [K]
    classes; [outs] are the captured strings.  The hosts before [a] have a
    class; a class index is -1 or below [K]; the hosts of the class of a
    host are those with its string; every class below the class of a host
    has a member before the host; every class has a member before [a]. *)
Definition classes_inv (outs : list (list byte)) (a : nat) (D : nat -> Z)
    (K : Z) : Prop :=
  0 <= K <= Z.of_nat a
  /\ (forall j, (j < a)%nat -> (j < length outs)%nat -> 0 <= D j)
  /\ (forall j, D j = -1 \/ 0 <= D j < K)
  /\ (forall j k s t, 0 <= D j -> outs !! j = Some s -> outs !! k = Some t ->
        D k = D j <-> t = s)
  /\ (forall j c, 0 <= c < D j -> exists k, (k < j)%nat /\ D k = c)
  /\ (forall c, 0 <= c < K -> exists k, (k < a)%nat /\ D k = c).

(* ================================================================== *)
(** ** What the main loop keeps true *)

(** Two event records for the same descriptor of the same host. *)
Definition same_id (f f' : FdEvent) : Prop :=
  host f' = host f /\ fd f' = fd f /\ type f' = type f.

(** The pipes a child has in a mode. *)
Definition pipes_of (m : ProgMode) : list PipeType :=
  match m with
  | MODE_JOIN => [PIPE_STDIO]
  | _ => [PIPE_STDOUT; PIPE_STDERR]
  end.

(** A host whose child was admitted and is not reaped yet, and a host
    whose child is reaped ([wait_for_child] sets the pid to -2). *)
Definition running (h : Host) : bool :=
  match cp h with
  | Some c => bool_decide (pid c <> -2)
  | None => false
  end.

Definition is_reaped (h : Host) : bool :=
  match cp h with
  | Some c => bool_decide (pid c = -2)
  | None => false
  end.

(** How many hosts of a roster satisfy [p]. *)
Fixpoint count_hosts (p : Host -> bool) (hs : list Host) : Z :=
  match hs with
  | [] => 0
  | h :: rest => (if p h then 1 else 0) + count_hosts p rest
  end.

(** How often the child of host [j] was reaped, and forked, in a list of
    actions. *)
Fixpoint reap_count (j : nat) (l : list Action) : nat :=
  match l with
  | [] => 0
  | Reaped h _ :: rest =>
      if decide (h = j) then S (reap_count j rest) else reap_count j rest
  | _ :: rest => reap_count j rest
  end.

Fixpoint fork_count (l : list Action) : nat :=
  match l with
  | [] => 0
  | Forked _ _ :: rest => S (fork_count rest)
  | _ :: rest => fork_count rest
  end.

(** How many children were reaped in a list of actions. *)
Fixpoint reaped_total (l : list Action) : nat :=
  match l with
  | [] => 0
  | Reaped _ _ :: rest => S (reaped_total rest)
  | _ :: rest => reaped_total rest
  end.

(** The pipe [t] of host [j] met its end of file in the actions [l]. *)
Definition closed_in (l : list Action) (j : nat) (t : PipeType) : Prop :=
  exists d, Closed j t d ∈ l.

(** The child record [c] of the admitted host [j], for the interest list
    [wt]: the descriptors of the mode are closed or registered under their
    number with an event record of the host and the pipe, the others were
    never opened, and the child is reaped with every pipe closed, or has
    its pid. *)
Definition child_ok (m : ProgMode) (wt : gmap Z FdEvent) (j : nat)
    (c : ChildProcess) : Prop :=
  (forall t, t ∉ pipes_of m -> cp_fd t c = -1)
  /\ (forall t, t ∈ pipes_of m ->
        cp_fd t c = -2
        \/ (0 <= cp_fd t c
            /\ exists fdev, wt !! cp_fd t c = Some fdev
                            /\ host fdev = j /\ type fdev = t))
  /\ ((pid c = -2 /\ forall t, t ∈ pipes_of m -> cp_fd t c = -2)
      \/ 0 < pid c).

(** What [main_loop] keeps true of the roster [hs], the interest list
    [wt], the actions [acts], its cursor [cur] and its two counters: the
    hosts from the cursor on have no child, the hosts before it have a
    child record in order, every registered descriptor belongs to the
    child record it was read from, the counters count the running and the
    reaped children, and the actions tell the same story. *)
Definition engine_inv (g : Globals) (hs : list Host) (wt : gmap Z FdEvent)
    (acts : list Action) (cur : nat) (nout ndone : Z) : Prop :=
  let m := mode (opts g) in
  (cur <= length hs)%nat
  /\ (forall j h, hs !! j = Some h -> (cur <= j)%nat -> cp h = None)
  /\ (forall j h, hs !! j = Some h -> (j < cur)%nat ->
        exists c, cp h = Some c /\ child_ok m wt j c)
  /\ (forall d fdev, wt !! d = Some fdev ->
        fd fdev = d /\ 0 <= d /\ type fdev ∈ pipes_of m
        /\ exists h c, hs !! host fdev = Some h /\ cp h = Some c
                       /\ cp_fd (type fdev) c = d)
  /\ nout = count_hosts running hs
  /\ ndone = count_hosts is_reaped hs
  /\ nout <= max_jobs (opts g)
  /\ (forall j, reap_count j acts
                 = match hs !! j with
                   | Some h => if is_reaped h then 1%nat else 0%nat
                   | None => 0%nat
                   end)
  /\ (forall j h c t, hs !! j = Some h -> cp h = Some c ->
        cp_fd t c = -2 -> closed_in acts j t)
  /\ (forall pre p post j, acts = pre ++ Reaped j p :: post ->
        forall t, t ∈ pipes_of m -> closed_in pre j t).

(** The invariant of [main_loop]: the engine invariant; the cursor counts
    the forks and [done] the reaps; and a loop that returned has admitted
    every host and none is outstanding. *)
Definition loop_inv (g : Globals) (s : Loop) : Prop :=
  engine_inv g (hosts (world s)) (watch (world s)) (actions (world s))
    (cur_host s) (outstanding s) (done s)
  /\ fork_count (actions (world s)) = cur_host s
  /\ Z.of_nat (reaped_total (actions (world s))) = done s
  /\ Z.of_nat (cur_host s) = outstanding s + done s
  /\ (pc s = Returned ->
        cur_host s = length (hosts (world s)) /\ outstanding s = 0).

(** The read end [make_pipe] returned for a pipe during an admission. *)
Definition adm_fd (a : Admission) (t : PipeType) : Z :=
  match t with
  | PIPE_STDOUT => adm_stdout a
  | PIPE_STDERR => adm_stderr a
  | PIPE_STDIO => adm_stdio a
  end.

(* ================================================================== *)
(** ** Sample runs of the main loop *)

(** [sshp -m 1 uname] without a terminal, on two hosts. *)
Definition globals_cap1 : Globals :=
  mkGlobals
    (mkOpts false false false false false 1 false false 1024 8192
       MODE_LINE_BY_LINE)
    colors_off [lit "echo"; lit "ssh"] [lit "uname"] false.

(** [sshp -j uname] without a terminal. *)
Definition globals_join : Globals :=
  mkGlobals
    (mkOpts false false false false true 50 false false 1024 8192 MODE_JOIN)
    colors_off [lit "echo"; lit "ssh"] [lit "uname"] false.

(** The kernel during an admission: the pipes 5, 6 and 7, a pid and the
    clock. *)
Definition admission (p : positive) : Admission :=
  mkAdmission 5 6 7 true (Some p) (Some 0) (fun _ => junk_marks).

(** A child that writes [x\n] on its standard output and nothing on its
    standard error: the events of its two pipes, the end of file of the
    standard error last, and the other way round. *)
Definition events_out_err : list Ready :=
  [mkReady 5 [lit "x" ++ [NL]] ReadEOF (Some 0) (Some 1);
   mkReady 6 [] ReadEOF (Some 0) (Some 1)].

Definition events_err_out : list Ready :=
  [mkReady 6 [] ReadEOF (Some 0) (Some 1);
   mkReady 5 [lit "x" ++ [NL]] ReadEOF (Some 0) (Some 1)].

(** The inputs of the seven steps that admit a child, wait for it and
    handle these events, and of a whole run on two hosts with a cap of
    one job. *)
Definition inputs_child (p : positive) (evs : list Ready) : list Input :=
  replicate 7 (mkInput (admission p) (Some evs)).

Definition inputs_two_hosts : list Input :=
  inputs_child 100 events_out_err ++ inputs_child 101 events_err_out
  ++ [mkInput (admission 102) (Some [])].

(** A child in join mode that writes [hello\n] on its merged pipe, and
    the inputs of a whole run on that host. *)
Definition events_join : list Ready :=
  [mkReady 7 [lit "hello" ++ [NL]] ReadEOF (Some 0) (Some 1)].

Definition inputs_join : list Input :=
  replicate 7 (mkInput (admission 100) (Some events_join)).

(* ================================================================== *)
(** ** The options the engine runs with *)

Definition set_mode (m : ProgMode) (o : Opts) : Opts :=
  mkOpts (anonymous o) (debug o) (exit_codes o) (group o) (join o)
    (max_jobs o) (silent o) (trim o) (max_line_length o)
    (max_output_length o) m.

(** [parse_arguments], from the end of the [getopt_long] loop to the
    choice of the mode: the sanity checks on the options, each of them an
    [errx(2, ...)]. *)
Definition parse_arguments_checks (o : Opts) : result Opts :=
  if decide (max_jobs o < 1) then Exit 2
  else if join o && group o then Exit 2
  else if join o && silent o then Exit 2
  else if join o && anonymous o then Exit 2
  else if decide (max_line_length o <= 0) then Exit 2
  else if decide (max_output_length o <= 0) then Exit 2
  else
    do _ <- assert (negb (join o && group o));
    Ok (if join o then set_mode MODE_JOIN o
        else if group o then set_mode MODE_GROUP o
        else o).

(** In join mode, what [main_loop] keeps true of the capture buffers, for
    [max_output_length] [n] and [max_line_length] [mll]: every registered
    event record holds a capture buffer in order; no child record has a
    class yet; and a child whose merged pipe met its end of file holds
    its captured output, an allocation with a nul in it. *)
Definition capture_inv (n : nat) (mll : Z) (w : World) : Prop :=
  (forall d f, watch w !! d = Some f ->
     exists junk0 seen, join_state n mll junk0 f seen)
  /\ (forall j h c, hosts w !! j = Some h -> cp h = Some c ->
        output_idx c = -1
        /\ (stdio_fd c = -2 ->
            exists b s, output c = Some b /\ cstr b = Ok s)).

(** [sshp -j -m 1 --max-output-length 8 uname] without a terminal, and
    the inputs of the six steps that admit a child, wait for it and handle
    the one event of its merged pipe, on which it wrote [s]. *)
Definition globals_join_cap1 : Globals :=
  mkGlobals
    (mkOpts false false false false true 1 false false 1024 8 MODE_JOIN)
    colors_off [lit "echo"; lit "ssh"] [lit "uname"] false.

Definition inputs_join_child (p : positive) (s : list byte) : list Input :=
  replicate 6
    (mkInput (admission p) (Some [mkReady 7 [s] ReadEOF (Some 0) (Some 1)])).

(** A whole run on three hosts whose children write [x\n], [y\n] and
    [x\n], and one on two hosts whose children write [a\0b] and
    [a\0c]. *)
Definition inputs_join_x_y_x : list Input :=
  inputs_join_child 100 (lit "x" ++ [NL])
  ++ inputs_join_child 101 (lit "y" ++ [NL])
  ++ inputs_join_child 102 (lit "x" ++ [NL])
  ++ [mkInput (admission 103) (Some [])].

Definition inputs_join_nul : list Input :=
  inputs_join_child 100 ["a"%byte; NUL; "b"%byte]
  ++ inputs_join_child 101 ["a"%byte; NUL; "c"%byte]
  ++ [mkInput (admission 102) (Some [])].

(* ================================================================== *)
(** ** The report of the join aggregator *)

(** The block [join_mode_finish] prints for a class of [n] members, at the
    positions [ms] of the roster, whose captured string is [s]. *)
Definition class_block (cl : Colors) (num_hosts : Z) (hs : list Host)
    (n : Z) (ms : list nat) (s : list byte) : list byte :=
  lit "hosts (" ++ magenta cl ++ print_int n ++ reset cl ++ lit "/"
  ++ magenta cl ++ print_int num_hosts ++ reset cl ++ lit "):" ++ cyan cl
  ++ concat (map (fun j => match hs !! j with
                           | Some h => lit " " ++ name h
                           | None => []
                           end) ms)
  ++ reset cl ++ [NL] ++ s
  ++ (if ends_in_newline s then [] else [NL]) ++ [NL].

(** A child record as the main loop of join mode leaves it, with the
    captured output [b], and a roster of three hosts whose children wrote
    [x\n], [y\n] and [x\n]. *)
Definition child_reaped (b : list byte) : ChildProcess :=
  mkChildProcess (-2) (-1) (-1) (-2) (Some b) (-1) 0 0 1.

Definition roster_x_y_x : list Host :=
  [mkHost (lit "a") (Some (child_reaped (lit "x" ++ [NL; NUL])));
   mkHost (lit "b") (Some (child_reaped (lit "y" ++ [NL; NUL])));
   mkHost (lit "c") (Some (child_reaped (lit "x" ++ [NL; NUL])))].

(* ================================================================== *)
(** ** Reading a trace *)

(** The hosts forked in a list of actions, in the order of the forks. *)
Fixpoint forked_hosts (l : list Action) : list nat :=
  match l with
  | [] => []
  | Forked h _ :: rest => h :: forked_hosts rest
  | _ :: rest => forked_hosts rest
  end.

(** What precedes an action in a trace of the engine: the fork of the
    host, with the pid the reaper waits for. *)
Definition action_in_order (pre : list Action) (y : Action) : Prop :=
  match y with
  | Forked j _ => forall p, Forked j p ∉ pre
  | Closed j _ _ => exists p, Forked j p ∈ pre
  | Reaped j p => Forked j p ∈ pre
  end.

(** [sshp -t uname] without a terminal, and the inputs of a whole run on
    one host whose child writes [x\n]. *)
Definition globals_trim : Globals :=
  mkGlobals
    (mkOpts false false false false false 50 false true 1024 8192
       MODE_LINE_BY_LINE)
    colors_off [lit "echo"; lit "ssh"] [lit "uname"] false.

Definition inputs_one_host : list Input :=
  inputs_child 100 events_out_err ++ [mkInput (admission 101) (Some [])].

(* ================================================================== *)
(** ** The progress of join mode *)

(** The bytes [print_progress_line(done, num_hosts)] prints. *)
Definition progress_line (cl : Colors) (done num_hosts : Z) : list byte :=
  lit "[" ++ cyan cl ++ PROG_NAME ++ reset cl ++ lit "] finished "
  ++ magenta cl ++ print_int done ++ reset cl ++ lit "/"
  ++ magenta cl ++ print_int num_hosts ++ reset cl ++ [CR].

(** What the main loop of join mode has printed when [n] children are
    reaped: the line for no child when standard output is a terminal,
    then a line per child reaped, and a newline after the line that counts
    all the hosts. *)
Definition progress_report (cl : Colors) (num_hosts : Z) (tty : bool)
    (n : nat) : list byte :=
  (if tty then progress_line cl 0 num_hosts else [])
  ++ concat (map (fun i => progress_line cl (Z.of_nat i) num_hosts
                           ++ (if decide (Z.of_nat i = num_hosts)
                               then [NL] else []))
               (seq 1 n)).

(* ================================================================== *)
(** ** The buffers of the registered descriptors *)

(** The buffer of an event record is in order for the mode: a line buffer
    that holds a line begun, a capture buffer that holds the bytes seen, or
    no buffer in group mode. *)
Definition fdev_ok (o : Opts) (f : FdEvent) : Prop :=
  match mode o with
  | MODE_LINE_BY_LINE =>
      exists cur, line_state (Z.to_nat (max_line_length o)) f cur
  | MODE_JOIN =>
      exists junk0 seen,
        join_state (Z.to_nat (max_output_length o)) (max_line_length o)
          junk0 f seen
  | MODE_GROUP => True
  end.

Definition buffers_ok (o : Opts) (w : World) : Prop :=
  forall d f, watch w !! d = Some f -> fdev_ok o f.

(** What the kernel can answer in the state [s]: a pipe that [pipe]
    created has a descriptor that is not negative, and [epoll_wait]
    returns entries of registered descriptors. *)
Definition kernel_ok (g : Globals) (i : Input) (s : Loop) : Prop :=
  (pc s = Launching ->
   forall t, t ∈ pipes_of (mode (opts g)) -> 0 <= adm_fd (in_admission i) t)
  /\ (forall r evs, pc s = Dispatching (r :: evs) ->
        is_Some (watch (world s) !! rdy_fd r)).

(* ================================================================== *)
(** ** Failed system calls *)






(* ================================================================== *)
(** * Properties *)

(** ** The outcome monad *)

Lemma bind_Ok {A B : Type} (m : result A) (k : A -> result B) (b : B) :
  bind m k = Ok b -> exists a, m = Ok a /\ k a = Ok b.
Proof. destruct m; simpl; intros H; try discriminate. eauto. Qed.

Lemma assert_Ok (b : bool) : assert b = Ok tt -> b = true.
Proof. destruct b; simpl; [done | discriminate]. Qed.

Lemma assert_true (b : bool) : b = true -> assert b = Ok tt.
Proof. intros ->. done. Qed.

Lemma for_each_app {A S : Type} (body : S -> A -> result S) l1 l2 s :
  for_each body (l1 ++ l2) s = do s' <- for_each body l1 s; for_each body l2 s'.
Proof.
  revert s. induction l1 as [|x l1 IH]; intros s; simpl; [done|].
  destruct (body s x); simpl; auto.
Qed.

(** ** The options the engine runs with *)

(** X6: the checks of [parse_arguments] end the run with exit code 2 when
    there is less than one job, when [-j] comes with [-g], [-s] or [-a], or
    when a length limit is not positive, and in no other case; the options
    they let through have at least one job, positive limits, never [-j]
    together with [-g], [-s] or [-a], and the mode that [-j] and [-g]
    choose, with every other option as it was.  The assertion on the two
    flags never fails. *)
Theorem parse_arguments_checks_spec o :
  mode o = MODE_LINE_BY_LINE ->
  (parse_arguments_checks o = Exit 2
   /\ (max_jobs o < 1
       \/ join o && (group o || silent o || anonymous o) = true
       \/ max_line_length o <= 0 \/ max_output_length o <= 0))
  \/ (exists o',
        parse_arguments_checks o = Ok o'
        /\ 1 <= max_jobs o' /\ 0 < max_line_length o'
        /\ 0 < max_output_length o'
        /\ join o' && (group o' || silent o' || anonymous o') = false
        /\ (mode o' = MODE_JOIN ->
            group o' = false /\ silent o' = false /\ anonymous o' = false)
        /\ mode o' = (if join o then MODE_JOIN
                      else if group o then MODE_GROUP
                      else MODE_LINE_BY_LINE)
        /\ set_mode (mode o) o' = o).
Proof.
  intros Hmode. unfold parse_arguments_checks.
  destruct (decide (max_jobs o < 1)); [left; split; [done | by left]|].
  destruct (join o) eqn:Hj, (group o) eqn:Hg, (silent o) eqn:Hs,
    (anonymous o) eqn:Ha; cbn [andb orb negb];
    try (left; split; [done | right; by left]);
    (destruct (decide (max_line_length o <= 0));
       [left; split; [done | right; right; by left]|]);
    (destruct (decide (max_output_length o <= 0));
       [left; split; [done | right; right; by right]|]);
    right; eexists; (split; [reflexivity|]); cbn;
    rewrite ?Hj, ?Hg, ?Hs, ?Ha, ?Hmode;
    (split; [lia|]); (split; [lia|]); (split; [lia|]);
    (split; [done|]); (split; [done|]); (split; [done|]);
    destruct o; cbn in *; by subst.
Qed.

(** [-j -m 4] is let through and [-j -s] is not. *)
Lemma parse_arguments_checks_spec_witness :
  (exists o',
     parse_arguments_checks
       (mkOpts false false false false true 4 false false 1024 8192
          MODE_LINE_BY_LINE) = Ok o'
     /\ mode o' = MODE_JOIN /\ max_jobs o' = 4)
  /\ parse_arguments_checks
       (mkOpts false false false false true 4 true false 1024 8192
          MODE_LINE_BY_LINE) = Exit 2.
Proof.
  split.
  - destruct (parse_arguments_checks_spec
                (mkOpts false false false false true 4 false false 1024 8192
                   MODE_LINE_BY_LINE) eq_refl)
      as [[Hexit _]|(o' & Hok & _ & _ & _ & _ & _ & Hm & _)];
      [discriminate Hexit|].
    exists o'. split; [exact Hok|]. split; [exact Hm|].
    vm_compute in Hok. by injection Hok as <-.
  - destruct (parse_arguments_checks_spec
                (mkOpts false false false false true 4 true false 1024 8192
                   MODE_LINE_BY_LINE) eq_refl)
      as [[Hexit _]|(o' & Hok & _)]; [exact Hexit | discriminate Hok].
Defined.

(** The options [main] starts from pass the checks, and so do they with
    [-j]; [-j -s] ends the run with the exit code 2. *)
Lemma parse_arguments_checks_default :
  parse_arguments_checks opts_default = Ok opts_default
  /\ parse_arguments_checks
       (mkOpts false false false false true 50 false false 1024 8192
          MODE_LINE_BY_LINE)
     = Ok (opts globals_join)
  /\ parse_arguments_checks
       (mkOpts false false false false true 50 true false 1024 8192
          MODE_LINE_BY_LINE)
     = Exit 2.
Proof. done. Qed.

(** ** C strings and arrays *)

Lemma cstr_until_nul (s r : list byte) :
  cstr (s ++ NUL :: r) = Ok (until_nul s).
Proof.
  induction s as [|c s IH]; cbn [cstr until_nul app].
  - by case_decide.
  - case_decide; [done|]. by rewrite IH.
Qed.

Lemma until_nul_id (s : list byte) : NUL ∉ s -> until_nul s = s.
Proof.
  induction s as [|c s IH]; cbn [until_nul]; [done|].
  intros Hn. apply not_elem_of_cons in Hn as [Hc Hs].
  case_decide; [done|]. by rewrite IH.
Qed.

Lemma store_app (pre post : list byte) (x c : byte) :
  store (pre ++ x :: post) (Z.of_nat (length pre)) c
  = Ok (pre ++ c :: post).
Proof.
  unfold store. rewrite decide_True.
  - rewrite Nat2Z.id. f_equal.
    rewrite insert_app_r_alt by lia. by rewrite Nat.sub_diag.
  - rewrite length_app. simpl. lia.
Qed.

Lemma load_app (pre post : list byte) (x : byte) :
  load (pre ++ x :: post) (Z.of_nat (length pre)) = Ok x.
Proof.
  unfold load. rewrite decide_True by lia. rewrite Nat2Z.id.
  by rewrite list_lookup_middle.
Qed.

(** An array longer than [pre] splits after [pre]. *)
Lemma split_room (pre rest : list byte) (n : nat) :
  (length (pre ++ rest) = n)%nat -> (length pre < n)%nat ->
  exists x post, rest = x :: post.
Proof.
  intros Hl Hlt. destruct rest as [|x post]; [|eauto].
  rewrite app_nil_r in Hl. lia.
Qed.

Lemma emit_emit (a b : list byte) (k : Console) :
  emit a (emit b k) = emit (b ++ a) k.
Proof. unfold emit. simpl. by rewrite <- app_assoc. Qed.

Lemma emit_nil (k : Console) : emit [] k = k.
Proof. destruct k. unfold emit. simpl. by rewrite app_nil_r. Qed.

(** ** Line-by-line mode *)

Lemma pending_short (m : nat) (cur : list byte) :
  (length cur <= m)%nat -> pending m cur = cur.
Proof. intros H. unfold pending. by rewrite decide_True. Qed.

Lemma pending_long (m : nat) (cur : list byte) :
  (m < length cur)%nat -> pending m cur = take m cur ++ [NL].
Proof. intros H. unfold pending. rewrite decide_False; [done | lia]. Qed.

Lemma pending_length (m : nat) (cur : list byte) :
  (length (pending m cur) <= m + 1)%nat.
Proof.
  unfold pending. case_decide; [lia|].
  rewrite length_app, length_take. simpl. lia.
Qed.

Lemma pending_nil (m : nat) (cur : list byte) :
  pending m cur = [] -> cur = [].
Proof.
  unfold pending. case_decide; [done|].
  intros Hp. by apply app_eq_nil in Hp as [_ ?].
Qed.

Lemma print_line_buffer_spec o cl h fdev k (s r : list byte) :
  buffer fdev = Some (s ++ NUL :: r) ->
  print_line_buffer o cl h fdev k
  = Ok (emit (line_header o cl h ++ pipe_color cl (type fdev)
              ++ until_nul s ++ reset cl) k).
Proof.
  intros Hb. unfold print_line_buffer. rewrite Hb, cstr_until_nul.
  cbn [bind].
  unfold line_header, print_host_header, fdev_get_color, pipe_color.
  destruct (anonymous o).
  - done.
  - rewrite !emit_emit. do 2 f_equal. by rewrite <- !app_assoc.
Qed.

Lemma pending_newline (m : nat) (cur : list byte) :
  pending m (cur ++ [NL]) = take m cur ++ [NL].
Proof.
  unfold pending. rewrite length_app. simpl. case_decide.
  - by rewrite take_ge by lia.
  - by rewrite take_app_le by lia.
Qed.

Lemma push_byte_spec fdev (pre post : list byte) (x c : byte) :
  buffer fdev = Some (pre ++ x :: post) ->
  offset fdev = Z.of_nat (length pre) ->
  push_byte fdev c
  = Ok (mkFdEvent (host fdev) (fd fdev) (Some ((pre ++ [c]) ++ post))
          (Z.of_nat (length (pre ++ [c]))) (type fdev)).
Proof.
  intros Hb Ho. unfold push_byte. rewrite Hb, Ho, store_app. cbn [bind].
  rewrite <- app_assoc. simpl. rewrite length_app. simpl.
  do 2 f_equal. lia.
Qed.

Lemma poke_byte_spec fdev (pre post : list byte) (x c : byte) :
  buffer fdev = Some (pre ++ x :: post) ->
  offset fdev = Z.of_nat (length pre) ->
  poke_byte fdev c = Ok (set_buffer fdev (Some (pre ++ c :: post))).
Proof.
  intros Hb Ho. unfold poke_byte. by rewrite Hb, Ho, store_app.
Qed.

Section LineByLine.
Variables (o : Opts) (cl : Colors) (h : Host) (m : nat).
Hypothesis Hm : max_line_length o = Z.of_nat m.

(** The first half of a turn of the loop: the byte is stored, or the
    newline injected, or nothing happens, and in each case the buffer
    holds what is pending of the longer line. *)
Lemma line_store_spec fdev (cur rest : list byte) (c : byte) :
  buffer fdev = Some (pending m cur ++ rest) ->
  length (pending m cur ++ rest) = (m + 2)%nat ->
  offset fdev = Z.of_nat (length (pending m cur)) ->
  exists rest',
    (if decide (offset fdev < max_line_length o) then push_byte fdev c
     else if decide (offset fdev = max_line_length o)
          then push_byte fdev NL
          else Ok fdev)
    = Ok (mkFdEvent (host fdev) (fd fdev)
            (Some (pending m (cur ++ [c]) ++ rest'))
            (Z.of_nat (length (pending m (cur ++ [c])))) (type fdev))
    /\ length (pending m (cur ++ [c]) ++ rest') = (m + 2)%nat.
Proof.
  intros Hb Hl Ho. rewrite Hm.
  destruct (decide (length cur < m)%nat) as [Hlt|Hge].
  - (* room for the byte *)
    rewrite pending_short in Hb, Hl, Ho by lia.
    destruct (split_room cur rest (m + 2)) as (x & post & ->); [done|lia|].
    rewrite decide_True by lia.
    rewrite (push_byte_spec fdev cur post x c) by done.
    rewrite (pending_short m (cur ++ [c])) by (rewrite length_app; simpl; lia).
    exists post. split; [done|].
    rewrite !length_app in *. simpl in *. lia.
  - destruct (decide (length cur = m)) as [Heq|Hne].
    + (* exactly full: the newline is injected *)
      rewrite pending_short in Hb, Hl, Ho by lia.
      destruct (split_room cur rest (m + 2)) as (x & post & ->);
        [done|lia|].
      rewrite decide_False by lia. rewrite decide_True by lia.
      rewrite (push_byte_spec fdev cur post x NL) by done.
      rewrite (pending_long m (cur ++ [c]))
        by (rewrite length_app; simpl; lia).
      rewrite take_app_le by lia. rewrite take_ge by lia.
      exists post. split; [done|].
      rewrite !length_app in *. simpl in *. lia.
    + (* over-full: the byte is dropped *)
      rewrite pending_long in Hb, Hl, Ho by lia.
      assert (length (take m cur ++ [NL]) = (m + 1)%nat) as Hlen.
      { rewrite length_app, length_take. simpl. lia. }
      rewrite decide_False by lia. rewrite decide_False by lia.
      rewrite (pending_long m (cur ++ [c]))
        by (rewrite length_app; simpl; lia).
      rewrite take_app_le by lia.
      exists rest. split; [|done].
      destruct fdev; simpl in *. by rewrite Hb, Ho.
Qed.

(** A byte that is not a newline extends the line begun and prints
    nothing. *)
Lemma line_by_line_byte_other fdev k (cur : list byte) (c : byte) :
  c <> NL -> line_state m fdev cur ->
  exists fdev',
    line_by_line_byte o cl h (fdev, k) c = Ok (fdev', k)
    /\ line_state m fdev' (cur ++ [c])
    /\ type fdev' = type fdev.
Proof.
  intros Hc (rest & Hb & Hl & Ho & Hn).
  destruct (line_store_spec fdev cur rest c Hb Hl Ho) as (rest' & Hs & Hl').
  unfold line_by_line_byte. rewrite Hs. cbn [bind].
  rewrite decide_False by done.
  eexists. split; [done|]. split; [|done].
  exists rest'. simpl. repeat split; try done.
  rewrite not_elem_of_app, not_elem_of_cons. split; [done|].
  split; [done | apply not_elem_of_nil].
Qed.

(** A newline prints the line begun and empties the buffer. *)
Lemma line_by_line_byte_newline fdev k (cur : list byte) :
  line_state m fdev cur ->
  exists fdev',
    line_by_line_byte o cl h (fdev, k) NL
    = Ok (fdev', emit (printed_line o cl h (type fdev) cur) k)
    /\ line_state m fdev' []
    /\ type fdev' = type fdev.
Proof.
  intros (rest & Hb & Hl & Ho & Hn).
  destruct (line_store_spec fdev cur rest NL Hb Hl Ho)
    as (rest' & Hs & Hl').
  unfold line_by_line_byte. rewrite Hs. cbn [bind].
  rewrite decide_True by done.
  pose proof (pending_length m (cur ++ [NL])) as Hpl.
  rewrite pending_newline in *.
  assert (0 < length (take m cur ++ [NL]))%nat as Hpos.
  { rewrite length_app. simpl. lia. }
  destruct (split_room (take m cur ++ [NL]) rest' (m + 2))
    as (x & post & ->); [done|lia|].
  cbn [offset]. rewrite Hm.
  rewrite !assert_true by (apply bool_decide_eq_true; lia).
  cbn [bind].
  erewrite poke_byte_spec by (cbn [buffer offset]; done).
  cbn [bind].
  erewrite print_line_buffer_spec by (cbn [buffer set_buffer]; done).
  cbn [bind].
  eexists. split.
  { unfold printed_line. rewrite Hm, Nat2Z.id. done. }
  split; [|done].
  exists ((take m cur ++ [NL]) ++ NUL :: post).
  rewrite (pending_short m []) by (simpl; lia).
  split; [done|].
  split; [|split; [done | apply not_elem_of_nil]].
  rewrite !length_app in *. simpl in *. lia.
Qed.
End LineByLine.

Lemma scan_app (cur s1 s2 : list byte) :
  scan cur (s1 ++ s2)
  = ((scan cur s1).1 ++ (scan (scan cur s1).2 s2).1,
     (scan (scan cur s1).2 s2).2).
Proof.
  revert cur. induction s1 as [|c s1 IH]; intros cur; cbn [scan app].
  - simpl. by destruct (scan cur s2).
  - case_decide.
    + rewrite (IH []). by destruct (scan [] s1).
    + apply IH.
Qed.

Lemma load_last (pre rest : list byte) (x : byte) :
  load ((pre ++ [x]) ++ rest) (Z.of_nat (length (pre ++ [x])) - 1) = Ok x.
Proof.
  rewrite <- app_assoc. simpl. rewrite length_app. simpl.
  replace (Z.of_nat (length pre + 1) - 1) with (Z.of_nat (length pre)) by lia.
  apply load_app.
Qed.

Section LineByLineStream.
Variables (o : Opts) (cl : Colors) (h : Host) (m : nat).
Hypothesis Hm : max_line_length o = Z.of_nat m.

(** The lines a run of bytes completes are printed, one after the other,
    and the buffer holds the line left begun. *)
Lemma line_by_line_loop_spec (s : list byte) : forall fdev k cur,
  line_state m fdev cur ->
  exists fdev',
    line_by_line_loop o cl h (fdev, k) s
    = Ok (fdev', emit (concat (map (printed_line o cl h (type fdev))
                                 (scan cur s).1)) k)
    /\ line_state m fdev' (scan cur s).2
    /\ type fdev' = type fdev.
Proof.
  induction s as [|c s IH]; intros fdev k cur Hst; cbn [line_by_line_loop scan].
  - exists fdev. by rewrite emit_nil.
  - case_decide as Hc.
    + subst c.
      destruct (line_by_line_byte_newline o cl h m Hm fdev k cur Hst)
        as (fdev1 & -> & Hst1 & Ht1).
      cbn [bind].
      destruct (IH fdev1 (emit (printed_line o cl h (type fdev) cur) k) []
                  Hst1) as (fdev' & -> & Hst' & Ht').
      exists fdev'. destruct (scan [] s) as [ls r]. cbn [fst snd] in *.
      rewrite Ht1, emit_emit. cbn [map concat].
      split; [done|]. split; [done | congruence].
    + destruct (line_by_line_byte_other o cl h m Hm fdev k cur c Hc Hst)
        as (fdev1 & -> & Hst1 & Ht1).
      cbn [bind].
      destruct (IH fdev1 k (cur ++ [c]) Hst1) as (fdev' & -> & Hst' & Ht').
      exists fdev'. rewrite Ht1. split; [done|]. split; [done | congruence].
Qed.

(** The end of the file prints the line left begun, if there is one. *)
Lemma eof_line_by_line_spec fdev k (cur : list byte) :
  line_state m fdev cur ->
  exists fdev',
    eof_line_by_line o cl h fdev k
    = Ok (fdev', emit (concat (map (printed_line o cl h (type fdev))
                                 (if decide (cur = []) then [] else [cur])))
                   k)
    /\ offset fdev' = 0.
Proof.
  intros (rest & Hb & Hl & Ho & Hn). unfold eof_line_by_line.
  destruct (decide (cur = [])) as [Hcur|Hcur].
  - subst cur. rewrite pending_short in Ho by (simpl; lia).
    rewrite decide_True by done. exists fdev. by rewrite emit_nil.
  - assert (pending m cur <> []) as Hp by (intros ?%pending_nil; done).
    assert (0 < length (pending m cur))%nat as Hpos.
    { destruct (pending m cur); simpl; [done | lia]. }
    rewrite decide_False by lia. rewrite Hb.
    pose proof (pending_length m cur) as Hpl.
    destruct (decide (length cur <= m)%nat) as [Hle|Hgt].
    + (* the line lacks its newline: one is appended *)
      rewrite pending_short in * by done.
      destruct (exists_last Hp) as (pre & x & Hx).
      assert (x <> NL) as Hxn.
      { intros ->. apply Hn. rewrite Hx. set_solver. }
      rewrite Ho. subst cur. rewrite load_last. cbn [bind].
      rewrite decide_True by done.
      set (cur := pre ++ [x]) in *.
      destruct (split_room cur rest (m + 2)) as (y & post & ->);
        [done|lia|].
      rewrite (push_byte_spec fdev cur post y NL) by done. cbn [bind].
      assert (length (cur ++ [NL]) = S (length cur)) as Hlen.
      { rewrite length_app. simpl. lia. }
      destruct (split_room (cur ++ [NL]) post (m + 2))
        as (z & post' & ->).
      { rewrite !length_app in *. simpl in *. lia. }
      { lia. }
      cbn [offset]. rewrite Hm.
      rewrite assert_true by (apply bool_decide_eq_true; lia).
      cbn [bind].
      erewrite poke_byte_spec by (cbn [buffer offset]; done).
      cbn [bind].
      erewrite print_line_buffer_spec by (cbn [buffer set_buffer]; done).
      cbn [bind].
      eexists. split.
      { cbn [map concat]. rewrite app_nil_r.
        unfold printed_line. rewrite Hm, Nat2Z.id.
        rewrite take_ge by lia. done. }
      reflexivity.
    + (* the newline was injected already *)
      rewrite pending_long in * by lia.
      rewrite Ho. rewrite load_last. cbn [bind].
      rewrite decide_False by (intros Hne; by apply Hne).
      cbn [bind].
      destruct (split_room (take m cur ++ [NL]) rest (m + 2))
        as (z & post' & ->); [done|lia|].
      rewrite Ho, Hm.
      rewrite assert_true by (apply bool_decide_eq_true; lia).
      cbn [bind].
      erewrite poke_byte_spec by done.
      cbn [bind].
      erewrite print_line_buffer_spec by (cbn [buffer set_buffer]; done).
      cbn [bind].
      eexists. split.
      { cbn [map concat]. rewrite app_nil_r.
        unfold printed_line. rewrite Hm, Nat2Z.id. done. }
      reflexivity.
Qed.
End LineByLineStream.

(** ** Drains and chunks *)

Lemma dispatch_chunks_cons o cl h fdev k buf chunks :
  dispatch_chunks o cl h fdev k (buf :: chunks)
  = do st <- process_data o cl h fdev k buf;
    dispatch_chunks o cl h (fst st) (snd st) chunks.
Proof.
  unfold dispatch_chunks. cbn [for_each fst snd].
  destruct (process_data o cl h fdev k buf) as [[f' k']| | |]; done.
Qed.

Lemma dispatch_chunks_app o cl h fdev k c1 c2 :
  dispatch_chunks o cl h fdev k (c1 ++ c2)
  = do st <- dispatch_chunks o cl h fdev k c1;
    dispatch_chunks o cl h (fst st) (snd st) c2.
Proof.
  unfold dispatch_chunks. rewrite for_each_app.
  destruct (for_each _ c1 (fdev, k)) as [[f' k']| | |]; done.
Qed.

(** A drain that is not silent hands its chunks to the formatter and
    reports the end of file when it meets it. *)
Lemma read_loop_dispatch o cl h reads fin : forall fdev k,
  silent o = false -> chunks_nonempty reads ->
  read_loop o cl h fdev k reads fin
  = do st <- dispatch_chunks o cl h fdev k reads;
    match fin with
    | ReadEOF => Ok (fst st, snd st, true)
    | ReadWouldBlock => Ok (fst st, snd st, false)
    | ReadFailed => Exit 3
    end.
Proof.
  induction reads as [|buf reads IH]; intros fdev k Hs Hne.
  - done.
  - apply Forall_cons in Hne as [Hbuf Hne].
    cbn [read_loop]. rewrite dispatch_chunks_cons.
    rewrite decide_False by (destruct buf; [done | simpl; lia]).
    rewrite Hs.
    destruct (process_data o cl h fdev k buf) as [[f' k']| | |]; try done.
    cbn [bind fst snd]. by apply IH.
Qed.

(** A descriptor's life hands every chunk to the formatter, then runs the
    finalisation of the mode. *)
Lemma stream_session_dispatch o cl h drains final : forall fdev k,
  silent o = false -> Forall chunks_nonempty drains ->
  chunks_nonempty final ->
  stream_session o cl h fdev k drains final
  = do st <- dispatch_chunks o cl h fdev k (concat drains ++ final);
    process_eof o cl h (fst st) (snd st).
Proof.
  induction drains as [|reads drains IH]; intros fdev k Hs Hd Hf.
  - cbn [stream_session concat app].
    rewrite read_loop_dispatch by done.
    destruct (dispatch_chunks o cl h fdev k final) as [[f' k']| | |]; done.
  - apply Forall_cons in Hd as [Hr Hd].
    cbn [stream_session concat]. rewrite <- app_assoc.
    rewrite read_loop_dispatch by done.
    rewrite dispatch_chunks_app.
    destruct (dispatch_chunks o cl h fdev k reads) as [[f' k']| | |];
      try done.
    cbn [bind fst snd]. by apply IH.
Qed.

Lemma stream_bytes_concat drains final :
  stream_bytes drains final = concat (concat drains ++ final).
Proof. done. Qed.

Section LineByLineChunks.
Variables (o : Opts) (cl : Colors) (h : Host) (m : nat).
Hypothesis Hm : max_line_length o = Z.of_nat m.
Hypothesis Hmode : mode o = MODE_LINE_BY_LINE.

Lemma dispatch_chunks_line chunks : forall fdev k cur,
  chunks_nonempty chunks -> line_state m fdev cur ->
  exists fdev',
    dispatch_chunks o cl h fdev k chunks
    = Ok (fdev', emit (concat (map (printed_line o cl h (type fdev))
                                 (scan cur (concat chunks)).1)) k)
    /\ line_state m fdev' (scan cur (concat chunks)).2
    /\ type fdev' = type fdev.
Proof.
  induction chunks as [|buf chunks IH]; intros fdev k cur Hne Hst.
  - exists fdev. unfold dispatch_chunks. cbn. by rewrite emit_nil.
  - apply Forall_cons in Hne as [Hbuf Hne].
    rewrite dispatch_chunks_cons. unfold process_data. rewrite Hmode.
    pose proof Hst as (rest & Hb & _).
    rewrite assert_true by (apply bool_decide_eq_true; by rewrite Hb).
    cbn [bind]. unfold process_data_line_by_line.
    rewrite assert_true
      by (apply bool_decide_eq_true; destruct buf; [done | simpl; lia]).
    cbn [bind].
    destruct (line_by_line_loop_spec o cl h m Hm buf fdev k cur Hst)
      as (fdev1 & -> & Hst1 & Ht1).
    cbn [bind fst snd].
    destruct (IH fdev1 (emit (concat (map (printed_line o cl h (type fdev))
                                        (scan cur buf).1)) k)
                (scan cur buf).2 Hne Hst1) as (fdev' & -> & Hst' & Ht').
    exists fdev'. cbn [concat]. rewrite scan_app. cbn [fst snd].
    rewrite Ht1, emit_emit, map_app, concat_app.
    split; [done|]. split; [done | congruence].
Qed.

(** A fresh event record holds an empty line. *)
Lemma fdev_create_line junk hi c t fdev :
  fdev_create o junk hi c t = Ok fdev ->
  line_state m fdev [] /\ type fdev = t.
Proof.
  unfold fdev_create, safe_malloc. rewrite Hmode, Hm.
  intros H. apply bind_Ok in H as (buf & Hbuf & H).
  apply bind_Ok in H as ([] & _ & H). injection H as <-.
  apply bind_Ok in Hbuf as (b & Hb & Hbuf). injection Hbuf as <-.
  apply bind_Ok in Hb as ([] & _ & Hb). injection Hb as <-.
  split; [|done].
  exists (map junk (seq 0 (Z.to_nat (Z.of_nat m + 2)))).
  rewrite (pending_short m []) by (simpl; lia). cbn.
  split; [done|]. split; [|split; [done | apply not_elem_of_nil]].
  rewrite length_map, length_seq. lia.
Qed.

(** Line-by-line mode prints the lines of the stream, each cut at
    [max_line_length] bytes and closed by a newline. *)
Lemma stream_session_line junk hi c t fdev k drains final :
  silent o = false ->
  fdev_create o junk hi c t = Ok fdev ->
  Forall chunks_nonempty drains -> chunks_nonempty final ->
  exists fdev',
    stream_session o cl h fdev k drains final
    = Ok (fdev',
          emit (concat (map (printed_line o cl h t)
                          (lines_of (stream_bytes drains final)))) k,
          None).
Proof.
  intros Hs Hc Hd Hf.
  destruct (fdev_create_line junk hi c t fdev Hc) as [Hst Ht].
  rewrite stream_session_dispatch by done.
  destruct (dispatch_chunks_line (concat drains ++ final) fdev k [])
    as (fdev1 & -> & Hst1 & Ht1); [|done|].
  { apply Forall_app. split; [|done].
    unfold chunks_nonempty in *. by apply Forall_concat. }
  cbn [bind fst snd]. unfold process_eof. rewrite Hmode.
  destruct (eof_line_by_line_spec o cl h m Hm fdev1
              (emit (concat (map (printed_line o cl h (type fdev))
                 (scan [] (concat (concat drains ++ final))).1)) k)
              (scan [] (concat (concat drains ++ final))).2 Hst1)
    as (fdev2 & -> & Ho2).
  cbn [bind]. exists fdev2. do 3 f_equal.
  rewrite emit_emit, Ht1, Ht. f_equal.
  unfold lines_of, stream_bytes.
  destruct (scan [] (concat (concat drains ++ final))) as [ls r].
  cbn [fst snd]. by rewrite map_app, concat_app.
Qed.
End LineByLineChunks.

Lemma scan_line (cur l : list byte) :
  NL ∉ l -> scan cur (l ++ [NL]) = ([cur ++ l], []).
Proof.
  revert cur. induction l as [|c l IH]; intros cur Hn; cbn [scan app].
  - rewrite decide_True by done. by rewrite app_nil_r.
  - apply not_elem_of_cons in Hn as [Hc Hl].
    rewrite decide_False by done. rewrite IH by done.
    by rewrite <- app_assoc.
Qed.

Lemma scan_no_newline (cur l : list byte) :
  NL ∉ l -> scan cur l = ([], cur ++ l).
Proof.
  revert cur. induction l as [|c l IH]; intros cur Hn; cbn [scan].
  - by rewrite app_nil_r.
  - apply not_elem_of_cons in Hn as [Hc Hl].
    rewrite decide_False by done. rewrite IH by done.
    by rewrite <- app_assoc.
Qed.

Lemma scan_bytes (s : list byte) : forall cur x,
  (forall l, l ∈ (scan cur s).1 -> x ∈ l -> x ∈ cur ++ s)
  /\ (x ∈ (scan cur s).2 -> x ∈ cur ++ s).
Proof.
  induction s as [|c s IH]; intros cur x; cbn [scan].
  - cbn [fst snd]. rewrite app_nil_r. split; [|done].
    intros l Hl. by apply elem_of_nil in Hl.
  - case_decide as Hc.
    + destruct (IH [] x) as [IH1 IH2].
      destruct (scan [] s) as [ls r]. cbn [fst snd app] in *. split.
      * intros l Hl Hx. apply elem_of_cons in Hl as [->|Hl].
        -- apply elem_of_app. by left.
        -- apply elem_of_app. right. apply elem_of_cons. right.
           by apply IH1 with l.
      * intros Hx. apply elem_of_app. right. apply elem_of_cons. right.
        by apply IH2.
    + destruct (IH (cur ++ [c]) x) as [IH1 IH2].
      rewrite <- app_assoc in IH1, IH2. done.
Qed.

Lemma lines_of_bytes (s l : list byte) (x : byte) :
  l ∈ lines_of s -> x ∈ l -> x ∈ s.
Proof.
  unfold lines_of. destruct (scan_bytes s [] x) as [H1 H2].
  destruct (scan [] s) as [ls r]. cbn [fst snd app] in *.
  intros Hl Hx. apply elem_of_app in Hl as [Hl|Hl]; [by eapply H1|].
  case_decide; [by apply elem_of_nil in Hl|].
  apply list_elem_of_singleton in Hl as ->. by apply H2.
Qed.

(** The last line of a stream that does not end with a newline is a line
    of the stream. *)
Lemma lines_of_unfinished (s tail : list byte) :
  tail <> [] -> NL ∉ tail ->
  lines_of (s ++ [NL] ++ tail) = lines_of (s ++ [NL]) ++ [tail].
Proof.
  intros Ht Hn. unfold lines_of.
  rewrite (app_assoc s [NL] tail), (scan_app [] (s ++ [NL]) tail).
  assert ((scan [] (s ++ [NL])).2 = []) as Hr.
  { rewrite scan_app. cbn [snd scan]. by case_decide. }
  destruct (scan [] (s ++ [NL])) as [ls r]. cbn [fst snd] in *. subst r.
  rewrite scan_no_newline by done. cbn [fst snd app].
  repeat case_decide; done.
Qed.

(** ** Over-long lines (C2) *)

(** C2, as the code has it: in line-by-line mode a line longer than
    [max_line_length], whatever the chunks it arrives in, is printed as one
    line made of its first [max_line_length] bytes and a newline; the bytes
    after them, up to the newline of the stream, are dropped and no second
    line is printed. *)
Theorem overlong_line_is_truncated o cl h junk hi c t fdev k drains final
    (l : list byte) :
  mode o = MODE_LINE_BY_LINE -> silent o = false ->
  0 < max_line_length o ->
  fdev_create o junk hi c t = Ok fdev ->
  Forall chunks_nonempty drains -> chunks_nonempty final ->
  stream_bytes drains final = l ++ [NL] ->
  NL ∉ l -> NUL ∉ l ->
  max_line_length o < Z.of_nat (length l) ->
  exists fdev',
    stream_session o cl h fdev k drains final
    = Ok (fdev',
          emit (line_header o cl h ++ pipe_color cl t
                ++ take (Z.to_nat (max_line_length o)) l ++ [NL]
                ++ reset cl) k,
          None).
Proof.
  intros Hmode Hs Hpos Hc Hd Hf Hbytes Hnl Hnul Hlong.
  destruct (stream_session_line o cl h (Z.to_nat (max_line_length o))
              ltac:(lia) Hmode junk hi c t fdev k drains final Hs Hc Hd Hf)
    as (fdev' & ->).
  exists fdev'. do 3 f_equal.
  rewrite Hbytes. unfold lines_of. rewrite scan_line by done.
  cbn [fst snd app]. rewrite decide_True by done. cbn [map concat app].
  rewrite !app_nil_r. unfold printed_line.
  rewrite until_nul_id; [by rewrite <- !app_assoc|].
  intros Hin. apply elem_of_app in Hin as [Hin|Hin].
  - by apply Hnul, (subseteq_take (Z.to_nat (max_line_length o)) l).
  - by apply list_elem_of_singleton in Hin.
Qed.

(** The scenario of the claim: [max_line_length] 4 and the stream
    [abcdef\n] give the single line [[h] abcd\n]. *)
Lemma overlong_line_is_truncated_witness :
  exists fdev',
    stream_session opts_line4 colors_off host_h fdev_line4 console_init []
      [lit "abcdef" ++ [NL]]
    = Ok (fdev', emit (lit "[h] abcd" ++ [NL]) console_init, None).
Proof.
  apply (overlong_line_is_truncated opts_line4 colors_off host_h junk_marks
           0%nat child_5_6 PIPE_STDOUT fdev_line4 console_init []
           [lit "abcdef" ++ [NL]] (lit "abcdef")).
  - reflexivity.
  - reflexivity.
  - reflexivity.
  - reflexivity.
  - constructor.
  - repeat constructor. discriminate.
  - reflexivity.
  - vm_compute. intros H.
    repeat (inversion H as [|? ? ? H']; clear H; rename H' into H).
  - vm_compute. intros H.
    repeat (inversion H as [|? ? ? H']; clear H; rename H' into H).
  - vm_compute. reflexivity.
Defined.

(** C2 as stated fails: the stream [abcdef\n] with [max_line_length] 4
    prints [[h] abcd\n] and nothing else, not the two lines of the
    claim. *)
Lemma overlong_line_counterexample :
  exists fdev' k',
    stream_session opts_line4 colors_off host_h fdev_line4 console_init []
      [lit "abcdef" ++ [NL]] = Ok (fdev', k', None)
    /\ out k' = lit "[h] abcd" ++ [NL]
    /\ out k' <> lit "[h] abcd" ++ [NL] ++ lit "[h] ef" ++ [NL].
Proof.
  eexists _, _. split; [vm_compute; reflexivity|].
  split; [reflexivity | discriminate].
Qed.

(** ** Printed lines end with a newline (C7) *)

(** C7, as the code has it: in line-by-line mode, for a stream without nul
    bytes, standard output receives one printed line per line of the
    stream, and every one of them is the header, the colour, at most
    [max_line_length] bytes of the line, a newline, and the colour reset.
    A last line that the stream leaves without a newline is one of them:
    the end of file appends the newline before the line is printed. *)
Theorem printed_lines_end_with_newline o cl h junk hi c t fdev k drains
    final :
  mode o = MODE_LINE_BY_LINE -> silent o = false ->
  0 < max_line_length o ->
  fdev_create o junk hi c t = Ok fdev ->
  Forall chunks_nonempty drains -> chunks_nonempty final ->
  NUL ∉ stream_bytes drains final ->
  (exists fdev',
     stream_session o cl h fdev k drains final
     = Ok (fdev',
           emit (concat (map (fun l =>
                   line_header o cl h ++ pipe_color cl t
                   ++ (take (Z.to_nat (max_line_length o)) l ++ [NL])
                   ++ reset cl)
                   (lines_of (stream_bytes drains final)))) k,
           None))
  /\ (forall s tail, stream_bytes drains final = s ++ [NL] ++ tail ->
        tail <> [] -> NL ∉ tail ->
        last (lines_of (stream_bytes drains final)) = Some tail).
Proof.
  intros Hmode Hs Hpos Hc Hd Hf Hnul. split.
  - destruct (stream_session_line o cl h (Z.to_nat (max_line_length o))
                ltac:(lia) Hmode junk hi c t fdev k drains final Hs Hc Hd Hf)
      as (fdev' & ->).
    exists fdev'.
    assert (map (printed_line o cl h t) (lines_of (stream_bytes drains final))
            = map (fun l =>
                line_header o cl h ++ pipe_color cl t
                ++ (take (Z.to_nat (max_line_length o)) l ++ [NL])
                ++ reset cl) (lines_of (stream_bytes drains final))) as ->;
      [|done].
    apply map_ext_in. intros l Hl. unfold printed_line.
    rewrite until_nul_id; [done|].
    intros Hin. apply elem_of_app in Hin as [Hin|Hin].
    + apply Hnul, (lines_of_bytes _ l); [by apply list_elem_of_In|].
      by apply (subseteq_take (Z.to_nat (max_line_length o)) l).
    + by apply list_elem_of_singleton in Hin.
  - intros s tail -> Ht Hn. rewrite lines_of_unfinished by done.
    apply last_snoc.
Qed.

(** A stream of two lines, the second without its newline. *)
Lemma printed_lines_end_with_newline_witness :
  (exists fdev',
     stream_session opts_line4 colors_off host_h fdev_line4 console_init
       [[lit "ab" ++ [NL]]] [lit "cd"]
     = Ok (fdev',
           emit (lit "[h] ab" ++ [NL] ++ lit "[h] cd" ++ [NL]) console_init,
           None))
  /\ last (lines_of (lit "ab" ++ [NL] ++ lit "cd")) = Some (lit "cd").
Proof.
  destruct (printed_lines_end_with_newline opts_line4 colors_off host_h
              junk_marks 0%nat child_5_6 PIPE_STDOUT fdev_line4 console_init
              [[lit "ab" ++ [NL]]] [lit "cd"]) as [H1 H2].
  - reflexivity.
  - reflexivity.
  - reflexivity.
  - reflexivity.
  - repeat constructor. discriminate.
  - repeat constructor. discriminate.
  - vm_compute. intros H.
    repeat (inversion H as [|? ? ? H']; clear H; rename H' into H).
  - split.
    + exact H1.
    + apply (H2 (lit "ab") (lit "cd")).
      * reflexivity.
      * discriminate.
      * vm_compute. intros H.
        repeat (inversion H as [|? ? ? H']; clear H; rename H' into H).
Defined.

(** C7 as stated fails on a stream that holds a nul byte: the last line
    [a\0b] is printed as [[h] a], which does not end with a newline. *)
Lemma printed_line_counterexample :
  exists fdev' k',
    stream_session opts_line4 colors_off host_h fdev_line4 console_init []
      [[ "a"%byte; NUL; "b"%byte ]] = Ok (fdev', k', None)
    /\ out k' = lit "[h] a"
    /\ last (out k') <> Some NL.
Proof.
  eexists _, _. split; [vm_compute; reflexivity|].
  split; [reflexivity | discriminate].
Qed.

(** ** The line buffer stays within its allocation (C10) *)

Lemma line_state_bounds (m : nat) fdev (cur : list byte) :
  line_state m fdev cur ->
  exists buf, buffer fdev = Some buf
    /\ Z.of_nat (length buf) = Z.of_nat m + 2
    /\ 0 <= offset fdev <= Z.of_nat m + 1.
Proof.
  intros (rest & Hb & Hl & Ho & _). eexists. split; [done|].
  pose proof (pending_length m cur). lia.
Qed.

(** C10: in line-by-line mode the event record that [fdev_create] makes,
    after any sequence of chunks, has a fill offset of at most
    [max_line_length + 1] in a buffer of [max_line_length + 2] bytes, and
    neither the chunks nor the end of file end the run: no store leaves
    the buffer and no assertion fails. *)
Theorem line_buffer_never_overflows o cl h junk hi c t fdev k chunks :
  mode o = MODE_LINE_BY_LINE ->
  0 < max_line_length o ->
  fdev_create o junk hi c t = Ok fdev ->
  chunks_nonempty chunks ->
  exists fdev' k' buf,
    dispatch_chunks o cl h fdev k chunks = Ok (fdev', k')
    /\ buffer fdev' = Some buf
    /\ Z.of_nat (length buf) = max_line_length o + 2
    /\ 0 <= offset fdev' <= max_line_length o + 1
    /\ exists fdev'' k'',
         process_eof o cl h fdev' k' = Ok (fdev'', k'', None)
         /\ offset fdev'' = 0.
Proof.
  intros Hmode Hpos Hc Hne.
  set (m := Z.to_nat (max_line_length o)).
  assert (max_line_length o = Z.of_nat m) as Hm by lia.
  destruct (fdev_create_line o m Hm Hmode junk hi c t fdev Hc) as [Hst _].
  destruct (dispatch_chunks_line o cl h m Hm Hmode chunks fdev k [] Hne Hst)
    as (fdev' & Hrun & Hst' & _).
  destruct (line_state_bounds m fdev' _ Hst') as (buf & Hb & Hl & Ho).
  eexists fdev', _, buf. split; [exact Hrun|].
  split; [done|]. split; [lia|]. split; [lia|].
  unfold process_eof. rewrite Hmode.
  edestruct (eof_line_by_line_spec o cl h m Hm fdev') as (fdev2 & -> & Ho2);
    [exact Hst'|].
  cbn [bind]. by eexists _, _.
Qed.

(** Seven bytes in two chunks with [max_line_length] 4. *)
Lemma line_buffer_never_overflows_witness :
  exists fdev' k' buf,
    dispatch_chunks opts_line4 colors_off host_h fdev_line4 console_init
      [lit "abcde"; lit "fg"] = Ok (fdev', k')
    /\ buffer fdev' = Some buf
    /\ Z.of_nat (length buf) = 4 + 2
    /\ 0 <= offset fdev' <= 4 + 1
    /\ exists fdev'' k'',
         process_eof opts_line4 colors_off host_h fdev' k'
         = Ok (fdev'', k'', None)
         /\ offset fdev'' = 0.
Proof.
  apply (line_buffer_never_overflows opts_line4 colors_off host_h junk_marks
           0%nat child_5_6 PIPE_STDOUT fdev_line4 console_init
           [lit "abcde"; lit "fg"]).
  - reflexivity.
  - reflexivity.
  - reflexivity.
  - repeat constructor; discriminate.
Defined.

(** ** Join mode captures a prefix of the stream (C1) *)

Lemma drop_split (l : list byte) (i : nat) :
  (i < length l)%nat -> exists x, drop i l = x :: drop (S i) l.
Proof.
  intros Hi. destruct (lookup_lt_is_Some_2 l i Hi) as [x Hx].
  exists x. by apply drop_S.
Qed.

Section JoinCapture.
Variables (o : Opts) (n : nat) (junk0 : list byte).
Hypothesis Hn : max_output_length o = Z.of_nat n.

Lemma join_loop_spec (buf : list byte) : forall fdev seen,
  join_state n (max_line_length o) junk0 fdev seen ->
  exists fdev',
    join_loop o fdev buf = Ok fdev'
    /\ join_state n (max_line_length o) junk0 fdev' (seen ++ buf)
    /\ type fdev' = type fdev.
Proof.
  induction buf as [|c buf IH]; intros fdev seen Hst; cbn [join_loop].
  { exists fdev. by rewrite app_nil_r. }
  destruct Hst as [Hj [[Hb Ho]|(Hb & Ho & Hlong & Hmll)]].
  - destruct (decide (length seen < n)%nat) as [Hlt|Hge].
    + (* room for the byte *)
      rewrite take_ge in Hb, Ho by lia.
      destruct (drop_split junk0 (length seen)) as [x Hx]; [lia|].
      rewrite Hx in Hb.
      rewrite decide_True by lia.
      rewrite (push_byte_spec fdev seen _ x c) by done. cbn [bind].
      edestruct (IH (mkFdEvent (host fdev) (fd fdev)
                       (Some ((seen ++ [c]) ++ drop (S (length seen)) junk0))
                       (Z.of_nat (length (seen ++ [c]))) (type fdev))
                    (seen ++ [c])) as (fdev' & -> & Hst' & Ht').
      { split; [done|]. left. cbn [buffer offset].
        rewrite take_ge by (rewrite length_app; simpl; lia).
        rewrite length_app. simpl.
        by replace (length seen + 1)%nat with (S (length seen)) by lia. }
      exists fdev'. rewrite <- app_assoc in Hst'. done.
    + (* the cap is reached *)
      rewrite length_take_le in Hb, Ho by lia.
      rewrite decide_False by lia.
      destruct (decide (offset fdev = max_line_length o)) as [Heq|Hne].
      * (* the nul of [process_data_join] *)
        destruct (drop_split junk0 n) as [x Hx]; [lia|].
        rewrite Hx in Hb.
        rewrite drop_ge in Hb by lia.
        assert (offset fdev = Z.of_nat (length (take n seen))) as Ho'
          by (rewrite length_take_le by lia; done).
        rewrite (push_byte_spec fdev (take n seen) [] x NUL) by done.
        cbn [bind].
        edestruct (IH (mkFdEvent (host fdev) (fd fdev)
                         (Some ((take n seen ++ [NUL]) ++ []))
                         (Z.of_nat (length (take n seen ++ [NUL])))
                         (type fdev)) (seen ++ [c]))
          as (fdev' & -> & Hst' & Ht').
        { split; [done|]. right. cbn [buffer offset].
          rewrite take_app_le by lia. rewrite app_nil_r.
          rewrite !length_app, length_take_le by lia. simpl.
          split; [done|]. split; [lia|]. split; [lia|]. lia. }
        exists fdev'. rewrite <- app_assoc in Hst'. done.
      * (* the break *)
        exists fdev. split; [done|]. split; [|done].
        split; [done|]. left.
        rewrite take_app_le by lia.
        by rewrite length_take_le by lia.
  - (* past the cap: the break *)
    rewrite decide_False by lia. rewrite decide_False by lia.
    exists fdev. split; [done|]. split; [|done].
    split; [done|]. right. rewrite take_app_le by lia.
    rewrite length_app. split; [done|]. split; [done|]. split; [lia|done].
Qed.
End JoinCapture.

Section JoinChunks.
Variables (o : Opts) (cl : Colors) (h : Host) (n : nat).
Hypothesis Hn : max_output_length o = Z.of_nat n.
Hypothesis Hmode : mode o = MODE_JOIN.



(** A fresh event record has captured nothing. *)
Lemma fdev_create_join junk hi c t fdev :
  fdev_create o junk hi c t = Ok fdev ->
  exists junk0,
    buffer fdev = Some junk0
    /\ Z.of_nat (length junk0) = max_output_length o + 1
    /\ join_state n (max_line_length o) junk0 fdev [].
Proof.
  unfold fdev_create, safe_malloc. rewrite Hmode, Hn.
  intros H. apply bind_Ok in H as (buf & Hbuf & H).
  apply bind_Ok in H as ([] & _ & H). injection H as <-.
  apply bind_Ok in Hbuf as (b & Hb & Hbuf). injection Hbuf as <-.
  apply bind_Ok in Hb as ([] & _ & Hb). injection Hb as <-.
  eexists. split; [done|].
  assert (length (map junk (seq 0 (Z.to_nat (Z.of_nat n + 1)))) = S n)
    as Hlen by (rewrite length_map, length_seq; lia).
  split; [lia|]. split; [done|]. left. by rewrite take_nil.
Qed.

(** The end of the file leaves the bytes kept, a nul, and the rest of
    the allocation as it was. *)
Lemma eof_join_spec junk0 fdev seen :
  join_state n (max_line_length o) junk0 fdev seen ->
  exists fdev',
    eof_join o fdev = Ok fdev'
    /\ buffer fdev'
       = Some (take n seen
               ++ NUL :: drop (S (length (take n seen))) junk0).
Proof.
  intros [Hj [[Hb Ho]|(Hb & Ho & Hlong & Hmll)]]; unfold eof_join.
  - assert (length (take n seen) <= n)%nat as Hlt
      by (rewrite length_take; lia).
    rewrite decide_True by lia.
    destruct (drop_split junk0 (length (take n seen))) as [x Hx]; [lia|].
    rewrite Hx in Hb.
    rewrite (push_byte_spec fdev (take n seen) _ x NUL) by done.
    eexists. split; [done|]. cbn [buffer]. by rewrite <- app_assoc.
  - rewrite decide_False by lia. exists fdev. split; [done|].
    rewrite Hb. rewrite length_take_le by lia.
    by rewrite drop_ge by lia.
Qed.
End JoinChunks.



(** ** Group mode prints one header per run (C9) *)

Lemma last_is_newline_last (pre buf : list byte) :
  buf <> [] -> last (pre ++ buf) = last buf.
Proof.
  intros Hb. destruct (exists_last Hb) as (b & x & ->).
  by rewrite app_assoc, !last_snoc.
Qed.

Section GroupMode.
Variables (o : Opts) (cl : Colors) (hs : list Host).
Hypothesis Hmode : mode o = MODE_GROUP.

(** One chunk: the separator and header when the host changes, then the
    framed chunk. *)
Lemma dispatch_event_group k (c : FdEvent * list byte) h :
  snd c <> [] -> hs !! host (fst c) = Some h ->
  exists k',
    (do st <- process_data o cl h (fst c) k (snd c); Ok (snd st)) = Ok k'
    /\ out k'
       = out k
         ++ (if decide (last_host k = Some (host (fst c))) then []
             else (if newline_printed k then [] else [NL])
                  ++ group_header o cl hs (host (fst c)))
         ++ framed cl c
    /\ newline_printed k' = last_is_newline (snd c)
    /\ last_host k' = Some (host (fst c)).
Proof.
  intros Hbuf Hh. unfold process_data, process_data_group.
  rewrite Hmode.
  rewrite assert_true
    by (apply bool_decide_eq_true; destruct (snd c); [done | simpl; lia]).
  cbn [bind snd]. eexists. split; [done|]. cbn [out newline_printed last_host].
  split; [|done].
  unfold framed, group_header, print_host_header, fdev_get_color, pipe_color.
  rewrite Hh.
  destruct (decide (last_host k = Some (host (fst c)))) as [Heq|Hne].
  - rewrite decide_False by (intros Hn; by apply Hn).
    cbn [emit out]. by rewrite <- !app_assoc.
  - rewrite decide_True by done.
    destruct (newline_printed k), (anonymous o); cbn [negb emit out app];
      by rewrite <- ?app_assoc.
Qed.

Lemma group_runs_nonempty chunks :
  Forall (fun r => snd r <> []) (group_runs chunks).
Proof.
  induction chunks as [|c rest IH]; cbn [group_runs]; [constructor|].
  destruct (group_runs rest) as [|[hi cs] runs].
  - by repeat constructor.
  - apply Forall_cons in IH as [Hcs Hruns].
    case_decide; by repeat constructor.
Qed.

Lemma run_ends_in_newline_cons c cs :
  cs <> [] -> run_ends_in_newline (c :: cs) = run_ends_in_newline cs.
Proof. intros Hcs. unfold run_ends_in_newline. by destruct cs. Qed.

Lemma dispatch_events_group chunks : forall k,
  Forall (fun c => snd c <> [] /\ is_Some (hs !! host (fst c))) chunks ->
  exists k',
    dispatch_events o cl hs k chunks = Ok k'
    /\ out k'
       = out k ++ render_after o cl hs (last_host k) (newline_printed k)
                    (group_runs chunks)
    /\ (forall c, last chunks = Some c ->
          newline_printed k' = last_is_newline (snd c)
          /\ last_host k' = Some (host (fst c))
          /\ exists pre, out k' = pre ++ framed cl c).
Proof.
  induction chunks as [|c rest IH]; intros k Hok.
  - exists k. split; [done|]. cbn. by rewrite app_nil_r.
  - apply Forall_cons in Hok as [[Hbuf [h Hh]] Hok].
    unfold dispatch_events. cbn [for_each]. rewrite Hh.
    destruct (dispatch_event_group k c h Hbuf Hh)
      as (k1 & -> & Hout1 & Hnl1 & Hlast1).
    cbn [bind].
    destruct (IH k1 Hok) as (k' & Hrun & Hout & Hfin).
    unfold dispatch_events in Hrun. rewrite Hrun.
    exists k'. split; [done|]. split.
    + rewrite Hout, Hout1, Hlast1, Hnl1. rewrite <- !app_assoc.
      f_equal. cbn [group_runs].
      pose proof (group_runs_nonempty rest) as Hne.
      destruct (group_runs rest) as [|[hi cs] runs].
      * cbn [render_after render_runs concat map].
        case_decide; cbn [run_ends_in_newline last];
          by rewrite ?app_nil_r, <- ?app_assoc.
      * apply Forall_cons in Hne as [Hcs _]. cbn [snd] in Hcs.
        destruct (decide (hi = host (fst c))) as [->|Hhi].
        -- cbn [render_after render_runs].
           rewrite (decide_True
                      (P := Some (host (fst c)) = Some (host (fst c))))
             by done.
           rewrite run_ends_in_newline_cons by done.
           case_decide; cbn [concat map]; by rewrite <- ?app_assoc.
        -- cbn [render_after].
           rewrite (decide_False (P := Some (host (fst c)) = Some hi))
             by congruence.
           cbn [render_runs concat map run_ends_in_newline last].
           case_decide; by rewrite ?app_nil_r, <- ?app_assoc.
    + intros c' Hc'. destruct rest as [|c2 rest'].
      * cbn in Hc'. injection Hc' as <-. cbn in Hrun.
        injection Hrun as <-. split; [done|]. split; [done|].
        rewrite Hout1. eexists. by rewrite app_assoc.
      * apply Hfin. by rewrite last_cons_cons in Hc'.
Qed.
End GroupMode.

Lemma group_runs_concat chunks :
  concat (map snd (group_runs chunks)) = chunks.
Proof.
  induction chunks as [|c rest IH]; cbn [group_runs]; [done|].
  destruct (group_runs rest) as [|[hi cs] runs].
  - cbn in *. by rewrite <- IH.
  - case_decide; cbn in *; by rewrite <- IH.
Qed.

Lemma group_runs_hosts chunks :
  Forall (fun r => Forall (fun c => host (fst c) = fst r) (snd r))
    (group_runs chunks).
Proof.
  induction chunks as [|c rest IH]; cbn [group_runs]; [constructor|].
  destruct (group_runs rest) as [|[hi cs] runs].
  - by repeat constructor.
  - apply Forall_cons in IH as [Hcs Hruns].
    case_decide; by repeat constructor.
Qed.

Lemma group_runs_maximal chunks (i : nat) r1 r2 :
  group_runs chunks !! i = Some r1 ->
  group_runs chunks !! S i = Some r2 ->
  fst r1 <> fst r2.
Proof.
  revert i r1 r2.
  induction chunks as [|c rest IH]; intros i r1 r2; cbn [group_runs];
    [done|].
  destruct (group_runs rest) as [|[hi cs] runs].
  - done.
  - case_decide as Hhi.
    + destruct i as [|i].
      * cbn. intros [= <-] H2. cbn. apply (IH 0%nat (hi, cs) r2); done.
      * cbn. intros H1 H2. apply (IH (S i) r1 r2); done.
    + destruct i as [|i].
      * cbn. intros [= <-] [= <-]. cbn. congruence.
      * cbn. intros H1 H2. apply (IH i r1 r2); done.
Qed.

(** C9: in group mode, for every sequence of dispatched chunks, standard
    output receives, for each maximal run of consecutive chunks of one
    host, first a newline if and only if the last chunk before the run did
    not end with one, then the host header on a line of its own (nothing
    when anonymous), once, then the chunks of the run, each between its
    colour and the colour reset.  The runs are the chunks in their order,
    each run is of one host and two runs that follow each other are of
    different hosts.  When the colour reset is empty the flag the test
    reads tells whether the last byte standard output received is a
    newline. *)
Theorem group_header_once_per_run o cl hs k chunks :
  mode o = MODE_GROUP ->
  last_host k = None ->
  Forall (fun c => snd c <> [] /\ is_Some (hs !! host (fst c))) chunks ->
  let runs := group_runs chunks in
  (exists k',
     dispatch_events o cl hs k chunks = Ok k'
     /\ out k' = out k ++ render_runs o cl hs (newline_printed k) runs
     /\ (forall c, last chunks = Some c ->
           newline_printed k' = last_is_newline (snd c)
           /\ (reset cl = [] ->
               newline_printed k' = true <-> last (out k') = Some NL)))
  /\ concat (map snd runs) = chunks
  /\ Forall (fun r => Forall (fun c => host (fst c) = fst r) (snd r)) runs
  /\ (forall i r1 r2, runs !! i = Some r1 -> runs !! S i = Some r2 ->
        fst r1 <> fst r2).
Proof.
  intros Hmode Hlast Hok runs. split; [|split; [|split]].
  - destruct (dispatch_events_group o cl hs Hmode chunks k Hok)
      as (k' & Hrun & Hout & Hfin).
    exists k'. split; [done|]. split.
    + rewrite Hout, Hlast. unfold render_after. fold runs.
      destruct runs as [|[hi cs] rest]; [done|].
      by rewrite decide_False.
    + intros c Hc. destruct (Hfin c Hc) as (Hnl & _ & pre & Hpre).
      split; [done|]. intros Hreset.
      assert (snd c <> []) as Hbuf.
      { apply last_Some_elem_of in Hc.
        rewrite Forall_forall in Hok. by apply Hok in Hc as [? _]. }
      rewrite Hnl, Hpre. unfold framed. rewrite Hreset, app_nil_r.
      rewrite app_assoc, last_is_newline_last by done.
      unfold last_is_newline. apply bool_decide_eq_true.
  - apply group_runs_concat.
  - apply group_runs_hosts.
  - apply group_runs_maximal.
Qed.

(** Host [a] writes twice, then host [b], then host [a] again: three
    runs, three headers, and a newline before the second only. *)
Lemma group_header_once_per_run_witness :
  let chunks := [(fdev_group 0 PIPE_STDOUT, lit "x");
                 (fdev_group 0 PIPE_STDERR, lit "y");
                 (fdev_group 1 PIPE_STDOUT, lit "z" ++ [NL]);
                 (fdev_group 0 PIPE_STDOUT, lit "w")] in
  exists k',
    dispatch_events opts_group colors_off roster_a_b console_init chunks
    = Ok k'
    /\ out k' = lit "[a]" ++ [NL] ++ lit "xy" ++ [NL]
                ++ lit "[b]" ++ [NL] ++ lit "z" ++ [NL]
                ++ lit "[a]" ++ [NL] ++ lit "w".
Proof.
  intros chunks.
  destruct (group_header_once_per_run opts_group colors_off roster_a_b
              console_init chunks) as [(k' & Hrun & Hout & _) _].
  - reflexivity.
  - reflexivity.
  - repeat constructor; try discriminate; by eexists.
  - exists k'. split; [exact Hrun | exact Hout].
Defined.

(** ** Roster and argument errors (C4) *)

Lemma fgets_take_line (n : nat) (l rest : list byte) :
  NL ∉ l -> (length l < n)%nat ->
  fgets_take n (l ++ NL :: rest) = (l ++ [NL], rest).
Proof.
  revert n. induction l as [|c l IH]; intros n Hn Hlen; cbn [app length] in *.
  - destruct n as [|n]; [lia|]. cbn. by case_decide.
  - destruct n as [|n]; [lia|]. cbn [fgets_take].
    apply not_elem_of_cons in Hn as [Hc Hl].
    rewrite decide_False by done. rewrite IH by (done || lia). done.
Qed.


Lemma lsplit_str_none (s : list byte) (c : byte) :
  c ∉ s -> lsplit_str s c = (s, false).
Proof.
  induction s as [|x s IH]; intros Hc; cbn [lsplit_str]; [done|].
  apply not_elem_of_cons in Hc as [Hx Hs].
  rewrite decide_False by done. by rewrite IH.
Qed.




Lemma build_items_full size (item : list (list byte)) : forall command,
  Z.of_nat (length command) < size ->
  size <= Z.of_nat (length command + length item) ->
  build_items size command item = Exit 2.
Proof.
  induction item as [|arg item IH]; intros command Hc Hlen;
    cbn [build_items].
  - cbn [length] in Hlen. lia.
  - case_decide as Hfull; [done|].
    apply IH; rewrite ?length_app in *; cbn [length] in *; lia.
Qed.

Lemma build_items_fits size (item : list (list byte)) : forall command,
  Z.of_nat (length command + length item) < size ->
  build_items size command item = Ok (command ++ item).
Proof.
  induction item as [|arg item IH]; intros command Hlen; cbn [build_items].
  - by rewrite app_nil_r.
  - cbn [length] in Hlen.
    rewrite decide_False by (rewrite length_app; cbn [length]; lia).
    rewrite IH by (rewrite length_app; cbn [length]; lia).
    by rewrite <- app_assoc.
Qed.

Lemma build_items_exit size (item : list (list byte)) : forall command,
  Z.of_nat (length command) < size ->
  build_items size command item = Ok (command ++ item)
  /\ Z.of_nat (length command + length item) < size
  \/ build_items size command item = Exit 2
     /\ size <= Z.of_nat (length command + length item).
Proof.
  intros command Hc.
  destruct (decide (Z.of_nat (length command + length item) < size)).
  - left. split; [by apply build_items_fits | done].
  - right. split; [apply build_items_full; lia | lia].
Qed.

Lemma build_ssh_command_full base remote h size :
  0 < size ->
  size <= Z.of_nat (length base + 1 + length remote) ->
  build_ssh_command base remote h size = Exit 2.
Proof.
  intros Hsize Hlen. unfold build_ssh_command.
  rewrite assert_true by (apply bool_decide_eq_true; lia). cbn [bind].
  destruct (build_items_exit size base []) as [[-> H1]|[-> H1]];
    [cbn [length]; lia| |done].
  cbn [bind app].
  destruct (build_items_exit size [name h] base) as [[-> H2]|[-> H2]];
    [cbn [length] in *; lia| |done].
  cbn [bind]. rewrite build_items_full; [done| |];
    rewrite length_app; cbn [length] in *; lia.
Qed.

Lemma fgets_take_shrinks (n : nat) (f : list byte) :
  (0 < n)%nat -> f <> [] ->
  (length (fgets_take n f).2 < length f)%nat.
Proof.
  intros Hn Hf. destruct n as [|n]; [lia|]. destruct f as [|c f]; [done|].
  clear Hn Hf. cbn [fgets_take]. case_decide; [simpl; lia|].
  assert (forall k g, length (fgets_take k g).2 <= length g)%nat as Hle.
  { clear. induction k as [|k IH]; intros g; destruct g as [|x g];
      cbn [fgets_take snd length]; try lia.
    case_decide; [simpl; lia|].
    specialize (IH g). destruct (fgets_take k g). simpl in *. lia. }
  specialize (Hle n f). destruct (fgets_take n f). simpl in *. lia.
Qed.

(** [parse_hosts] reaches the end of the stream or an error: it takes a
    byte at least with every [fgets]. *)
Lemma parse_hosts_loop_total hmax : forall fuel f hs num lineno,
  2 <= hmax -> (length f < fuel)%nat ->
  parse_hosts_loop fuel hmax f hs num lineno <> None.
Proof.
  induction fuel as [|fuel IH]; intros f hs num lineno Hmax Hfuel; [lia|].
  cbn [parse_hosts_loop]. unfold fgets.
  destruct f as [|c f]; [done|].
  pose proof (fgets_take_shrinks (Z.to_nat (hmax - 1)) (c :: f)
                ltac:(lia) ltac:(done)) as Hs.
  destruct (fgets_take (Z.to_nat (hmax - 1)) (c :: f)) as [bytes f'].
  cbn [snd] in Hs.
  destruct (skipped_prefix _).
  - apply IH; [done|lia].
  - destruct (lsplit_str _ _) as [s cut]. destruct cut; cbn [negb]; [|done].
    apply IH; [done|lia].
Qed.

Lemma parse_hosts_total hmax f :
  2 <= hmax -> exists r, parse_hosts hmax f = Some r.
Proof.
  intros Hmax. unfold parse_hosts.
  destruct (parse_hosts_loop (S (length f)) hmax f [] 0 1) as [r|] eqn:Hr;
    [by exists r|].
  by apply parse_hosts_loop_total in Hr; [|done|lia].
Qed.

(** ** The join aggregator forms a partition *)

Lemma byte_to_N_inj (x y : byte) : Byte.to_N x = Byte.to_N y -> x = y.
Proof.
  intros H. apply (f_equal Byte.of_N) in H.
  rewrite !Byte.of_to_N in H. congruence.
Qed.

(** [strcmp] is 0 exactly on allocations that hold the same C string. *)
Lemma strcmp_cstr (a : list byte) : forall b s t,
  cstr a = Ok s -> cstr b = Ok t ->
  exists d, strcmp a b = Ok d /\ (d = 0 <-> s = t).
Proof.
  induction a as [|x a IH]; intros b s t Ha Hb; [done|].
  destruct b as [|y b]; [done|].
  cbn [cstr strcmp] in *.
  destruct (decide (x <> y)) as [Hxy|Hxy].
  - eexists. split; [done|]. split.
    + intros Hd. exfalso. apply Hxy, byte_to_N_inj. lia.
    + intros ->. exfalso. apply Hxy.
      destruct (decide (x = NUL)), (decide (y = NUL)); try congruence.
      * injection Ha as <-. by apply bind_Ok in Hb as (? & _ & [=]).
      * injection Hb as <-. by apply bind_Ok in Ha as (? & _ & [=]).
      * apply bind_Ok in Ha as (? & _ & [= <-]).
        by apply bind_Ok in Hb as (? & _ & [= ? _]).
  - apply dec_stable in Hxy. subst y.
    destruct (decide (x = NUL)).
    + injection Ha as <-. injection Hb as <-. by exists 0.
    + apply bind_Ok in Ha as (s' & Ha & [= <-]).
      apply bind_Ok in Hb as (t' & Hb & [= <-]).
      destruct (IH b s' t' Ha Hb) as (d & -> & Hd).
      exists d. split; [done|]. rewrite Hd. split; congruence.
Qed.

Lemma cls_lookup hs j h : hs !! j = Some h -> cls hs j = class_of h.
Proof. intros H. unfold cls. by rewrite H. Qed.

Lemma cls_beyond hs j : (length hs <= j)%nat -> cls hs j = -1.
Proof. intros H. unfold cls. by rewrite lookup_ge_None_2. Qed.

Section Captured.
Variables (outs : list (list byte)).

Lemma captured_lookup hs j s :
  captured hs outs -> outs !! j = Some s ->
  exists n c b, hs !! j = Some (mkHost n (Some c))
    /\ output c = Some b /\ cstr b = Ok s.
Proof.
  intros Hc Hs.
  destruct (Forall2_lookup_r _ _ _ _ _ Hc Hs) as ([n oc] & Hh & c & b & H1 & H2 & H3).
  cbn in H1. subst oc. by exists n, c, b.
Qed.

Lemma captured_length hs : captured hs outs -> length hs = length outs.
Proof. apply Forall2_length. Qed.

Lemma host_output_idx_captured hs j s :
  captured hs outs -> outs !! j = Some s ->
  host_output_idx hs j = Ok (cls hs j).
Proof.
  intros Hc Hs. destruct (captured_lookup hs j s Hc Hs) as (n & c & b & Hh & _).
  unfold host_output_idx, cls. by rewrite Hh.
Qed.

Lemma host_output_captured hs j s :
  captured hs outs -> outs !! j = Some s ->
  exists b, host_output hs j = Ok b /\ cstr b = Ok s.
Proof.
  intros Hc Hs.
  destruct (captured_lookup hs j s Hc Hs) as (n & c & b & Hh & Ho & Hb).
  exists b. unfold host_output. by rewrite Hh, Ho.
Qed.

(** Setting the class index of a host changes nothing else. *)
Lemma set_host_output_idx_captured hs j s v :
  captured hs outs -> outs !! j = Some s ->
  exists hs',
    set_host_output_idx hs j v = Ok hs'
    /\ captured hs' outs
    /\ map erase_class hs' = map erase_class hs
    /\ (forall k, cls hs' k = if decide (k = j) then v else cls hs k).
Proof.
  intros Hc Hs.
  destruct (captured_lookup hs j s Hc Hs) as (n & c & b & Hh & Ho & Hb).
  unfold set_host_output_idx. rewrite Hh. eexists. split; [done|].
  split; [|split].
  - unfold captured. apply Forall2_lookup. intros k.
    destruct (decide (k = j)) as [->|Hk].
    + rewrite list_lookup_insert_eq by (by eapply lookup_lt_Some).
      rewrite Hs. constructor. by exists (set_output_idx v c), b.
    + rewrite list_lookup_insert_ne by done.
      by apply Forall2_lookup.
  - apply list_eq. intros k. rewrite !list_lookup_fmap.
    destruct (decide (k = j)) as [->|Hk].
    + rewrite list_lookup_insert_eq by (by eapply lookup_lt_Some).
      by rewrite Hh.
    + by rewrite list_lookup_insert_ne.
  - intros k. unfold cls. case_decide as Hk.
    + subst k. by rewrite list_lookup_insert_eq by (by eapply lookup_lt_Some).
    + by rewrite list_lookup_insert_ne.
Qed.
End Captured.

Section JoinInner.
Variables (outs : list (list byte)) (i : nat) (idx : Z) (s1 : list byte).
Hypothesis Hs1 : outs !! i = Some s1.

(** The inner loop gives the class [idx] to the hosts from position [a]
    on that have none and whose output is the string of [h1]. *)
Lemma join_inner_spec (len : nat) : forall a hs num,
  captured hs outs -> (a + len = length hs)%nat ->
  exists hs' num',
    for_each (join_inner_body i idx) (seq a len) (hs, num) = Ok (hs', num')
    /\ captured hs' outs
    /\ map erase_class hs' = map erase_class hs
    /\ (forall j, cls hs' j
                  = if decide ((a <= j)%nat /\ cls hs j < 0
                               /\ outs !! j = Some s1)
                    then idx else cls hs j).
Proof.
  induction len as [|len IH]; intros a hs num Hc Hlen.
  - exists hs, num. split; [done|]. split; [done|]. split; [done|].
    intros j. case_decide as Hj; [|done]. destruct Hj as (Ha & _ & Hj).
    apply lookup_lt_Some in Hj. rewrite <- (captured_length outs hs Hc) in Hj.
    lia.
  - cbn [seq for_each]. unfold join_inner_body at 1.
    destruct (lookup_lt_is_Some_2 outs a) as [s2 Hs2].
    { rewrite <- (captured_length outs hs Hc). lia. }
    rewrite (host_output_idx_captured outs hs a s2 Hc Hs2). cbn [bind].
    destruct (decide (cls hs a >= 0)) as [Hge|Hlt].
    + (* already in a class *)
      cbn [bind].
      destruct (IH (S a) hs num Hc ltac:(lia))
        as (hs' & num' & -> & Hc' & He' & Hcls').
      exists hs', num'. split; [done|]. split; [done|]. split; [done|].
      intros j. rewrite Hcls'.
      destruct (decide (j = a)) as [->|Hja].
      * rewrite !decide_False by lia. done.
      * apply decide_ext. intuition lia.
    + destruct (host_output_captured outs hs i s1 Hc Hs1) as (b1 & -> & Hb1).
      destruct (host_output_captured outs hs a s2 Hc Hs2) as (b2 & -> & Hb2).
      cbn [bind].
      destruct (strcmp_cstr b1 b2 s1 s2 Hb1 Hb2) as (d & -> & Hd).
      cbn [bind].
      destruct (decide (d = 0)) as [Hd0|Hd0].
      * (* the same output: the class of [h1] *)
        apply Hd in Hd0. subst s2.
        destruct (set_host_output_idx_captured outs hs a s1 idx Hc Hs2)
          as (hs1 & -> & Hc1 & He1 & Hcls1).
        cbn [bind].
        destruct (IH (S a) hs1 (num + 1) Hc1)
          as (hs' & num' & -> & Hc' & He' & Hcls').
        { rewrite (captured_length outs hs1 Hc1),
            <- (captured_length outs hs Hc). lia. }
        exists hs', num'. split; [done|]. split; [done|].
        split; [congruence|].
        intros j. rewrite Hcls', !Hcls1.
        destruct (decide (j = a)) as [->|Hja].
        -- rewrite decide_False by lia.
           rewrite decide_True; [done|]. split; [lia|]. split; [lia|done].
        -- apply decide_ext. intuition lia.
      * (* another output *)
        cbn [bind].
        destruct (IH (S a) hs num Hc ltac:(lia))
          as (hs' & num' & -> & Hc' & He' & Hcls').
        exists hs', num'. split; [done|]. split; [done|]. split; [done|].
        intros j. rewrite Hcls'.
        destruct (decide (j = a)) as [->|Hja].
        -- rewrite !decide_False; [done| |lia].
           intros (_ & _ & Hj). rewrite Hs2 in Hj. injection Hj as ->.
           by apply Hd0, Hd.
        -- apply decide_ext. intuition lia.
Qed.
End JoinInner.

Section Classes.
Variables (outs : list (list byte)).

(** A host that has a class already is passed over. *)
Lemma classes_inv_skip a D K :
  classes_inv outs a D K -> 0 <= D a -> classes_inv outs (S a) D K.
Proof.
  intros (HK & Hbefore & Hrange & Hsame & Hfirst & Hall) Ha.
  split; [lia|]. split; [|split; [done|split; [done|split; [done|]]]].
  - intros j Hj Hn. destruct (decide (j = a)) as [->|]; [done|].
    apply Hbefore; lia.
  - intros c Hc. destruct (Hall c Hc) as (k & Hk & Hkc).
    exists k. split; [lia | done].
Qed.

(** A host without class founds the class [K], which takes the later
    hosts without class that have its string. *)
Lemma classes_inv_new a D D' K s1 :
  classes_inv outs a D K -> outs !! a = Some s1 -> D a < 0 ->
  (forall j, D' j = if decide (j = a) then K
                    else if decide ((S a <= j)%nat /\ D j < 0
                                    /\ outs !! j = Some s1)
                         then K else D j) ->
  classes_inv outs (S a) D' (K + 1).
Proof.
  intros (HK & Hbefore & Hrange & Hsame & Hfirst & Hall) Hs1 Ha HD'.
  (* the two ways a host gets its new class *)
  assert (forall j, (D' j = K /\ D j < 0 /\ outs !! j = Some s1
                     /\ (a <= j)%nat)
                    \/ (D' j = D j /\ j <> a
                        /\ ~ ((S a <= j)%nat /\ D j < 0
                              /\ outs !! j = Some s1))) as Hcases.
  { intros j. rewrite HD'. destruct (decide (j = a)) as [->|Hja].
    - left. repeat split; (done || lia).
    - case_decide as Hj.
      + left. destruct Hj as (? & ? & ?). repeat split; (done || lia).
      + right. done. }
  (* a host with the string of [a] had no class *)
  assert (forall k, outs !! k = Some s1 -> D k < 0) as Hfresh.
  { intros k Hk. destruct (Hrange k) as [->|Hk0]; [lia|].
    exfalso. pose proof (Hsame k a s1 s1 ltac:(lia) Hk Hs1) as [_ Heq].
    specialize (Heq eq_refl). lia. }
  split; [lia|]. split; [|split; [|split; [|split]]].
  - intros j Hj Hn. destruct (Hcases j) as [(-> & _)|(-> & Hja & _)]; [lia|].
    apply Hbefore; lia.
  - intros j. destruct (Hcases j) as [(-> & _)|(-> & _)]; [right; lia|].
    destruct (Hrange j); [by left | right; lia].
  - intros j k s t Hj Hsj Htk.
    destruct (Hcases j) as [(HjK & Hj0 & Hjs & Hja)|(HjD & Hja & Hjn)].
    + (* j is in the new class *)
      rewrite Hsj in Hjs. injection Hjs as ->. rewrite HjK.
      destruct (Hcases k) as [(HkK & Hk0 & Hks & Hka)|(HkD & Hka & Hkn)].
      * rewrite Htk in Hks. injection Hks as ->. done.
      * rewrite HkD. split.
        -- intros HkK. destruct (Hrange k); lia.
        -- intros ->. exfalso. pose proof (Hfresh k Htk) as Hk0.
           apply Hkn. split; [|done].
           destruct (decide (k < a)%nat) as [Hlt|Hge]; [|lia].
           pose proof (Hbefore k Hlt (lookup_lt_Some _ _ _ Htk)). lia.
    + (* j keeps its class *)
      rewrite HjD in *.
      destruct (Hcases k) as [(HkK & Hk0 & Hks & Hka)|(HkD & Hka & Hkn)].
      * rewrite HkK. rewrite Htk in Hks. injection Hks as ->. split.
        -- intros HKj. destruct (Hrange j); lia.
        -- intros <-. pose proof (Hfresh j Hsj). lia.
      * rewrite HkD. by apply Hsame.
  - intros j c Hc.
    destruct (Hcases j) as [(HjK & Hj0 & Hjs & Hja)|(HjD & Hja & Hjn)].
    + rewrite HjK in Hc. destruct (Hall c Hc) as (k & Hk & Hkc).
      exists k. split; [lia|].
      destruct (Hcases k) as [(_ & _ & _ & Hka)|(-> & _)]; [lia | done].
    + rewrite HjD in Hc. destruct (Hfirst j c Hc) as (k & Hk & Hkc).
      exists k. split; [done|].
      destruct (Hcases k) as [(_ & Hk0 & _)|(-> & _)]; [lia | done].
  - intros c Hc. destruct (decide (c = K)) as [->|HcK].
    + exists a. split; [lia|]. rewrite HD'. by rewrite decide_True.
    + destruct (Hall c ltac:(lia)) as (k & Hk & Hkc).
      exists k. split; [lia|].
      destruct (Hcases k) as [(_ & _ & _ & Hka)|(-> & _)]; [lia | done].
Qed.
End Classes.

Lemma store_int_ok (a : list Z) (i v : Z) :
  0 <= i < Z.of_nat (length a) ->
  exists a', store_int a i v = Ok a' /\ length a' = length a.
Proof.
  intros Hi. unfold store_int. rewrite decide_True by done.
  eexists. split; [done|]. apply length_insert.
Qed.

Section JoinOuter.
Variables (outs : list (list byte)).

(** The outer loop keeps [classes_inv] and changes nothing of the roster
    but the class indices. *)
Lemma join_outer_spec (len : nat) : forall a hs K count,
  captured hs outs -> classes_inv outs a (cls hs) K ->
  (a + len = length hs)%nat -> length count = length hs ->
  exists hs' K' count',
    for_each join_outer_body (seq a len) (hs, K, count)
    = Ok (hs', K', count')
    /\ captured hs' outs
    /\ classes_inv outs (a + len) (cls hs') K'
    /\ map erase_class hs' = map erase_class hs.
Proof.
  induction len as [|len IH]; intros a hs K count Hc Hinv Hlen Hcount.
  - exists hs, K, count. rewrite Nat.add_0_r. done.
  - cbn [seq for_each]. unfold join_outer_body at 1.
    destruct (lookup_lt_is_Some_2 outs a) as [s1 Hs1].
    { rewrite <- (captured_length outs hs Hc). lia. }
    rewrite (host_output_idx_captured outs hs a s1 Hc Hs1). cbn [bind].
    replace (a + S len)%nat with (S a + len)%nat by lia.
    destruct (decide (cls hs a >= 0)) as [Hge|Hlt].
    + (* the host has a class *)
      cbn [bind]. apply IH; try done; [|lia].
      apply classes_inv_skip; [done | lia].
    + (* the host founds a class *)
      destruct (set_host_output_idx_captured outs hs a s1 K Hc Hs1)
        as (hs1 & -> & Hc1 & He1 & Hcls1).
      cbn [bind].
      assert (length hs1 = length hs) as Hl1.
      { by rewrite (captured_length outs hs1 Hc1),
          (captured_length outs hs Hc). }
      destruct (join_inner_spec outs a K s1 Hs1 (length hs1 - S a) (S a)
                  hs1 1 Hc1 ltac:(lia))
        as (hs2 & num & -> & Hc2 & He2 & Hcls2).
      cbn [bind].
      destruct Hinv as (HK & Hinv').
      destruct (store_int_ok count K num) as (count' & -> & Hcount');
        [lia|].
      cbn [bind].
      destruct (IH (S a) hs2 (K + 1) count' Hc2)
        as (hs' & K' & count'' & -> & Hc' & Hinv'' & He').
      * apply (classes_inv_new outs a (cls hs) (cls hs2) K s1);
          [done | done | lia |].
        intros j. rewrite Hcls2, !Hcls1.
        destruct (decide (j = a)) as [->|Hja].
        -- by rewrite decide_False by lia.
        -- done.
      * rewrite (captured_length outs hs2 Hc2),
          <- (captured_length outs hs Hc). lia.
      * rewrite (captured_length outs hs2 Hc2),
          <- (captured_length outs hs Hc). lia.
      * exists hs', K', count''. split; [done|]. split; [done|].
        split; [done | congruence].
Qed.
End JoinOuter.

(** The walk that prints a class: the positions, in increasing order, of
    the hosts with the class index. *)
Lemma class_members_from_spec (i : Z) (hs : list Host) : forall off,
  Forall (fun h => is_Some (cp h)) hs ->
  exists ms,
    class_members_from hs off i = Ok ms
    /\ (forall j, j ∈ ms <->
          (off <= j)%nat /\ exists h, hs !! (j - off)%nat = Some h
                                      /\ class_of h = i)
    /\ StronglySorted lt ms.
Proof.
  induction hs as [|h hs IH]; intros off Hcp.
  - exists []. split; [done|]. split; [|constructor].
    intros j. split; [by intros ?%elem_of_nil|].
    by intros (_ & h & Hh & _).
  - apply Forall_cons in Hcp as [[c Hc] Hcp].
    cbn [class_members_from]. rewrite Hc.
    destruct (IH (S off) Hcp) as (ms & -> & Hms & Hsorted). cbn [bind].
    assert (forall j, j ∈ ms -> (off < j)%nat) as Hgt.
    { intros j Hj. apply Hms in Hj as [? _]. lia. }
    assert (forall j, (S off <= j)%nat ->
              (h :: hs) !! (j - off)%nat = hs !! (j - S off)%nat) as Hshift.
    { intros j Hj. replace (j - off)%nat with (S (j - S off)) by lia. done. }
    case_decide as Hi.
    + exists ms. split; [done|]. split; [|done].
      intros j. rewrite Hms. split.
      * intros (Hj & h' & Hh' & Hcl). split; [lia|].
        exists h'. by rewrite Hshift.
      * intros (Hj & h' & Hh' & Hcl).
        destruct (decide (j = off)) as [->|Hjo].
        -- rewrite Nat.sub_diag in Hh'. injection Hh' as <-.
           unfold class_of in Hcl. rewrite Hc in Hcl. done.
        -- split; [lia|]. exists h'. by rewrite <- Hshift by lia.
    + exists (off :: ms). split; [done|]. split.
      * intros j. rewrite elem_of_cons, Hms. split.
        -- intros [->|(Hj & h' & Hh' & Hcl)].
           ++ split; [lia|]. exists h. rewrite Nat.sub_diag.
              split; [done|]. unfold class_of. by rewrite Hc.
           ++ split; [lia|]. exists h'. by rewrite Hshift.
        -- intros (Hj & h' & Hh' & Hcl).
           destruct (decide (j = off)) as [->|Hjo]; [by left|].
           right. split; [lia|]. exists h'. by rewrite <- Hshift by lia.
      * constructor; [done|]. apply Forall_forall. intros j Hj.
        by apply Hgt.
Qed.

Lemma class_members_spec (hs : list Host) (i : Z) :
  Forall (fun h => is_Some (cp h)) hs ->
  exists ms,
    class_members hs i = Ok ms
    /\ (forall j, j ∈ ms <-> (j < length hs)%nat /\ cls hs j = i)
    /\ StronglySorted lt ms.
Proof.
  intros Hcp.
  destruct (class_members_from_spec i hs 0%nat Hcp) as (ms & Hms & Hin & Hs).
  exists ms. split; [done|]. split; [|done].
  intros j. rewrite Hin, Nat.sub_0_r. unfold cls. split.
  - intros (_ & h & Hh & Hcl). rewrite Hh.
    split; [by eapply lookup_lt_Some | done].
  - intros (Hj & Hcl). split; [lia|].
    destruct (lookup_lt_is_Some_2 hs j Hj) as [h Hh].
    exists h. by rewrite Hh in Hcl.
Qed.

Lemma captured_has_child hs outs :
  captured hs outs -> Forall (fun h => is_Some (cp h)) hs.
Proof.
  intros Hc. apply Forall_forall. intros h Hh.
  apply list_elem_of_lookup in Hh as [j Hj].
  destruct (Forall2_lookup_l _ _ _ _ _ Hc Hj) as (s & _ & c & _ & -> & _).
  by eexists.
Qed.

(** On a roster whose child records hold their captured outputs and no
    class, [join_mode_finish] leaves the roster as it is but for the class
    indices; every host is a member of a class and of one only; two hosts
    are members of one class if and only if their captured outputs are the
    same C string; every member of a class comes after some member of each
    class of smaller index; and the members of a class are listed in
    roster order. *)
Lemma join_classes_spec junk num_hosts hs outs :
  num_hosts = Z.of_nat (length hs) -> hs <> [] ->
  Forall2 (fun h s =>
             exists c b, cp h = Some c /\ output c = Some b
                         /\ cstr b = Ok s /\ output_idx c = -1) hs outs ->
  exists hs' K count,
    join_classes junk num_hosts hs = Ok (hs', K, count)
    /\ map erase_class hs' = map erase_class hs
    /\ (forall j, (j < length hs)%nat ->
          exists i ms, 0 <= i < K /\ class_members hs' i = Ok ms /\ j ∈ ms)
    /\ (forall i i' ms ms' j,
          class_members hs' i = Ok ms -> class_members hs' i' = Ok ms' ->
          j ∈ ms -> j ∈ ms' -> i = i')
    /\ (forall j k s t, outs !! j = Some s -> outs !! k = Some t ->
          (exists i ms, class_members hs' i = Ok ms /\ j ∈ ms /\ k ∈ ms)
          <-> s = t)
    /\ (forall i i' ms ms' j, 0 <= i < i' ->
          class_members hs' i = Ok ms -> class_members hs' i' = Ok ms' ->
          j ∈ ms' -> exists k, k ∈ ms /\ (k < j)%nat)
    /\ (forall i ms, class_members hs' i = Ok ms ->
          StronglySorted lt ms /\ forall j, j ∈ ms -> (j < length hs)%nat).
Proof.
  intros Hnum Hne Hall.
  assert (captured hs outs) as Hc.
  { eapply Forall2_impl; [exact Hall|]. intros h s (c & b & ? & ? & ? & _).
    by exists c, b. }
  assert (forall j, cls hs j = -1) as Hnone.
  { intros j. unfold cls. destruct (hs !! j) as [h|] eqn:Hj; [|done].
    destruct (Forall2_lookup_l _ _ _ _ _ Hall Hj)
      as (s & _ & c & b & Hcp & _ & _ & Hidx).
    unfold class_of. by rewrite Hcp. }
  assert (classes_inv outs 0 (cls hs) 0) as Hinv.
  { split; [lia|]. split; [intros; lia|]. split; [by left|].
    split; [|split].
    - intros j k s t Hj. rewrite Hnone in Hj. lia.
    - intros j c Hjc. rewrite Hnone in Hjc. lia.
    - intros c Hc0. lia. }
  unfold join_classes.
  rewrite assert_true
    by (apply bool_decide_eq_true; destruct hs; [done | simpl in *; lia]).
  cbn [bind].
  destruct (join_outer_spec outs (length hs) 0 hs 0
              (map junk (seq 0 (Z.to_nat num_hosts))) Hc Hinv)
    as (hs' & K & count & Hrun & Hc' & Hinv' & He); [done| |].
  { rewrite length_map, length_seq. lia. }
  exists hs', K, count. split; [done|]. split; [done|].
  assert (length hs' = length hs) as Hlen.
  { by rewrite (captured_length outs hs' Hc'), (captured_length outs hs Hc). }
  pose proof (captured_has_child hs' outs Hc') as Hcp.
  assert (forall i ms, class_members hs' i = Ok ms ->
            (forall j, j ∈ ms <-> (j < length hs)%nat /\ cls hs' j = i)
            /\ StronglySorted lt ms) as Hmem.
  { intros i ms Hms.
    destruct (class_members_spec hs' i Hcp) as (ms' & Hms' & Hin & Hs).
    rewrite Hms in Hms'. injection Hms' as <-. by rewrite <- Hlen. }
  destruct Hinv' as (HK & Hbefore & Hrange & Hsame & Hfirst & Hevery).
  rewrite Nat.add_0_l in Hbefore, Hevery.
  assert (forall j, (j < length hs)%nat -> 0 <= cls hs' j < K) as Hin.
  { intros j Hj.
    pose proof (Hbefore j Hj ltac:(by rewrite <- (captured_length outs hs Hc))).
    destruct (Hrange j); lia. }
  split; [|split; [|split; [|split]]].
  - intros j Hj.
    destruct (class_members_spec hs' (cls hs' j) Hcp) as (ms & Hms & Hjm & _).
    exists (cls hs' j), ms. split; [by apply Hin|]. split; [done|].
    apply Hjm. by rewrite Hlen.
  - intros i i' ms ms' j Hms Hms' Hj Hj'.
    apply (Hmem i ms Hms) in Hj as [_ <-].
    by apply (Hmem i' ms' Hms') in Hj' as [_ <-].
  - intros j k s t Hs Ht.
    assert (j < length hs)%nat as Hj
      by (rewrite (captured_length outs hs Hc); by eapply lookup_lt_Some).
    assert (k < length hs)%nat as Hk
      by (rewrite (captured_length outs hs Hc); by eapply lookup_lt_Some).
    pose proof (Hsame j k s t ltac:(by apply Hin) Hs Ht) as Hiff.
    split.
    + intros (i & ms & Hms & Hjm & Hkm).
      apply (Hmem i ms Hms) in Hjm as [_ Hji].
      apply (Hmem i ms Hms) in Hkm as [_ Hki].
      symmetry. apply Hiff. congruence.
    + intros ->.
      destruct (class_members_spec hs' (cls hs' j) Hcp)
        as (ms & Hms & Hjm & _).
      exists (cls hs' j), ms. split; [done|]. rewrite !Hjm, Hlen.
      split; [done|]. split; [done|]. by apply Hiff.
  - intros i i' ms ms' j Hii Hms Hms' Hj.
    apply (Hmem i' ms' Hms') in Hj as [Hjl Hji].
    destruct (Hfirst j i ltac:(lia)) as (k & Hk & Hki).
    exists k. split; [|done].
    apply (Hmem i ms Hms). split; [lia | done].
  - intros i ms Hms. destruct (Hmem i ms Hms) as [Hjm Hs].
    split; [done|]. intros j Hj. by apply Hjm in Hj as [? _].
Qed.

(** ** The formatters keep the identity of an event record *)

Lemma same_id_refl f : same_id f f.
Proof. done. Qed.

Lemma same_id_trans f1 f2 f3 :
  same_id f1 f2 -> same_id f2 f3 -> same_id f1 f3.
Proof. unfold same_id. intros (? & ? & ?) (? & ? & ?). intuition congruence. Qed.

Lemma push_byte_id fdev c fdev' :
  push_byte fdev c = Ok fdev' -> same_id fdev fdev'.
Proof.
  unfold push_byte. destruct (buffer fdev); [|done].
  intros H. apply bind_Ok in H as (? & _ & [= <-]). done.
Qed.

Lemma poke_byte_id fdev c fdev' :
  poke_byte fdev c = Ok fdev' -> same_id fdev fdev'.
Proof.
  unfold poke_byte. destruct (buffer fdev); [|done].
  intros H. apply bind_Ok in H as (? & _ & [= <-]). done.
Qed.

Lemma line_by_line_byte_id o cl h fdev k c fdev' k' :
  line_by_line_byte o cl h (fdev, k) c = Ok (fdev', k') ->
  same_id fdev fdev'.
Proof.
  unfold line_by_line_byte. intros H.
  apply bind_Ok in H as (f1 & H1 & H).
  assert (same_id fdev f1) as Hid1.
  { destruct (decide (offset fdev < max_line_length o));
      [by eapply push_byte_id|].
    destruct (decide (offset fdev = max_line_length o));
      [by eapply push_byte_id|].
    injection H1 as <-. apply same_id_refl. }
  clear H1. destruct (decide (c = NL)).
  - apply bind_Ok in H as (? & _ & H). apply bind_Ok in H as (? & _ & H).
    apply bind_Ok in H as (f2 & H2 & H). apply bind_Ok in H as (? & _ & H).
    injection H as <- <-. apply poke_byte_id in H2.
    eapply same_id_trans; [exact Hid1|].
    eapply same_id_trans; [exact H2|]. done.
  - by injection H as <- <-.
Qed.

Lemma line_by_line_loop_id o cl h buf : forall fdev k fdev' k',
  line_by_line_loop o cl h (fdev, k) buf = Ok (fdev', k') ->
  same_id fdev fdev'.
Proof.
  induction buf as [|c buf IH]; intros fdev k fdev' k' H;
    cbn [line_by_line_loop] in H.
  - by injection H as <- <-.
  - apply bind_Ok in H as ([f1 k1] & H1 & H).
    apply line_by_line_byte_id in H1. apply IH in H.
    by eapply same_id_trans.
Qed.

Lemma join_loop_id o buf : forall fdev fdev',
  join_loop o fdev buf = Ok fdev' -> same_id fdev fdev'.
Proof.
  induction buf as [|c buf IH]; intros fdev fdev' H; cbn [join_loop] in H.
  - by injection H as <-.
  - destruct (decide (offset fdev < max_output_length o)).
    { apply bind_Ok in H as (f1 & H1 & H).
      apply push_byte_id in H1. apply IH in H. by eapply same_id_trans. }
    destruct (decide (offset fdev = max_line_length o)).
    { apply bind_Ok in H as (f1 & H1 & H).
      apply push_byte_id in H1. apply IH in H. by eapply same_id_trans. }
    by injection H as <-.
Qed.

Lemma process_data_id o cl h fdev k buf fdev' k' :
  process_data o cl h fdev k buf = Ok (fdev', k') -> same_id fdev fdev'.
Proof.
  unfold process_data. destruct (mode o); intros H.
  - apply bind_Ok in H as (? & _ & H). unfold process_data_line_by_line in H.
    apply bind_Ok in H as (? & _ & H). by eapply line_by_line_loop_id.
  - apply bind_Ok in H as (? & _ & H). by injection H as <- <-.
  - apply bind_Ok in H as (? & _ & H). apply bind_Ok in H as (f1 & H1 & H).
    injection H as <- <-. unfold process_data_join in H1.
    apply bind_Ok in H1 as (? & _ & H1). by eapply join_loop_id.
Qed.

Lemma read_loop_id o cl h reads fin : forall fdev k fdev' k' eof,
  read_loop o cl h fdev k reads fin = Ok (fdev', k', eof) ->
  same_id fdev fdev'.
Proof.
  induction reads as [|buf reads IH]; intros fdev k fdev' k' eof H;
    cbn [read_loop] in H.
  - destruct fin; try done; by injection H as <- <- <-.
  - case_decide; [by injection H as <- <- <-|].
    destruct (silent o); [by eapply IH|].
    apply bind_Ok in H as ([f1 k1] & H1 & H).
    apply process_data_id in H1. apply IH in H. by eapply same_id_trans.
Qed.

(** ** Counting hosts and actions *)

Lemma count_hosts_insert (p : Host -> bool) (hs : list Host) : forall j h h',
  hs !! j = Some h ->
  count_hosts p (<[j := h']> hs)
  = count_hosts p hs - (if p h then 1 else 0) + (if p h' then 1 else 0).
Proof.
  induction hs as [|x hs IH]; intros j h h' Hj; [done|].
  destruct j as [|j]; cbn in Hj.
  - injection Hj as ->. cbn. lia.
  - specialize (IH j h h' Hj).
    change (<[S j := h']> (x :: hs)) with (x :: <[j := h']> hs).
    cbn [count_hosts]. lia.
Qed.

Lemma count_hosts_nonneg (p : Host -> bool) (hs : list Host) :
  0 <= count_hosts p hs.
Proof. induction hs as [|x hs IH]; cbn; [lia|]. destruct (p x); lia. Qed.

Lemma count_hosts_pos (p : Host -> bool) (hs : list Host) (h : Host) :
  h ∈ hs -> p h = true -> 0 < count_hosts p hs.
Proof.
  induction hs as [|x hs IH]; intros Hh Hp; [by apply elem_of_nil in Hh|].
  cbn [count_hosts]. pose proof (count_hosts_nonneg p hs).
  apply elem_of_cons in Hh as [<-|Hh].
  - rewrite Hp. lia.
  - specialize (IH Hh Hp). destruct (p x); lia.
Qed.

Lemma count_hosts_all (p q : Host -> bool) (hs : list Host) :
  (forall h, h ∈ hs -> p h = true \/ q h = true) ->
  count_hosts p hs = 0 -> forall h, h ∈ hs -> q h = true.
Proof.
  induction hs as [|x hs IH]; intros Hpq Hc h Hh;
    [by apply elem_of_nil in Hh|].
  cbn in Hc. pose proof (count_hosts_nonneg p hs).
  apply elem_of_cons in Hh as [->|Hh].
  - destruct (Hpq x ltac:(by left)) as [Hp|Hq]; [|done].
    rewrite Hp in Hc. lia.
  - apply IH; [|destruct (p x); lia|done].
    intros h' Hh'. apply Hpq. by right.
Qed.

Lemma reap_count_app j (l1 l2 : list Action) :
  reap_count j (l1 ++ l2) = (reap_count j l1 + reap_count j l2)%nat.
Proof.
  induction l1 as [|a l1 IH]; [done|]. cbn [app reap_count].
  destruct a; try done. case_decide; lia.
Qed.

Lemma fork_count_app (l1 l2 : list Action) :
  fork_count (l1 ++ l2) = (fork_count l1 + fork_count l2)%nat.
Proof.
  induction l1 as [|a l1 IH]; [done|]. cbn [app fork_count].
  destruct a; lia.
Qed.

(** An action inside a list that was extended at its end was inside the
    list before, unless it is the action added. *)
Lemma snoc_split (l pre post : list Action) (x y : Action) :
  l ++ [x] = pre ++ y :: post ->
  (post = [] /\ pre = l /\ y = x)
  \/ (exists post', post = post' ++ [x] /\ l = pre ++ y :: post').
Proof.
  intros H. destruct (decide (post = [])) as [->|Hne].
  - left. apply app_inj_tail in H as [-> ->]. done.
  - right. destruct (exists_last Hne) as (post' & z & ->).
    rewrite app_comm_cons, app_assoc in H.
    apply app_inj_tail in H as [-> ->]. by exists post'.
Qed.

Lemma closed_in_app l1 l2 j t : closed_in l1 j t -> closed_in (l1 ++ l2) j t.
Proof. intros [d Hd]. exists d. apply elem_of_app. by left. Qed.

(** The test of [main_loop] for a drained child reads the pipes of the
    mode. *)
(** Membership of a pipe type in an explicit list. *)
Ltac pipes :=
  solve [ repeat constructor
        | let H := fresh in
          intros H;
          repeat (apply elem_of_cons in H as [H|H]; [discriminate|]);
          by apply elem_of_nil in H ].

Lemma child_process_stdio_done_iff (m : ProgMode) (c : ChildProcess) :
  (forall t, t ∉ pipes_of m -> cp_fd t c = -1) ->
  child_process_stdio_done c = true
  <-> forall t, t ∈ pipes_of m -> cp_fd t c = -2.
Proof.
  intros Hother. unfold child_process_stdio_done.
  rewrite orb_true_iff, andb_true_iff, !bool_decide_eq_true.
  destruct m; cbn [pipes_of] in *.
  - assert (stdio_fd c = -1) as Hio.
    { apply (Hother PIPE_STDIO). pipes. }
    split.
    + intros [[Ho He]|Hs]; [|lia].
      intros t Ht. apply elem_of_cons in Ht as [->|Ht]; [done|].
      by apply list_elem_of_singleton in Ht as ->.
    + intros H. left. split; [apply (H PIPE_STDOUT) | apply (H PIPE_STDERR)];
        pipes.
  - assert (stdio_fd c = -1) as Hio.
    { apply (Hother PIPE_STDIO). pipes. }
    split.
    + intros [[Ho He]|Hs]; [|lia].
      intros t Ht. apply elem_of_cons in Ht as [->|Ht]; [done|].
      by apply list_elem_of_singleton in Ht as ->.
    + intros H. left. split; [apply (H PIPE_STDOUT) | apply (H PIPE_STDERR)];
        pipes.
  - assert (stdout_fd c = -1) as Ho.
    { apply (Hother PIPE_STDOUT). pipes. }
    split.
    + intros [[Ho' He]|Hs]; [lia|].
      intros t Ht. by apply list_elem_of_singleton in Ht as ->.
    + intros H. right. apply (H PIPE_STDIO). pipes.
Qed.

(** ** The steps of the main loop *)

Lemma cp_fd_set_cp_fd t t0 v c :
  cp_fd t (set_cp_fd t0 v c) = if decide (t = t0) then v else cp_fd t c.
Proof. destruct t, t0; done. Qed.

Lemma pid_set_cp_fd t v c : pid (set_cp_fd t v c) = pid c.
Proof. by destruct t. Qed.

(** What a call of [read_active_fd] that returns has done. *)
Lemma read_active_fd_inv g r w w' closed hi :
  read_active_fd g r w = Ok (w', closed, hi) ->
  exists fdev h c,
    watch w !! rdy_fd r = Some fdev /\ hi = host fdev
    /\ hosts w !! hi = Some h /\ cp h = Some c
    /\ ((closed = false
         /\ exists fdev' k',
              same_id fdev fdev'
              /\ w' = mkWorld (hosts w) (<[rdy_fd r := fdev']> (watch w)) k'
                        (actions w))
        \/ (closed = true
            /\ exists c' k',
                 pid c' = pid c
                 /\ (forall t, cp_fd t c'
                               = if decide (t = type fdev) then -2
                                 else cp_fd t c)
                 /\ w' = mkWorld (<[hi := set_cp (Some c') h]> (hosts w))
                           (delete (rdy_fd r)
                              (delete (cp_fd (type fdev) c) (watch w)))
                           k'
                           (actions w
                            ++ [Closed hi (type fdev)
                                  (cp_fd (type fdev) c)]))).
Proof.
  unfold read_active_fd. intros H.
  destruct (watch w !! rdy_fd r) as [fdev|] eqn:Hw; [|done].
  destruct (hosts w !! host fdev) as [h|] eqn:Hh; [|done].
  destruct (cp h) as [c|] eqn:Hc; [|done].
  apply bind_Ok in H as ([[fdev1 k1] eof] & Hread & H).
  pose proof (read_loop_id _ _ _ _ _ _ _ _ _ _ Hread) as Hid.
  pose proof Hid as (_ & _ & Ht).
  exists fdev, h, c. destruct eof.
  - apply bind_Ok in H as ([[fdev2 k2] handed] & _ & H).
    injection H as <- <- <-. rewrite Ht.
    split; [done|]. split; [done|]. split; [done|]. split; [done|].
    right. split; [done|].
    eexists _, k2. split; [|split; [|done]].
    + destruct handed; cbn; by rewrite ?pid_set_cp_fd.
    + intros t. rewrite <- cp_fd_set_cp_fd. by destruct handed, t.
  - injection H as <- <- <-.
    split; [done|]. split; [done|]. split; [done|]. split; [done|].
    left. split; [done|]. by exists fdev1, k1.
Qed.

(** An event record replaced by one of the same identity. *)
Lemma child_ok_insert m wt j c d f f' :
  child_ok m wt j c -> wt !! d = Some f -> same_id f f' ->
  child_ok m (<[d := f']> wt) j c.
Proof.
  intros (Hother & Hreg & Hpid) Hd (Hh & _ & Ht).
  split; [done|]. split; [|done].
  intros t Hin. destruct (Hreg t Hin) as [Hc|(Hpos & f0 & Hf0 & Hh0 & Ht0)];
    [by left|].
  right. split; [done|].
  destruct (decide (cp_fd t c = d)) as [Heq|Hne].
  - exists f'. rewrite Heq, lookup_insert_eq.
    rewrite Heq, Hd in Hf0. injection Hf0 as <-.
    split; [done|]. split; congruence.
  - exists f0. by rewrite lookup_insert_ne.
Qed.

(** An event record of another host or pipe removed. *)
Lemma child_ok_delete m wt j c d f :
  child_ok m wt j c -> wt !! d = Some f ->
  (forall t, t ∈ pipes_of m -> host f = j -> type f = t ->
     cp_fd t c = -2) ->
  child_ok m (delete d wt) j c.
Proof.
  intros (Hother & Hreg & Hpid) Hd Hgone.
  split; [done|]. split; [|done].
  intros t Hin. destruct (Hreg t Hin) as [Hc|(Hpos & f0 & Hf0 & Hh0 & Ht0)];
    [by left|].
  destruct (decide (cp_fd t c = d)) as [Heq|Hne].
  - rewrite Heq, Hd in Hf0. injection Hf0 as <-.
    left. by apply Hgone.
  - right. split; [done|]. exists f0. by rewrite lookup_delete_ne.
Qed.

Section EngineSteps.
Variable g : Globals.

(** [read_active_fd] keeps the engine invariant; when it closes the
    descriptor, its host is a host whose child has its pid. *)
Lemma read_active_fd_keeps r w w' closed hi cur nout ndone :
  engine_inv g (hosts w) (watch w) (actions w) cur nout ndone ->
  read_active_fd g r w = Ok (w', closed, hi) ->
  engine_inv g (hosts w') (watch w') (actions w') cur nout ndone
  /\ (closed = true ->
      exists h' c', hosts w' !! hi = Some h' /\ cp h' = Some c'
                    /\ 0 < pid c').
Proof.
  intros (H1 & H2 & H3 & H4 & H5 & H6 & H7 & H8 & H9 & H10) Hread.
  apply read_active_fd_inv in Hread
    as (fdev & h & c & Hw & -> & Hh & Hc
        & [(-> & fdev' & k' & Hid & ->)
          |(-> & c' & k' & Hpid & Hfds & ->)]).
  - (* the descriptor stays open *)
    split; [|done]. cbn [hosts watch actions].
    destruct (H4 _ _ Hw) as (Hfd & Hpos & Hty & h0 & c0 & Hh0 & Hc0 & Hcp0).
    split; [done|]. split; [done|]. split.
    { intros j hj Hj Hlt. destruct (H3 j hj Hj Hlt) as (cj & Hcj & Hok).
      exists cj. split; [done|]. by eapply child_ok_insert. }
    split; [|done].
    intros d f Hf. destruct (decide (d = rdy_fd r)) as [->|Hd].
    + rewrite lookup_insert_eq in Hf. injection Hf as <-.
      destruct Hid as (Hih & Hif & Hit). rewrite Hif, Hit, Hih.
      split; [done|]. split; [done|]. split; [done|]. by exists h0, c0.
    + rewrite lookup_insert_ne in Hf by done. by apply H4.
  - (* the end of the file *)
    cbn [hosts watch actions].
    destruct (H4 _ _ Hw) as (Hfd & Hpos & Hty & h0 & c0 & Hh0 & Hc0 & Hcp0).
    rewrite Hh in Hh0. injection Hh0 as <-.
    rewrite Hc in Hc0. injection Hc0 as <-.
    rewrite Hcp0. rewrite delete_delete_eq.
    assert (host fdev < cur)%nat as Hlt.
    { destruct (decide (host fdev < cur)%nat) as [|Hge]; [done|].
      rewrite (H2 _ _ Hh) in Hc by lia. done. }
    destruct (H3 _ _ Hh Hlt) as (c0 & Hc0 & Hok).
    rewrite Hc in Hc0. injection Hc0 as <-.
    assert (0 < pid c) as Hrun.
    { destruct Hok as (_ & _ & [[_ Hall]|Hp]); [|done].
      specialize (Hall _ Hty). lia. }
    assert (forall j, j <> host fdev ->
              <[host fdev := set_cp (Some c') h]> (hosts w) !! j
              = hosts w !! j) as Hne.
    { intros j Hj. by rewrite list_lookup_insert_ne. }
    assert (<[host fdev := set_cp (Some c') h]> (hosts w) !! host fdev
            = Some (set_cp (Some c') h)) as Heq.
    { apply list_lookup_insert_eq. by eapply lookup_lt_Some. }
    split.
    2:{ intros _. exists (set_cp (Some c') h), c'.
        split; [done|]. split; [done|]. lia. }
    split; [by rewrite length_insert|]. split.
    { intros j hj Hj Hge. rewrite Hne in Hj by lia. by eapply H2. }
    split.
    { intros j hj Hj Hjlt. destruct (decide (j = host fdev)) as [->|Hjne].
      - rewrite Heq in Hj. injection Hj as <-.
        exists c'. split; [done|].
        destruct Hok as (Hother & Hreg & _).
        split; [|split; [|by right; lia]].
        + intros t Ht. rewrite Hfds.
          rewrite decide_False by (intros ->; done). by apply Hother.
        + intros t Ht. rewrite Hfds. case_decide as Htt; [by left|].
          destruct (Hreg t Ht) as [?|(Hp & f0 & Hf0 & Hh0 & Ht0)];
            [by left|].
          right. split; [done|]. exists f0.
          rewrite lookup_delete_ne; [done|].
          intros Hd. rewrite <- Hd, Hw in Hf0. injection Hf0 as <-.
          by apply Htt.
      - rewrite Hne in Hj by done.
        destruct (H3 j hj Hj Hjlt) as (cj & Hcj & Hokj).
        exists cj. split; [done|].
        eapply child_ok_delete; [done | done |].
        intros t _ Hhost. done. }
    split.
    { intros d f Hf. apply lookup_delete_Some in Hf as [Hd Hf].
      destruct (H4 _ _ Hf) as (Hfd' & Hpos' & Hty' & h1 & c1 & Hh1 & Hc1 & Hcp1).
      split; [done|]. split; [done|]. split; [done|].
      destruct (decide (host f = host fdev)) as [Hhf|Hhf].
      - rewrite Hhf, Hh in Hh1. injection Hh1 as <-.
        rewrite Hc in Hc1. injection Hc1 as <-.
        exists (set_cp (Some c') h), c'. rewrite Hhf.
        split; [done|]. split; [done|]. rewrite Hfds.
        rewrite decide_False; [done|].
        intros Ht. rewrite Ht, Hcp0 in Hcp1. done.
      - exists h1, c1. by rewrite Hne. }
    split.
    { rewrite (count_hosts_insert _ _ _ h _ Hh). unfold running at 2 3.
      cbn [cp set_cp]. rewrite Hc, Hpid. lia. }
    split.
    { rewrite (count_hosts_insert _ _ _ h _ Hh). unfold is_reaped at 2 3.
      cbn [cp set_cp]. rewrite Hc, Hpid. lia. }
    split; [done|]. split.
    { intros j. rewrite reap_count_app. cbn [reap_count].
      rewrite Nat.add_0_r, H8.
      destruct (decide (j = host fdev)) as [->|Hjne].
      - rewrite Heq, Hh. unfold is_reaped. cbn [cp set_cp].
        by rewrite Hc, Hpid.
      - by rewrite Hne. }
    split.
    { intros j hj cj t Hj Hcj Ht.
      destruct (decide (j = host fdev)) as [->|Hjne].
      - rewrite Heq in Hj. injection Hj as <-. cbn in Hcj.
        injection Hcj as <-. rewrite Hfds in Ht.
        case_decide as Htt.
        + subst t. exists (rdy_fd r). apply elem_of_app. right.
          apply list_elem_of_singleton. done.
        + apply closed_in_app. by eapply H9.
      - rewrite Hne in Hj by done. apply closed_in_app. by eapply H9. }
    intros pre p post j Hsplit.
    apply snoc_split in Hsplit as [(_ & _ & Hbad)|(post' & _ & Hold)];
      [done|].
    by eapply H10.
Qed.
End EngineSteps.

Section Reaping.
Variable g : Globals.

(** [wait_for_child] on a drained child that has its pid moves it from the
    running to the reaped hosts. *)
Lemma wait_for_child_keeps r hi w w' h c cur nout ndone :
  engine_inv g (hosts w) (watch w) (actions w) cur nout ndone ->
  hosts w !! hi = Some h -> cp h = Some c -> 0 < pid c ->
  child_process_stdio_done c = true ->
  wait_for_child g r hi w = Ok w' ->
  engine_inv g (hosts w') (watch w') (actions w') cur (nout - 1) (ndone + 1)
  /\ actions w' = actions w ++ [Reaped hi (pid c)].
Proof.
  intros (H1 & H2 & H3 & H4 & H5 & H6 & H7 & H8 & H9 & H10) Hh Hc Hrun Hdone
    Hwait.
  unfold wait_for_child in Hwait. rewrite Hh, Hc in Hwait.
  destruct (rdy_wait r) as [status|]; [|done].
  apply bind_Ok in Hwait as (tm & _ & Hwait).
  set (c2 := mkChildProcess (-2) (stdout_fd c) (stderr_fd c) (stdio_fd c)
               (output c) (output_idx c) (WEXITSTATUS status)
               (started_time c) tm) in *.
  assert (exists k', w' = mkWorld (<[hi := set_cp (Some c2) h]> (hosts w))
                            (watch w) k' (actions w ++ [Reaped hi (pid c)]))
    as [k' ->].
  { destruct (exit_codes (opts g) || debug (opts g));
      injection Hwait as <-; by eexists. }
  clear Hwait. cbn [hosts watch actions]. split; [|done].
  assert (hi < cur)%nat as Hlt.
  { destruct (decide (hi < cur)%nat) as [|Hge]; [done|].
    rewrite (H2 _ _ Hh) in Hc by lia. done. }
  destruct (H3 _ _ Hh Hlt) as (c0 & Hc0 & Hother & Hreg & Hpid).
  rewrite Hc in Hc0. injection Hc0 as <-.
  assert (forall t, cp_fd t c2 = cp_fd t c) as Hfds by (by intros []).
  assert (forall t, t ∈ pipes_of (mode (opts g)) -> cp_fd t c = -2) as Hall.
  { by apply child_process_stdio_done_iff. }
  assert (forall j, j <> hi ->
            <[hi := set_cp (Some c2) h]> (hosts w) !! j = hosts w !! j)
    as Hne.
  { intros j Hj. by rewrite list_lookup_insert_ne. }
  assert (<[hi := set_cp (Some c2) h]> (hosts w) !! hi
          = Some (set_cp (Some c2) h)) as Heq.
  { apply list_lookup_insert_eq. by eapply lookup_lt_Some. }
  split; [by rewrite length_insert|]. split.
  { intros j hj Hj Hge. rewrite Hne in Hj by lia. by eapply H2. }
  split.
  { intros j hj Hj Hjlt. destruct (decide (j = hi)) as [->|Hjne].
    - rewrite Heq in Hj. injection Hj as <-. exists c2. split; [done|].
      split; [|split].
      + intros t Ht. rewrite Hfds. by apply Hother.
      + intros t Ht. left. rewrite Hfds. by apply Hall.
      + left. split; [done|]. intros t Ht. rewrite Hfds. by apply Hall.
    - rewrite Hne in Hj by done. by apply H3. }
  split.
  { intros d f Hf.
    destruct (H4 _ _ Hf) as (Hfd' & Hpos' & Hty' & h1 & c1 & Hh1 & Hc1 & Hcp1).
    split; [done|]. split; [done|]. split; [done|].
    destruct (decide (host f = hi)) as [Hhf|Hhf].
    - rewrite Hhf, Hh in Hh1. injection Hh1 as <-.
      rewrite Hc in Hc1. injection Hc1 as <-.
      exists (set_cp (Some c2) h), c2. rewrite Hhf.
      split; [done|]. split; [done|]. by rewrite Hfds.
    - exists h1, c1. by rewrite Hne. }
  assert (running h = true) as Hr.
  { unfold running. rewrite Hc. apply bool_decide_eq_true. lia. }
  assert (is_reaped h = false) as Hnr.
  { unfold is_reaped. rewrite Hc. apply bool_decide_eq_false. lia. }
  assert (running (set_cp (Some c2) h) = false) as Hr2.
  { apply bool_decide_eq_false. cbn. lia. }
  assert (is_reaped (set_cp (Some c2) h) = true) as Hnr2.
  { by apply bool_decide_eq_true. }
  split.
  { rewrite (count_hosts_insert _ _ _ h _ Hh), Hr, Hr2. lia. }
  split.
  { rewrite (count_hosts_insert _ _ _ h _ Hh), Hnr, Hnr2. lia. }
  split; [lia|]. split.
  { intros j. rewrite reap_count_app. cbn [reap_count]. rewrite H8.
    destruct (decide (hi = j)) as [<-|Hjne].
    - rewrite Heq, Hh, Hnr, Hnr2. done.
    - rewrite Hne by done. lia. }
  split.
  { intros j hj cj t Hj Hcj Ht. apply closed_in_app.
    destruct (decide (j = hi)) as [->|Hjne].
    - rewrite Heq in Hj. injection Hj as <-. cbn in Hcj.
      injection Hcj as <-. rewrite Hfds in Ht. by eapply H9.
    - rewrite Hne in Hj by done. by eapply H9. }
  intros pre p post j Hsplit t Ht.
  apply snoc_split in Hsplit as [(_ & -> & Hlast)|(post' & _ & Hold)].
  - injection Hlast as -> _. eapply H9; [done | done |]. by apply Hall.
  - by eapply H10.
Qed.
End Reaping.

Lemma child_ok_mono m (wt wt' : gmap Z FdEvent) j c :
  child_ok m wt j c ->
  (forall d f, wt !! d = Some f -> wt' !! d = Some f) ->
  child_ok m wt' j c.
Proof.
  intros (Hother & Hreg & Hpid) Hsub. split; [done|]. split; [|done].
  intros t Ht. destruct (Hreg t Ht) as [?|(Hp & f & Hf & Hh & Hty)];
    [by left|].
  right. split; [done|]. exists f. split; [by apply Hsub | done].
Qed.

Section Admission.
Variable g : Globals.

(** What a call of [spawn_child_process] that returns has done. *)
Lemma spawn_child_process_inv a hi w w' :
  spawn_child_process g a hi w = Ok w' ->
  exists h c,
    hosts w !! hi = Some h /\ cp h = None
    /\ 0 < pid c
    /\ (forall t, cp_fd t c
                  = if decide (t ∈ pipes_of (mode (opts g)))
                    then adm_fd a t else -1)
    /\ w' = mkWorld (<[hi := set_cp (Some c) h]> (hosts w)) (watch w)
              (console w) (actions w ++ [Forked hi (pid c)]).
Proof.
  unfold spawn_child_process. intros H.
  destruct (hosts w !! hi) as [h|] eqn:Hh; [|done].
  apply bind_Ok in H as ([] & Hcp%assert_Ok%bool_decide_eq_true & H).
  apply bind_Ok in H as (? & _ & H).
  apply bind_Ok in H as ([] & _ & H).
  destruct (adm_fork a) as [p|]; [|done].
  apply bind_Ok in H as (tm & _ & H). injection H as <-.
  unfold log, set_hosts. cbn [hosts watch console actions].
  match goal with
  | |- context [set_cp (Some ?c0) h] => exists h, c0
  end.
  split; [done|]. split; [done|].
  split; [|split; [|reflexivity]].
  - cbn. lia.
  - intros t. destruct (mode (opts g)), t; cbn; try done.
Qed.

(** What a call of [register_child_process_fd] that returns has done. *)
Lemma register_child_process_fd_inv a hi t w w' :
  register_child_process_fd g a hi t w = Ok w' ->
  exists h c fdev,
    hosts w !! hi = Some h /\ cp h = Some c
    /\ host fdev = hi /\ type fdev = t /\ fd fdev = cp_fd t c
    /\ 0 <= cp_fd t c
    /\ watch w !! cp_fd t c = None
    /\ w' = set_watch (<[cp_fd t c := fdev]> (watch w)) w.
Proof.
  unfold register_child_process_fd. intros H.
  destruct (hosts w !! hi) as [h|] eqn:Hh; [|done].
  destruct (cp h) as [c|] eqn:Hc; [|done].
  apply bind_Ok in H as (fdev & Hf & H).
  unfold fdev_create in Hf.
  apply bind_Ok in Hf as (buf & _ & Hf).
  apply bind_Ok in Hf as ([] & Hd%assert_Ok%bool_decide_eq_true & Hf).
  injection Hf as <-. cbn [fd] in H.
  destruct (watch w !! cp_fd t c) eqn:Hw; [done|].
  injection H as <-.
  eexists h, c, _. repeat split; try done. lia.
Qed.

(** The engine invariant after an admission, from what the admission did
    to the interest list. *)
Lemma engine_inv_admitted hs wt wt' acts cur nout ndone h h2 c :
  engine_inv g hs wt acts cur nout ndone ->
  hs !! cur = Some h -> cp h = None -> cp h2 = Some c ->
  0 < pid c -> (forall t, cp_fd t c <> -2) ->
  child_ok (mode (opts g)) wt' cur c ->
  (forall d f, wt !! d = Some f -> wt' !! d = Some f) ->
  (forall d f, wt' !! d = Some f ->
     wt !! d = Some f
     \/ (host f = cur /\ fd f = d /\ 0 <= d
         /\ type f ∈ pipes_of (mode (opts g)) /\ cp_fd (type f) c = d)) ->
  nout < max_jobs (opts g) ->
  engine_inv g (<[cur := h2]> hs) wt' (acts ++ [Forked cur (pid c)])
    (S cur) (nout + 1) ndone.
Proof.
  intros (H1 & H2 & H3 & H4 & H5 & H6 & H7 & H8 & H9 & H10)
    Hh Hcp Hcp2 Hpid Hopen Hok Hsub Hnew Hroom.
  assert (forall j, j <> cur -> <[cur := h2]> hs !! j = hs !! j) as Hne.
  { intros j Hj. by rewrite list_lookup_insert_ne. }
  assert (<[cur := h2]> hs !! cur = Some h2) as Heq.
  { apply list_lookup_insert_eq. by eapply lookup_lt_Some. }
  assert (cur < length hs)%nat as Hcur by (by eapply lookup_lt_Some).
  split; [rewrite length_insert; lia|]. split.
  { intros j hj Hj Hge. rewrite Hne in Hj by lia. eapply H2; [done|lia]. }
  split.
  { intros j hj Hj Hlt. destruct (decide (j = cur)) as [->|Hjne].
    - rewrite Heq in Hj. injection Hj as <-. by exists c.
    - rewrite Hne in Hj by done.
      destruct (H3 j hj Hj ltac:(lia)) as (cj & Hcj & Hokj).
      exists cj. split; [done|]. by eapply child_ok_mono. }
  split.
  { intros d f Hf. destruct (Hnew d f Hf) as [Hold|(Hhf & Hfd & Hd & Hty & Hc)].
    - destruct (H4 d f Hold) as (? & ? & ? & h1 & c1 & Hh1 & Hc1 & Hcp1).
      split; [done|]. split; [done|]. split; [done|].
      exists h1, c1. rewrite Hne; [done|].
      intros Hhf. rewrite Hhf, Hh in Hh1. injection Hh1 as <-.
      by rewrite Hcp in Hc1.
    - split; [done|]. split; [done|]. split; [done|].
      exists h2, c. by rewrite Hhf. }
  assert (running h = false) as Hr by (unfold running; by rewrite Hcp).
  assert (is_reaped h = false) as Hnr by (unfold is_reaped; by rewrite Hcp).
  assert (running h2 = true) as Hr2.
  { unfold running. rewrite Hcp2. apply bool_decide_eq_true. lia. }
  assert (is_reaped h2 = false) as Hnr2.
  { unfold is_reaped. rewrite Hcp2. apply bool_decide_eq_false. lia. }
  split.
  { rewrite (count_hosts_insert _ _ _ h _ Hh), Hr, Hr2. lia. }
  split.
  { rewrite (count_hosts_insert _ _ _ h _ Hh), Hnr, Hnr2. lia. }
  split; [lia|]. split.
  { intros j. rewrite reap_count_app. cbn [reap_count].
    rewrite Nat.add_0_r, H8.
    destruct (decide (j = cur)) as [->|Hjne].
    - by rewrite Heq, Hh, Hnr, Hnr2.
    - by rewrite Hne. }
  split.
  { intros j hj cj t Hj Hcj Ht.
    destruct (decide (j = cur)) as [->|Hjne].
    - rewrite Heq in Hj. injection Hj as <-.
      rewrite Hcp2 in Hcj. injection Hcj as <-. by destruct (Hopen t).
    - rewrite Hne in Hj by done. apply closed_in_app. by eapply H9. }
  intros pre p post j Hsplit.
  apply snoc_split in Hsplit as [(_ & _ & Hbad)|(post' & _ & Hold)];
    [done|].
  by eapply H10.
Qed.
End Admission.

Section Registering.
Variable g : Globals.

(** The registration of the pipes of a child just spawned completes the
    admission. *)
Lemma register_child_process_fds_keeps a hs wt k acts cur nout ndone h h2 c
    w' :
  engine_inv g hs wt acts cur nout ndone ->
  hs !! cur = Some h -> cp h = None -> cp h2 = Some c -> 0 < pid c ->
  (forall t, cp_fd t c = if decide (t ∈ pipes_of (mode (opts g)))
                         then adm_fd a t else -1) ->
  nout < max_jobs (opts g) ->
  register_child_process_fds g a cur
    (mkWorld (<[cur := h2]> hs) wt k (acts ++ [Forked cur (pid c)]))
  = Ok w' ->
  engine_inv g (hosts w') (watch w') (actions w') (S cur) (nout + 1) ndone
  /\ actions w' = acts ++ [Forked cur (pid c)].
Proof.
  intros Hinv Hh Hcp Hcp2 Hpid Hfds Hroom Hreg.
  assert (<[cur := h2]> hs !! cur = Some h2) as Heq.
  { apply list_lookup_insert_eq. by eapply lookup_lt_Some. }
  assert (forall t, t ∉ pipes_of (mode (opts g)) -> cp_fd t c = -1)
    as Hother.
  { intros t Ht. rewrite Hfds. by rewrite decide_False. }
  unfold register_child_process_fds in Hreg.
  destruct (decide (mode (opts g) = MODE_JOIN)) as [Hm|Hm].
  - (* the merged pipe *)
    rewrite Hm in Hreg.
    apply register_child_process_fd_inv in Hreg
      as (h' & c' & f & Hh' & Hc' & Hfh & Hft & Hfd & Hpos & Hfree & ->).
    cbn [hosts watch actions set_watch] in *.
    rewrite Heq in Hh'. injection Hh' as <-.
    rewrite Hcp2 in Hc'. injection Hc' as <-.
    split; [|done].
    eapply engine_inv_admitted; try done.
    + intros t. destruct (decide (t ∈ pipes_of (mode (opts g)))) as [Ht|Ht].
      * rewrite Hm in Ht. apply list_elem_of_singleton in Ht as ->. lia.
      * rewrite Hother by done. lia.
    + split; [done|]. split; [|by right].
      intros t Ht. rewrite Hm in Ht.
      apply list_elem_of_singleton in Ht as ->.
      right. split; [done|]. exists f. by rewrite lookup_insert_eq.
    + intros d f0 Hf0. rewrite lookup_insert_ne; [done|].
      intros <-. by rewrite Hfree in Hf0.
    + intros d f0 Hf0.
      destruct (decide (d = cp_fd PIPE_STDIO c)) as [->|Hd].
      * rewrite lookup_insert_eq in Hf0. injection Hf0 as <-.
        right. rewrite Hft, Hm. repeat split; try done. pipes.
      * rewrite lookup_insert_ne in Hf0 by done. by left.
  - (* a pipe for each stream *)
    assert (pipes_of (mode (opts g)) = [PIPE_STDOUT; PIPE_STDERR]) as Hp.
    { by destruct (mode (opts g)). }
    assert ((do w1 <- register_child_process_fd g a cur PIPE_STDOUT
                        (mkWorld (<[cur := h2]> hs) wt k
                           (acts ++ [Forked cur (pid c)]));
             register_child_process_fd g a cur PIPE_STDERR w1) = Ok w')
      as Hreg2 by (by destruct (mode (opts g))).
    clear Hreg. apply bind_Ok in Hreg2 as (w1 & Hr1 & Hr2).
    apply register_child_process_fd_inv in Hr1
      as (h' & c' & f1 & Hh' & Hc' & Hfh1 & Hft1 & Hfd1 & Hpos1 & Hfree1
          & ->).
    cbn [hosts watch actions set_watch] in *.
    rewrite Heq in Hh'. injection Hh' as <-.
    rewrite Hcp2 in Hc'. injection Hc' as <-.
    apply register_child_process_fd_inv in Hr2
      as (h' & c' & f2 & Hh' & Hc' & Hfh2 & Hft2 & Hfd2 & Hpos2 & Hfree2
          & ->).
    cbn [hosts watch actions set_watch] in *.
    rewrite Heq in Hh'. injection Hh' as <-.
    rewrite Hcp2 in Hc'. injection Hc' as <-.
    assert (cp_fd PIPE_STDERR c <> cp_fd PIPE_STDOUT c) as Hdiff.
    { intros Hd. rewrite Hd, lookup_insert_eq in Hfree2. done. }
    rewrite lookup_insert_ne in Hfree2 by done.
    split; [|done].
    eapply engine_inv_admitted; try done.
    + intros t. destruct (decide (t ∈ pipes_of (mode (opts g)))) as [Ht|Ht].
      * rewrite Hp in Ht. apply elem_of_cons in Ht as [->|Ht]; [lia|].
        apply list_elem_of_singleton in Ht as ->. lia.
      * rewrite Hother by done. lia.
    + split; [done|]. split; [|by right].
      intros t Ht. rewrite Hp in Ht. right.
      apply elem_of_cons in Ht as [->|Ht].
      * split; [done|]. exists f1.
        rewrite lookup_insert_ne by done. by rewrite lookup_insert_eq.
      * apply list_elem_of_singleton in Ht as ->.
        split; [done|]. exists f2. by rewrite lookup_insert_eq.
    + intros d f0 Hf0. rewrite !lookup_insert_ne; [done| |].
      * intros <-. by rewrite Hfree1 in Hf0.
      * intros <-. by rewrite Hfree2 in Hf0.
    + intros d f0 Hf0.
      destruct (decide (d = cp_fd PIPE_STDERR c)) as [->|Hd2].
      { rewrite lookup_insert_eq in Hf0. injection Hf0 as <-.
        right. rewrite Hft2, Hp. repeat split; try done. pipes. }
      rewrite lookup_insert_ne in Hf0 by done.
      destruct (decide (d = cp_fd PIPE_STDOUT c)) as [->|Hd1].
      { rewrite lookup_insert_eq in Hf0. injection Hf0 as <-.
        right. rewrite Hft1, Hp. repeat split; try done. pipes. }
      rewrite lookup_insert_ne in Hf0 by done. by left.
Qed.

(** A turn of the admission loop keeps the engine invariant, with one
    more host outstanding. *)
Lemma admit_host_keeps a s s' :
  engine_inv g (hosts (world s)) (watch (world s)) (actions (world s))
    (cur_host s) (outstanding s) (done s) ->
  outstanding s < max_jobs (opts g) ->
  admit_host g a s = Ok s' ->
  engine_inv g (hosts (world s')) (watch (world s')) (actions (world s'))
    (cur_host s') (outstanding s') (done s')
  /\ pc s' = Launching
  /\ exists p, actions (world s')
               = actions (world s) ++ [Forked (cur_host s) p].
Proof.
  intros Hinv Hroom Hadm. unfold admit_host in Hadm.
  apply bind_Ok in Hadm as (w1 & Hspawn & Hadm).
  apply spawn_child_process_inv in Hspawn
    as (h & c & Hh & Hcp & Hpid & Hfds & ->).
  apply bind_Ok in Hadm as (w2 & Htrim & Hadm).
  apply bind_Ok in Hadm as (w3 & Hreg & Hadm).
  injection Hadm as <-. cbn [world cur_host outstanding done pc].
  assert (<[cur_host s := set_cp (Some c) h]> (hosts (world s)) !! cur_host s
          = Some (set_cp (Some c) h)) as Heq.
  { apply list_lookup_insert_eq. by eapply lookup_lt_Some. }
  assert (exists h2, cp h2 = Some c
            /\ w2 = mkWorld (<[cur_host s := h2]> (hosts (world s)))
                      (watch (world s)) (console (world s))
                      (actions (world s) ++ [Forked (cur_host s) (pid c)]))
    as (h2 & Hcp2 & ->).
  { destruct (trim (opts g)).
    - cbn [hosts] in Htrim. rewrite Heq in Htrim. injection Htrim as <-.
      exists (set_name (lsplit_str (name (set_cp (Some c) h)) "."%byte).1
                (set_cp (Some c) h)).
      split; [done|]. unfold set_hosts. cbn [hosts watch console actions].
      by rewrite list_insert_insert_eq.
    - injection Htrim as <-. by exists (set_cp (Some c) h). }
  destruct (register_child_process_fds_keeps a _ _ _ _ _ _ _ h h2 c w3
              Hinv Hh Hcp Hcp2 Hpid Hfds Hroom Hreg) as [Hinv' Hacts].
  split; [done|]. split; [done|]. by exists (pid c).
Qed.
End Registering.

Lemma reaped_total_app (l1 l2 : list Action) :
  reaped_total (l1 ++ l2) = (reaped_total l1 + reaped_total l2)%nat.
Proof.
  induction l1 as [|a l1 IH]; [done|]. cbn [app reaped_total].
  destruct a; lia.
Qed.

Section MainLoop.
Variables (g : Globals) (num_hosts : Z).

(** A turn of the dispatch loop keeps the engine invariant; it forks
    nothing and counts in [done] what it reaps. *)
Lemma dispatch_keeps r s s' :
  engine_inv g (hosts (world s)) (watch (world s)) (actions (world s))
    (cur_host s) (outstanding s) (done s) ->
  dispatch g num_hosts r s = Ok s' ->
  engine_inv g (hosts (world s')) (watch (world s')) (actions (world s'))
    (cur_host s') (outstanding s') (done s')
  /\ pc s' = pc s /\ cur_host s' = cur_host s
  /\ fork_count (actions (world s')) = fork_count (actions (world s))
  /\ Z.of_nat (reaped_total (actions (world s'))) - done s'
     = Z.of_nat (reaped_total (actions (world s))) - done s
  /\ outstanding s' + done s' = outstanding s + done s.
Proof.
  intros Hinv Hd. unfold dispatch in Hd.
  apply bind_Ok in Hd as ([[w1 closed] hi] & Hread & Hd).
  destruct (read_active_fd_keeps g r _ _ _ _ _ _ _ Hinv Hread)
    as [Hinv1 Hclosed].
  assert (fork_count (actions w1) = fork_count (actions (world s))
          /\ reaped_total (actions w1) = reaped_total (actions (world s)))
    as [Hf1 Hr1].
  { apply read_active_fd_inv in Hread
      as (fdev & h & c & _ & _ & _ & _
          & [(_ & fdev' & k' & _ & ->)|(_ & c' & k' & _ & _ & ->)]);
      cbn [actions]; [done|].
    rewrite fork_count_app, reaped_total_app. cbn. lia. }
  destruct (hosts w1 !! hi) as [h1|] eqn:Hh1; [|done].
  destruct (cp h1) as [c1|] eqn:Hc1; [|done].
  destruct (closed && child_process_stdio_done c1) eqn:Hreap.
  - apply andb_true_iff in Hreap as [-> Hdone].
    destruct (Hclosed eq_refl) as (h' & c' & Hh' & Hc' & Hpid).
    injection Hh' as <-.
    rewrite Hc1 in Hc'. injection Hc' as <-.
    apply bind_Ok in Hd as (w2 & Hwait & Hd).
    destruct (wait_for_child_keeps g r hi w1 w2 h1 c1 _ _ _ Hinv1 Hh1 Hc1
                Hpid Hdone Hwait) as [Hinv2 Hacts2].
    injection Hd as <-. cbn [world cur_host outstanding done pc].
    assert (fork_count (actions w2) = fork_count (actions (world s))
            /\ Z.of_nat (reaped_total (actions w2)) - (done s + 1)
               = Z.of_nat (reaped_total (actions (world s))) - done s)
      as [Hf2 Hr2].
    { rewrite Hacts2, fork_count_app, reaped_total_app.
      cbn [fork_count reaped_total]. lia. }
    destruct (decide (mode (opts g) = MODE_JOIN));
      cbn [set_console hosts watch actions];
      (split; [done|]); (split; [done|]); (split; [done|]);
      (split; [done|]); (split; [done|]); lia.
  - injection Hd as <-. cbn [world cur_host outstanding done pc].
    split; [done|]. split; [done|]. split; [done|]. split; [lia|].
    split; lia.
Qed.

Lemma set_pc_fields p s :
  world (set_pc p s) = world s /\ cur_host (set_pc p s) = cur_host s
  /\ outstanding (set_pc p s) = outstanding s /\ done (set_pc p s) = done s
  /\ pc (set_pc p s) = p.
Proof. done. Qed.

(** Moving on in the loop keeps the invariant, as long as the loop is not
    said to have returned. *)
Lemma loop_inv_set_pc p s :
  loop_inv g s -> p <> Returned -> loop_inv g (set_pc p s).
Proof.
  intros (H1 & H2 & H3 & H4 & _) Hp.
  split; [done|]. split; [done|]. split; [done|]. split; [done|].
  intros Hr. cbn in Hr. done.
Qed.

(** A step of the main loop keeps the invariant. *)
Lemma step_keeps i s s' :
  loop_inv g s -> step g num_hosts i s = Ok s' -> loop_inv g s'.
Proof.
  intros Hinv Hstep. unfold step in Hstep.
  destruct (pc s) as [| | |evs|] eqn:Hpc.
  - (* the test of the outer loop *)
    case_decide as Hgo.
    + apply bind_Ok in Hstep as (? & _ & Hstep). injection Hstep as <-.
      by apply loop_inv_set_pc.
    + injection Hstep as <-.
      destruct Hinv as (He & Hf & Hr & Hsum & _).
      split; [done|]. split; [done|]. split; [done|]. split; [done|].
      intros _. cbn.
      destruct He as (H1 & _ & _ & _ & H5 & _).
      pose proof (count_hosts_nonneg running (hosts (world s))).
      split; [|lia].
      destruct (decide (cur_host s < length (hosts (world s)))%nat);
        [|lia].
      exfalso. apply Hgo. by left.
  - (* the test of the admission loop *)
    case_decide as Hroom.
    + destruct Hinv as (He & Hf & Hr & Hsum & _).
      destruct (admit_host_keeps g _ s s' He ltac:(lia) Hstep)
        as (He' & Hpc' & p & Hacts).
      split; [done|].
      assert (cur_host s' = S (cur_host s) /\ done s' = done s
              /\ outstanding s' = outstanding s + 1) as (Hc' & Hd' & Ho').
      { unfold admit_host in Hstep.
        apply bind_Ok in Hstep as (? & _ & Hstep).
        apply bind_Ok in Hstep as (? & _ & Hstep).
        apply bind_Ok in Hstep as (? & _ & Hstep).
        by injection Hstep as <-. }
      rewrite Hacts, fork_count_app, reaped_total_app, Hc', Hd', Ho'. cbn.
      split; [lia|]. split; [lia|]. split; [lia|]. by rewrite Hpc'.
    + injection Hstep as <-. by apply loop_inv_set_pc.
  - (* epoll_wait *)
    destruct (in_events i); [|done]. injection Hstep as <-.
    by apply loop_inv_set_pc.
  - (* the dispatch loop *)
    destruct evs as [|r evs].
    + injection Hstep as <-. by apply loop_inv_set_pc.
    + apply bind_Ok in Hstep as (s1 & Hd & Hstep). injection Hstep as <-.
      destruct Hinv as (He & Hf & Hr & Hsum & _).
      destruct (dispatch_keeps r s s1 He Hd)
        as (He1 & Hpc1 & Hcur1 & Hf1 & Hr1 & Hsum1).
      split; [done|]. cbn [set_pc world cur_host outstanding done pc].
      split; [lia|]. split; [lia|]. split; [lia|done].
  - by injection Hstep as <-.
Qed.

Lemma run_keeps ins : forall s s',
  loop_inv g s -> run g num_hosts ins s = Ok s' -> loop_inv g s'.
Proof.
  induction ins as [|i ins IH]; intros s s' Hinv Hrun; cbn [run] in Hrun.
  - by injection Hrun as <-.
  - apply bind_Ok in Hrun as (s1 & Hstep & Hrun).
    eapply IH; [|done]. by eapply step_keeps.
Qed.

Lemma count_hosts_fresh (p : Host -> bool) (names : list (list byte)) :
  (forall n, p (host_create n) = false) ->
  count_hosts p (map host_create names) = 0.
Proof.
  intros Hp. induction names as [|n names IH]; [done|].
  cbn [map count_hosts]. rewrite Hp, IH. done.
Qed.

(** The invariant holds when the loop is entered with the roster
    [parse_hosts] built. *)
Lemma main_loop_enter_inv (names : list (list byte)) :
  0 <= max_jobs (opts g) ->
  loop_inv g (main_loop_enter g num_hosts (map host_create names)).
Proof.
  intros Hjobs. unfold main_loop_enter, loop_inv.
  cbn [world cur_host outstanding done pc hosts watch actions].
  split; [|done].
  assert (forall j h, map host_create names !! j = Some h -> cp h = None)
    as Hfresh.
  { intros j h Hj. rewrite list_lookup_fmap in Hj.
    destruct (names !! j); by simplify_eq/=. }
  split; [lia|]. split; [by intros; eapply Hfresh|].
  split; [intros; lia|]. split; [by intros ? ? ?%lookup_empty_Some|].
  split; [by rewrite count_hosts_fresh|].
  split; [by rewrite count_hosts_fresh|].
  split; [done|]. split.
  { intros j. cbn. destruct (map host_create names !! j) as [h|] eqn:Hj;
      [|done].
    unfold is_reaped. by rewrite (Hfresh j h Hj). }
  split.
  { intros j h c t Hj Hc. by rewrite (Hfresh j h Hj) in Hc. }
  intros pre p post j Hnil. by destruct pre.
Qed.

(** Every state [main_loop] reaches satisfies the invariant. *)
Lemma main_loop_inv (names : list (list byte)) ins s :
  0 <= max_jobs (opts g) ->
  main_loop g num_hosts (map host_create names) ins = Ok s ->
  loop_inv g s.
Proof.
  intros Hjobs Hrun. eapply run_keeps; [|exact Hrun].
  by apply main_loop_enter_inv.
Qed.
(** The roster keeps its length. *)
Lemma run_roster_length ins : forall s0 s',
  loop_inv g s0 -> run g num_hosts ins s0 = Ok s' ->
  length (hosts (world s')) = length (hosts (world s0)).
Proof.
  induction ins as [|i ins IH]; intros s0 s' Hinv Hrun;
    cbn [run] in Hrun.
  - by injection Hrun as <-.
  - apply bind_Ok in Hrun as (s1 & Hstep & Hrun).
    pose proof (step_keeps i s0 s1 Hinv Hstep) as Hinv1.
    rewrite (IH s1 s' Hinv1 Hrun). clear IH Hrun.
    unfold step in Hstep. destruct (pc s0) as [| | |evs|].
    + case_decide.
      * apply bind_Ok in Hstep as (? & _ & Hstep).
        by injection Hstep as <-.
      * by injection Hstep as <-.
    + case_decide; [|by injection Hstep as <-].
      unfold admit_host in Hstep.
      apply bind_Ok in Hstep as (w1 & Hs & Hstep).
      apply spawn_child_process_inv in Hs as (h & c & _ & _ & _ & _ & ->).
      apply bind_Ok in Hstep as (w2 & Ht & Hstep).
      apply bind_Ok in Hstep as (w3 & Hreg & Hstep).
      injection Hstep as <-. cbn [world].
      assert (length (hosts w2) = length (hosts (world s0))) as Hl2.
      { destruct (trim (opts g)).
        - cbn [hosts] in Ht. destruct (_ !! _); [|done].
          injection Ht as <-. cbn. by rewrite !length_insert.
        - injection Ht as <-. cbn. by rewrite length_insert. }
      rewrite <- Hl2. unfold register_child_process_fds in Hreg.
      destruct (mode (opts g)).
      * apply bind_Ok in Hreg as (w' & Hr1 & Hr2).
        apply register_child_process_fd_inv in Hr1
          as (? & ? & ? & _ & _ & _ & _ & _ & _ & _ & ->).
        apply register_child_process_fd_inv in Hr2
          as (? & ? & ? & _ & _ & _ & _ & _ & _ & _ & ->). done.
      * apply bind_Ok in Hreg as (w' & Hr1 & Hr2).
        apply register_child_process_fd_inv in Hr1
          as (? & ? & ? & _ & _ & _ & _ & _ & _ & _ & ->).
        apply register_child_process_fd_inv in Hr2
          as (? & ? & ? & _ & _ & _ & _ & _ & _ & _ & ->). done.
      * apply register_child_process_fd_inv in Hreg
          as (? & ? & ? & _ & _ & _ & _ & _ & _ & _ & ->). done.
    + destruct (in_events i); [|done]. by injection Hstep as <-.
    + destruct evs as [|r evs]; [by injection Hstep as <-|].
      apply bind_Ok in Hstep as (s2 & Hd & Hstep).
      injection Hstep as <-. cbn [set_pc world].
      unfold dispatch in Hd.
      apply bind_Ok in Hd as ([[w1 closed] hi] & Hread & Hd).
      assert (length (hosts w1) = length (hosts (world s0))) as Hl1.
      { apply read_active_fd_inv in Hread
          as (fdev & h & c & _ & _ & _ & _
              & [(_ & ? & ? & _ & ->)|(_ & ? & ? & _ & _ & ->)]);
          cbn [hosts]; [done | by rewrite length_insert]. }
      destruct (hosts w1 !! hi) as [h1|] eqn:Hh1; [|done].
      destruct (cp h1) as [c1|] eqn:Hc1; [|done].
      destruct (closed && child_process_stdio_done c1).
      * apply bind_Ok in Hd as (w2 & Hwait & Hd).
        injection Hd as <-. cbn [world].
        unfold wait_for_child in Hwait. rewrite Hh1, Hc1 in Hwait.
        destruct (rdy_wait r); [|done].
        apply bind_Ok in Hwait as (tm & _ & Hwait).
        assert (length (hosts w2) = length (hosts w1)) as Hl2.
        { destruct (exit_codes (opts g) || debug (opts g));
            injection Hwait as <-; cbn; by rewrite length_insert. }
        destruct (decide (mode (opts g) = MODE_JOIN)); cbn; lia.
      * by injection Hd as <-.
    + by injection Hstep as <-.
Qed.

Lemma main_loop_roster_length (names : list (list byte)) ins s :
  0 <= max_jobs (opts g) ->
  main_loop g num_hosts (map host_create names) ins = Ok s ->
  length (hosts (world s)) = length names.
Proof.
  intros Hjobs Hrun. unfold main_loop in Hrun.
  rewrite (run_roster_length ins _ s (main_loop_enter_inv names Hjobs) Hrun).
  cbn. by rewrite length_map.
Qed.
End MainLoop.

(** ** Join mode: what the main loop hands to the aggregator *)

Section Capture.
Variables (g : Globals) (num_hosts : Z) (n : nat).
Hypothesis Hmode : mode (opts g) = MODE_JOIN.
Hypothesis Hn : max_output_length (opts g) = Z.of_nat n.

(** The reads of one drain keep the capture buffer in order. *)
Lemma read_loop_join cl h reads fin : forall fdev k junk0 seen fdev' k' eof,
  join_state n (max_line_length (opts g)) junk0 fdev seen ->
  read_loop (opts g) cl h fdev k reads fin = Ok (fdev', k', eof) ->
  exists seen', join_state n (max_line_length (opts g)) junk0 fdev' seen'.
Proof.
  induction reads as [|buf reads IH];
    intros fdev k junk0 seen fdev' k' eof Hst Hrun; cbn [read_loop] in Hrun.
  - destruct fin; [| |done]; injection Hrun as <- _ _; by exists seen.
  - case_decide; [injection Hrun as <- _ _; by exists seen|].
    destruct (silent (opts g)); [by eapply IH|].
    apply bind_Ok in Hrun as ([fdev1 k1] & Hdata & Hrun).
    unfold process_data in Hdata. rewrite Hmode in Hdata.
    apply bind_Ok in Hdata as ([] & _ & Hdata).
    apply bind_Ok in Hdata as (fdev2 & Hjoin & Hdata).
    injection Hdata as <- <-.
    unfold process_data_join in Hjoin.
    apply bind_Ok in Hjoin as ([] & _ & Hjoin).
    destruct (join_loop_spec (opts g) n junk0 Hn buf fdev seen Hst)
      as (fdev3 & Hloop & Hst3 & _).
    rewrite Hloop in Hjoin. injection Hjoin as <-.
    by eapply IH.
Qed.

(** The end of the file hands over an allocation with a nul in it. *)
Lemma process_eof_join cl h fdev k junk0 seen fdev' k' handed :
  join_state n (max_line_length (opts g)) junk0 fdev seen ->
  process_eof (opts g) cl h fdev k = Ok (fdev', k', handed) ->
  exists b s, handed = Some (Some b) /\ cstr b = Ok s.
Proof.
  intros Hst Heof. unfold process_eof in Heof. rewrite Hmode in Heof.
  destruct (eof_join_spec (opts g) n Hn junk0 fdev seen Hst)
    as (fdev2 & He & Hb).
  rewrite He in Heof. cbn [bind] in Heof. injection Heof as _ _ <-.
  rewrite Hb. eexists _, _. split; [done|]. apply cstr_until_nul.
Qed.

Lemma read_active_fd_capture r w w' closed hi :
  capture_inv n (max_line_length (opts g)) w ->
  read_active_fd g r w = Ok (w', closed, hi) ->
  capture_inv n (max_line_length (opts g)) w'.
Proof.
  intros [Hwatch Hhosts] H. unfold read_active_fd in H.
  destruct (watch w !! rdy_fd r) as [fdev|] eqn:Hw; [|done].
  destruct (hosts w !! host fdev) as [h|] eqn:Hh; [|done].
  destruct (cp h) as [c|] eqn:Hc; [|done].
  apply bind_Ok in H as ([[fdev1 k1] eof] & Hread & H).
  destruct (Hwatch _ _ Hw) as (junk0 & seen & Hst).
  destruct (read_loop_join _ _ _ _ _ _ _ _ _ _ _ Hst Hread) as [seen1 Hst1].
  destruct eof.
  - apply bind_Ok in H as ([[fdev2 k2] handed] & Heof & H).
    destruct (process_eof_join _ _ _ _ _ _ _ _ _ Hst1 Heof)
      as (b & s & -> & Hb).
    injection H as <- _ _. split; cbn [watch hosts].
    + intros d f Hd. apply lookup_delete_Some in Hd as [_ Hd].
      apply lookup_delete_Some in Hd as [_ Hd]. by eapply Hwatch.
    + intros j h' c' Hj Hc'.
      apply list_lookup_insert_Some in Hj as [(<- & <- & _)|[Hne Hj]];
        [|by eapply Hhosts].
      cbn [set_cp cp] in Hc'. injection Hc' as <-.
      destruct (Hhosts _ _ _ Hh Hc) as [Hidx _]. split.
      * by destruct (type fdev1).
      * intros _. exists b, s. split; [|done]. by destruct (type fdev1).
  - injection H as <- _ _. split; cbn [watch hosts]; [|done].
    intros d f Hd.
    apply lookup_insert_Some in Hd as [[_ <-]|[_ Hd]]; [|by eapply Hwatch].
    by eexists _, _.
Qed.

Lemma wait_for_child_capture r hi w w' :
  capture_inv n (max_line_length (opts g)) w ->
  wait_for_child g r hi w = Ok w' ->
  capture_inv n (max_line_length (opts g)) w'.
Proof.
  intros [Hwatch Hhosts] H. unfold wait_for_child in H.
  destruct (hosts w !! hi) as [h|] eqn:Hh; [|done].
  destruct (cp h) as [c|] eqn:Hc; [|done].
  destruct (rdy_wait r) as [status|]; [|done].
  apply bind_Ok in H as (tm & _ & H).
  assert (watch w' = watch w
          /\ exists c', hosts w' = <[hi := set_cp (Some c') h]> (hosts w)
                        /\ output c' = output c
                        /\ output_idx c' = output_idx c
                        /\ stdio_fd c' = stdio_fd c) as (Hw' & c' & Hh' & Ho).
  { destruct (exit_codes (opts g) || debug (opts g)); injection H as <-;
      (split; [done|]); by eexists. }
  split.
  - rewrite Hw'. exact Hwatch.
  - intros j h1 c1 Hj Hc1. rewrite Hh' in Hj.
    apply list_lookup_insert_Some in Hj as [(<- & <- & _)|[Hne Hj]];
      [|by eapply Hhosts].
    cbn [set_cp cp] in Hc1. injection Hc1 as <-.
    destruct Ho as (-> & -> & ->). by eapply Hhosts.
Qed.

Lemma dispatch_capture r s s' :
  capture_inv n (max_line_length (opts g)) (world s) ->
  dispatch g num_hosts r s = Ok s' ->
  capture_inv n (max_line_length (opts g)) (world s').
Proof.
  intros Hinv Hd. unfold dispatch in Hd.
  apply bind_Ok in Hd as ([[w1 closed] hi] & Hread & Hd).
  pose proof (read_active_fd_capture _ _ _ _ _ Hinv Hread) as Hinv1.
  destruct (hosts w1 !! hi) as [h1|]; [|done].
  destruct (cp h1) as [c1|]; [|done].
  destruct (closed && child_process_stdio_done c1).
  - apply bind_Ok in Hd as (w2 & Hwait & Hd). injection Hd as <-.
    pose proof (wait_for_child_capture _ _ _ _ Hinv1 Hwait) as Hinv2.
    cbn [world]. by case_decide.
  - by injection Hd as <-.
Qed.

(** An admission registers a fresh capture buffer for a child that has
    captured nothing. *)
Lemma admit_host_capture a s s' :
  capture_inv n (max_line_length (opts g)) (world s) ->
  admit_host g a s = Ok s' ->
  capture_inv n (max_line_length (opts g)) (world s').
Proof.
  intros [Hwatch Hhosts] H. unfold admit_host in H.
  apply bind_Ok in H as (w1 & Hspawn & H).
  apply bind_Ok in H as (w2 & Htrim & H).
  apply bind_Ok in H as (w3 & Hreg & H). injection H as <-. cbn [world].
  set (hi := cur_host s) in *.
  (* the fresh child record *)
  assert (watch w1 = watch (world s)
          /\ forall j h c, hosts w1 !! j = Some h -> cp h = Some c ->
               output_idx c = -1
               /\ (j <> hi -> stdio_fd c = -2 ->
                   exists b s, output c = Some b /\ cstr b = Ok s))
    as [Hw1 Hh1].
  { unfold spawn_child_process in Hspawn.
    destruct (hosts (world s) !! hi) as [h|] eqn:Hh; [|done].
    apply bind_Ok in Hspawn as ([] & _ & Hspawn).
    apply bind_Ok in Hspawn as (? & _ & Hspawn).
    apply bind_Ok in Hspawn as ([] & _ & Hspawn).
    destruct (adm_fork a) as [p|]; [|done].
    apply bind_Ok in Hspawn as (tm & _ & Hspawn). injection Hspawn as <-.
    split; [done|]. cbn [log set_hosts hosts].
    intros j h' c' Hj Hc'.
    apply list_lookup_insert_Some in Hj as [(<- & <- & _)|[Hne Hj]].
    - cbn [set_cp cp] in Hc'. injection Hc' as <-.
      split; [by rewrite Hmode|]. done.
    - destruct (Hhosts _ _ _ Hj Hc') as [? ?]. by split. }
  (* the name is cut, the child record is the same *)
  assert (watch w2 = watch w1
          /\ forall j h c, hosts w2 !! j = Some h -> cp h = Some c ->
               exists h', hosts w1 !! j = Some h' /\ cp h' = Some c)
    as [Hw2 Hh2].
  { destruct (trim (opts g)).
    - destruct (hosts w1 !! hi) as [h1|] eqn:Hh; [|done].
      injection Htrim as <-. split; [done|]. cbn [set_hosts hosts].
      intros j h c Hj Hc.
      apply list_lookup_insert_Some in Hj as [(<- & <- & _)|[Hne Hj]];
        [by exists h1 | by exists h].
    - injection Htrim as <-. split; [done|]. intros j h c Hj Hc. by exists h. }
  unfold register_child_process_fds in Hreg. rewrite Hmode in Hreg.
  unfold register_child_process_fd in Hreg.
  destruct (hosts w2 !! hi) as [h2|] eqn:Hhi; [|done].
  destruct (cp h2) as [c2|] eqn:Hc2; [|done].
  apply bind_Ok in Hreg as (fdev & Hf & Hreg).
  destruct (watch w2 !! fd fdev); [done|]. injection Hreg as <-.
  destruct (fdev_create_join (opts g) n Hn Hmode _ _ _ _ _ Hf)
    as (junk0 & _ & _ & Hst).
  assert (0 <= stdio_fd c2) as Hopen.
  { unfold fdev_create in Hf.
    apply bind_Ok in Hf as (buf & _ & Hf).
    apply bind_Ok in Hf as ([] & Hd%assert_Ok%bool_decide_eq_true & _).
    cbn [cp_fd] in Hd. lia. }
  split; cbn [set_watch watch hosts].
  - intros d f Hd.
    apply lookup_insert_Some in Hd as [[_ <-]|[_ Hd]]; [by eexists _, _|].
    rewrite Hw2, Hw1 in Hd. by eapply Hwatch.
  - intros j h c Hj Hc.
    destruct (Hh2 _ _ _ Hj Hc) as (h' & Hj' & Hc').
    destruct (Hh1 _ _ _ Hj' Hc') as [Hidx Hout]. split; [done|].
    intros Hclosed. apply Hout; [|done].
    intros ->. rewrite Hhi in Hj. injection Hj as <-.
    rewrite Hc2 in Hc. injection Hc as <-. lia.
Qed.

Lemma step_capture i s s' :
  capture_inv n (max_line_length (opts g)) (world s) ->
  step g num_hosts i s = Ok s' ->
  capture_inv n (max_line_length (opts g)) (world s').
Proof.
  intros Hinv Hstep. unfold step in Hstep.
  destruct (pc s) as [| | |evs|].
  - case_decide.
    + apply bind_Ok in Hstep as (? & _ & Hstep). by injection Hstep as <-.
    + by injection Hstep as <-.
  - case_decide; [by eapply admit_host_capture|]. by injection Hstep as <-.
  - destruct (in_events i); [|done]. by injection Hstep as <-.
  - destruct evs as [|r evs]; [by injection Hstep as <-|].
    apply bind_Ok in Hstep as (s1 & Hd & Hstep). injection Hstep as <-.
    cbn [set_pc world]. by eapply dispatch_capture.
  - by injection Hstep as <-.
Qed.

Lemma run_capture ins : forall s s',
  capture_inv n (max_line_length (opts g)) (world s) ->
  run g num_hosts ins s = Ok s' ->
  capture_inv n (max_line_length (opts g)) (world s').
Proof.
  induction ins as [|i ins IH]; intros s s' Hinv Hrun; cbn [run] in Hrun.
  - by injection Hrun as <-.
  - apply bind_Ok in Hrun as (s1 & Hstep & Hrun).
    eapply IH; [|done]. by eapply step_capture.
Qed.

(** When the main loop of join mode has returned, every host of the roster
    has a child record without a class that holds a captured output with
    its terminator: what [join_mode_finish] starts from. *)
Lemma main_loop_join_captured (names : list (list byte)) ins s :
  0 <= max_jobs (opts g) ->
  main_loop g num_hosts (map host_create names) ins = Ok s ->
  pc s = Returned ->
  length (hosts (world s)) = length names
  /\ exists outs,
       Forall2 (fun h s =>
                  exists c b, cp h = Some c /\ output c = Some b
                              /\ cstr b = Ok s /\ output_idx c = -1)
         (hosts (world s)) outs.
Proof.
  intros Hjobs Hrun Hpc.
  destruct (main_loop_inv g num_hosts names ins s Hjobs Hrun)
    as (He & _ & _ & _ & Hret).
  destruct (Hret Hpc) as [Hcur Hout].
  destruct He as (_ & _ & H3 & _ & H5 & _).
  assert (capture_inv n (max_line_length (opts g)) (world s))
    as [_ Hcap].
  { eapply run_capture; [|exact Hrun]. unfold main_loop_enter. split.
    - cbn [world watch]. intros d f Hd. by apply lookup_empty_Some in Hd.
    - cbn [world hosts]. intros j h c Hj Hc.
      rewrite list_lookup_fmap in Hj.
      destruct (names !! j); by simplify_eq/=. }
  split; [by eapply main_loop_roster_length|].
  assert (Forall (fun h => exists s, exists c b,
                    cp h = Some c /\ output c = Some b
                    /\ cstr b = Ok s /\ output_idx c = -1)
            (hosts (world s))) as Hall.
  { apply Forall_lookup. intros j h Hj.
    assert (j < cur_host s)%nat as Hlt
      by (rewrite Hcur; by eapply lookup_lt_Some).
    destruct (H3 _ _ Hj Hlt) as (c & Hc & _ & _ & Hp).
    destruct (Hcap _ _ _ Hj Hc) as [Hidx Hdone].
    assert (running h = false) as Hrun'.
    { destruct (running h) eqn:Hr; [|done]. exfalso.
      pose proof (count_hosts_pos running (hosts (world s)) h
                    ltac:(by eapply list_elem_of_lookup_2) Hr).
      lia. }
    unfold running in Hrun'. rewrite Hc in Hrun'.
    apply bool_decide_eq_false in Hrun'.
    destruct Hp as [[_ Hall]|Hp]; [|exfalso; apply Hrun'; lia].
    destruct Hdone as (b & t & Hb & Ht).
    { apply (Hall PIPE_STDIO). rewrite Hmode. pipes. }
    by exists t, c, b. }
  clear -Hall. induction Hall as [|h hs [t Ht] _ [outs IH]].
  - by exists [].
  - exists (t :: outs). by constructor.
Qed.
End Capture.

(** ** The classes of the join aggregator (C3) *)

(** C3, as the code has it: when the main loop of join mode has returned,
    every host of the roster holds a captured output, and
    [join_mode_finish] on that roster returns with classes that partition
    the roster.  The roster is left as it is but for the class indices;
    every host is a member of a class and of one only; two hosts are
    members of one class if and only if their captured outputs are the
    same C string, that is, the same up to their first nul byte; every
    member of a class comes after some member of each class of smaller
    index, so the classes are numbered in the order of their first
    members; and the members of a class are listed in roster order. *)
Theorem join_classes_partition g num_hosts names ins s junk :
  mode (opts g) = MODE_JOIN ->
  1 <= max_jobs (opts g) -> 0 < max_output_length (opts g) ->
  num_hosts = Z.of_nat (length names) -> names <> [] ->
  main_loop g num_hosts (map host_create names) ins = Ok s ->
  pc s = Returned ->
  exists outs hs' K count,
    captured (hosts (world s)) outs
    /\ join_classes junk num_hosts (hosts (world s)) = Ok (hs', K, count)
    /\ map erase_class hs' = map erase_class (hosts (world s))
    /\ (forall j, (j < length names)%nat ->
          exists i ms, 0 <= i < K /\ class_members hs' i = Ok ms /\ j ∈ ms)
    /\ (forall i i' ms ms' j,
          class_members hs' i = Ok ms -> class_members hs' i' = Ok ms' ->
          j ∈ ms -> j ∈ ms' -> i = i')
    /\ (forall j k t u, outs !! j = Some t -> outs !! k = Some u ->
          (exists i ms, class_members hs' i = Ok ms /\ j ∈ ms /\ k ∈ ms)
          <-> t = u)
    /\ (forall i i' ms ms' j, 0 <= i < i' ->
          class_members hs' i = Ok ms -> class_members hs' i' = Ok ms' ->
          j ∈ ms' -> exists k, k ∈ ms /\ (k < j)%nat)
    /\ (forall i ms, class_members hs' i = Ok ms ->
          StronglySorted lt ms
          /\ forall j, j ∈ ms -> (j < length names)%nat).
Proof.
  intros Hmode Hjobs Hcap Hnum Hne Hrun Hpc.
  destruct (main_loop_join_captured g num_hosts
              (Z.to_nat (max_output_length (opts g))) Hmode ltac:(lia)
              names ins s ltac:(lia) Hrun Hpc) as (Hlen & outs & Hall).
  destruct (join_classes_spec junk num_hosts (hosts (world s)) outs)
    as (hs' & K & count & Hjoin & Hsame & Hspec); [lia| |done|].
  { intros Hnil. rewrite Hnil in Hlen. by destruct names. }
  exists outs, hs', K, count. split.
  { eapply Forall2_impl; [exact Hall|]. intros h t (c & b & ? & ? & ? & _).
    by exists c, b. }
  split; [done|]. split; [done|]. by rewrite <- Hlen.
Qed.

(** A run on three hosts whose children write [x\n], [y\n] and [x\n]: the
    first and the third form class 0, the second class 1. *)
Lemma join_classes_partition_witness :
  exists s hs' count,
    main_loop globals_join_cap1 3
      (map host_create [lit "a"; lit "b"; lit "c"]) inputs_join_x_y_x = Ok s
    /\ join_classes junk_ints 3 (hosts (world s)) = Ok (hs', 2, count)
    /\ class_members hs' 0 = Ok [0%nat; 2%nat]
    /\ class_members hs' 1 = Ok [1%nat].
Proof.
  destruct (main_loop globals_join_cap1 3
              (map host_create [lit "a"; lit "b"; lit "c"])
              inputs_join_x_y_x) as [s| | |] eqn:Hrun;
    [|by vm_compute in Hrun..].
  destruct (join_classes_partition globals_join_cap1 3
              [lit "a"; lit "b"; lit "c"] inputs_join_x_y_x s junk_ints)
    as (outs & hs' & K & count & _ & Hjoin & _).
  - reflexivity.
  - vm_compute. discriminate.
  - reflexivity.
  - reflexivity.
  - discriminate.
  - exact Hrun.
  - vm_compute in Hrun. by injection Hrun as <-.
  - exists s, hs', count. split; [reflexivity|].
    vm_compute in Hrun. injection Hrun as <-.
    vm_compute in Hjoin. injection Hjoin as <- <- <-.
    repeat split; reflexivity.
Defined.

(** C3 as stated fails on outputs that hold a nul byte: the children of
    two hosts write [a\0b] and [a\0c], join mode captures the two streams
    whole, the captured outputs differ, and the two hosts form one
    class. *)
Lemma join_classes_counterexample :
  exists s b0 b1 hs' count,
    main_loop globals_join_cap1 2 (map host_create [lit "a"; lit "b"])
      inputs_join_nul = Ok s
    /\ pc s = Returned
    /\ host_output (hosts (world s)) 0 = Ok b0
    /\ host_output (hosts (world s)) 1 = Ok b1
    /\ take 4 b0 = ["a"%byte; NUL; "b"%byte; NUL]
    /\ take 4 b1 = ["a"%byte; NUL; "c"%byte; NUL]
    /\ b0 <> b1
    /\ join_classes junk_ints 2 (hosts (world s)) = Ok (hs', 1, count)
    /\ class_members hs' 0 = Ok [0%nat; 1%nat].
Proof.
  eexists _, _, _, _, _.
  split; [vm_compute; reflexivity|]. split; [reflexivity|].
  split; [vm_compute; reflexivity|]. split; [vm_compute; reflexivity|].
  split; [reflexivity|]. split; [reflexivity|]. split; [discriminate|].
  split; vm_compute; reflexivity.
Qed.

(** ** The concurrency cap (C5) *)

(** C5: in every state the main loop reaches, the counter [outstanding]
    is the number of hosts with a child that is not reaped, it is the
    number of forks less the number of reaps, and it is at most
    [max_jobs].  The cap does not bound the number of children launched:
    with a cap of one, a run on two hosts forks twice. *)
Theorem outstanding_within_cap :
  (forall g num_hosts names ins s,
     0 <= max_jobs (opts g) ->
     main_loop g num_hosts (map host_create names) ins = Ok s ->
     0 <= outstanding s <= max_jobs (opts g)
     /\ outstanding s = count_hosts running (hosts (world s))
     /\ outstanding s
        = Z.of_nat (fork_count (actions (world s)))
          - Z.of_nat (reaped_total (actions (world s))))
  /\ (exists g num_hosts names ins s,
        main_loop g num_hosts (map host_create names) ins = Ok s
        /\ pc s = Returned
        /\ max_jobs (opts g) = 1
        /\ fork_count (actions (world s)) = 2%nat
        /\ reaped_total (actions (world s)) = 2%nat).
Proof.
  split.
  - intros g num_hosts names ins s Hjobs Hrun.
    destruct (main_loop_inv g num_hosts names ins s Hjobs Hrun)
      as (He & Hf & Hr & Hsum & _).
    destruct He as (_ & _ & _ & _ & H5 & _ & H7 & _).
    pose proof (count_hosts_nonneg running (hosts (world s))).
    split; [lia|]. split; [done|]. lia.
  - exists globals_cap1, 2, [lit "a"; lit "b"], inputs_two_hosts.
    eexists. split; [vm_compute; reflexivity|]. by vm_compute.
Qed.

(** A cap of one and two hosts, while the first child runs. *)
Lemma outstanding_within_cap_witness :
  exists s,
    main_loop globals_cap1 2 (map host_create [lit "a"; lit "b"])
      (take 3 inputs_two_hosts) = Ok s
    /\ 0 <= outstanding s <= 1
    /\ outstanding s = count_hosts running (hosts (world s))
    /\ outstanding s
       = Z.of_nat (fork_count (actions (world s)))
         - Z.of_nat (reaped_total (actions (world s))).
Proof.
  destruct (main_loop globals_cap1 2 (map host_create [lit "a"; lit "b"])
              (take 3 inputs_two_hosts)) as [s| | |] eqn:Hrun;
    [|by vm_compute in Hrun..].
  exists s. split; [reflexivity|].
  apply (proj1 outstanding_within_cap globals_cap1 2 [lit "a"; lit "b"]
           (take 3 inputs_two_hosts) s).
  - vm_compute. discriminate.
  - exact Hrun.
Defined.

(** ** Children are reaped once, after their pipes are drained (C6) *)

(** C6: in every state the main loop reaches, the child of a host was
    reaped once at most; a reap comes after the end of file of every pipe
    of the child, of both the standard output and the standard error pipe
    when the mode is not join, in whichever order these came; a reaped
    child has every descriptor marked closed; and when the loop has
    returned the child of every host was reaped exactly once. *)
Theorem child_reaped_once_after_eof g num_hosts names ins s :
  0 <= max_jobs (opts g) ->
  main_loop g num_hosts (map host_create names) ins = Ok s ->
  (forall j, (reap_count j (actions (world s)) <= 1)%nat)
  /\ (forall pre p post j,
        actions (world s) = pre ++ Reaped j p :: post ->
        (forall t, t ∈ pipes_of (mode (opts g)) -> closed_in pre j t)
        /\ (mode (opts g) <> MODE_JOIN ->
            closed_in pre j PIPE_STDOUT /\ closed_in pre j PIPE_STDERR)
        /\ reap_count j pre = 0%nat /\ reap_count j post = 0%nat)
  /\ (forall j h c, hosts (world s) !! j = Some h -> cp h = Some c ->
        pid c = -2 -> child_process_stdio_done c = true)
  /\ (pc s = Returned ->
        forall j, (j < length names)%nat ->
        reap_count j (actions (world s)) = 1%nat).
Proof.
  intros Hjobs Hrun.
  destruct (main_loop_inv g num_hosts names ins s Hjobs Hrun)
    as (He & Hf & Hr & Hsum & Hret).
  destruct He as (H1 & H2 & H3 & H4 & H5 & H6 & H7 & H8 & H9 & H10).
  assert (forall j, (reap_count j (actions (world s)) <= 1)%nat) as Honce.
  { intros j. rewrite H8. destruct (hosts (world s) !! j) as [h|]; [|lia].
    destruct (is_reaped h); lia. }
  pose proof (main_loop_roster_length g num_hosts names ins s Hjobs Hrun)
    as Hlen.
  split; [done|]. split; [|split].
  - intros pre p post j Hsplit.
    pose proof (H10 pre p post j Hsplit) as Hclosed.
    split; [done|]. split.
    { intros Hm. split; apply Hclosed; destruct (mode (opts g)); try done;
        pipes. }
    specialize (Honce j). rewrite Hsplit, reap_count_app in Honce.
    cbn [reap_count] in Honce. rewrite decide_True in Honce by done. lia.
  - intros j h c Hj Hc Hpid.
    assert (j < cur_host s)%nat as Hlt.
    { destruct (decide (j < cur_host s)%nat) as [|Hge]; [done|].
      rewrite (H2 _ _ Hj) in Hc by lia. done. }
    destruct (H3 _ _ Hj Hlt) as (c0 & Hc0 & Hother & _ & Hp).
    rewrite Hc in Hc0. injection Hc0 as <-.
    apply (child_process_stdio_done_iff (mode (opts g))); [done|].
    destruct Hp as [[_ Hall]|Hp]; [done | lia].
  - intros Hpc j Hj. destruct (Hret Hpc) as [Hcur Hout].
    rewrite H8. rewrite <- Hlen in Hj.
    destruct (lookup_lt_is_Some_2 _ _ Hj) as [h Hh]. rewrite Hh.
    assert (is_reaped h = true) as ->; [|done].
    apply (count_hosts_all running is_reaped (hosts (world s))).
    + intros h' Hh'. apply list_elem_of_lookup in Hh' as [j' Hj'].
      assert (j' < cur_host s)%nat as Hlt'.
      { rewrite Hcur. by eapply lookup_lt_Some. }
      destruct (H3 _ _ Hj' Hlt') as (c' & Hc' & _ & _ & Hp).
      unfold running, is_reaped. rewrite Hc'.
      destruct Hp as [[Hp _]|Hp].
      * right. by apply bool_decide_eq_true.
      * left. apply bool_decide_eq_true. lia.
    + lia.
    + by eapply list_elem_of_lookup_2.
Qed.

(** Two hosts whose children end their pipes in the two orders. *)
Lemma child_reaped_once_after_eof_witness :
  exists s,
    main_loop globals_cap1 2 (map host_create [lit "a"; lit "b"])
      inputs_two_hosts = Ok s
    /\ actions (world s)
       = [Forked 0 100; Closed 0 PIPE_STDOUT 5; Closed 0 PIPE_STDERR 6;
          Reaped 0 100; Forked 1 101; Closed 1 PIPE_STDERR 6;
          Closed 1 PIPE_STDOUT 5; Reaped 1 101]
    /\ (forall j, (reap_count j (actions (world s)) <= 1)%nat)
    /\ (pc s = Returned ->
        forall j, (j < 2)%nat -> reap_count j (actions (world s)) = 1%nat).
Proof.
  destruct (main_loop globals_cap1 2 (map host_create [lit "a"; lit "b"])
              inputs_two_hosts) as [s| | |] eqn:Hrun;
    [|by vm_compute in Hrun..].
  exists s. split; [reflexivity|].
  destruct (child_reaped_once_after_eof globals_cap1 2 [lit "a"; lit "b"]
              inputs_two_hosts s) as (Honce & _ & _ & Hall).
  - vm_compute. discriminate.
  - exact Hrun.
  - split; [|split; [exact Honce | exact Hall]].
    vm_compute in Hrun. by injection Hrun as <-.
Defined.

(** ** The progress line (C8) *)

(** C8 fails on the code: in join mode without a terminal on standard
    output, a run on one host writes the progress line [[sshp] finished
    1/1], its carriage return and the closing newline when the child is
    reaped.  Only the progress line of the start, with 0 children done, is
    held back. *)
Theorem progress_line_without_terminal :
  stdout_isatty globals_join = false
  /\ out (console (main_loop_enter globals_join 1
                     (map host_create [lit "h"])).(world)) = []
  /\ exists s,
       main_loop globals_join 1 (map host_create [lit "h"]) inputs_join
       = Ok s
       /\ pc s = Returned
       /\ out (console (world s)) = lit "[sshp] finished 1/1" ++ [CR; NL].
Proof.
  split; [done|]. split; [done|].
  eexists. split; [vm_compute; reflexivity|]. done.
Qed.

(* ================================================================== *)
(** * Further properties of the engine *)

(** ** Cutting a string *)

(** X1: [lsplit_str] cuts a string at the first occurrence of the byte and
    tells so; a string without the byte is left whole. *)
Theorem lsplit_str_first_occurrence (pre post : list byte) (c : byte) :
  c ∉ pre ->
  lsplit_str (pre ++ c :: post) c = (pre, true)
  /\ lsplit_str pre c = (pre, false).
Proof.
  intros Hc. split; [|by apply lsplit_str_none].
  induction pre as [|x pre IH]; cbn [app lsplit_str].
  - by rewrite decide_True.
  - apply not_elem_of_cons in Hc as [Hx Hpre].
    rewrite decide_False by done. by rewrite IH.
Qed.

(** The name [web1.example.com] cut at its first dot. *)
Lemma lsplit_str_first_occurrence_witness :
  lsplit_str (lit "web1" ++ "."%byte :: lit "example.com") "."%byte
  = (lit "web1", true)
  /\ lsplit_str (lit "web1") "."%byte = (lit "web1", false).
Proof.
  apply (lsplit_str_first_occurrence (lit "web1") (lit "example.com")).
  vm_compute. intros H.
  repeat (inversion H as [|? ? ? H']; clear H; rename H' into H).
Defined.

(** ** Reading the roster *)

Lemma until_nul_app_newline (l : list byte) :
  NUL ∉ l -> until_nul (l ++ [NL]) = l ++ [NL].
Proof.
  intros Hn. apply until_nul_id. intros Hin.
  apply elem_of_app in Hin as [Hin|Hin]; [done|].
  by apply list_elem_of_singleton in Hin.
Qed.

Lemma hd_app_newline (l : list byte) : hd NUL (l ++ [NL]) = hd NL l.
Proof. by destruct l. Qed.

(** The lines of a roster that fit the buffer, one [fgets] each: the lines
    with a skipped prefix are passed over, the others are appended to the
    list in their order. *)
Lemma parse_hosts_loop_roster hmax (lines : list (list byte)) :
  forall fuel hs num lineno,
  2 <= hmax ->
  Forall (fun l => (NL ∉ l) /\ (NUL ∉ l)
                   /\ Z.of_nat (length l) < hmax - 1) lines ->
  (length lines < fuel)%nat ->
  let names := filter (fun l => skipped_prefix (hd NL l) = false) lines in
  parse_hosts_loop fuel hmax (concat (map (fun l => l ++ [NL]) lines))
    hs num lineno
  = Some (Ok (hs ++ map host_create names, num + Z.of_nat (length names))).
Proof.
  induction lines as [|l lines IH];
    intros fuel hs num lineno Hmax Hlines Hfuel; cbn zeta.
  - destruct fuel as [|fuel]; [simpl in Hfuel; lia|].
    cbn. by rewrite app_nil_r, Z.add_0_r.
  - apply Forall_cons in Hlines as [(Hnl & Hnul & Hlen) Hlines].
    destruct fuel as [|fuel]; [simpl in Hfuel; lia|].
    cbn [map concat]. rewrite <- app_assoc. cbn [app].
    cbn [parse_hosts_loop]. unfold fgets.
    destruct (l ++ NL :: concat (map (fun l0 => l0 ++ [NL]) lines))
      as [|x f] eqn:Hf.
    { by destruct l. }
    rewrite <- Hf. rewrite fgets_take_line by (done || lia).
    rewrite until_nul_app_newline, hd_app_newline by done.
    simpl in Hfuel. rewrite filter_cons.
    destruct (skipped_prefix (hd NL l)) eqn:Hskip.
    + rewrite decide_False by done. apply IH; (done || lia).
    + rewrite decide_True by done.
      rewrite (proj1 (lsplit_str_first_occurrence l [] NL Hnl)).
      cbn [negb]. rewrite IH by (done || lia).
      cbn [map length]. rewrite <- app_assoc. cbn [app].
      do 3 f_equal. lia.
Qed.

(** X2: a roster whose lines all end with a newline, hold no nul byte and
    fit the host name buffer gives the list of its host lines, in their
    order, and their number; the lines that are empty or begin with [#] or
    with a space are passed over. *)
Theorem parse_hosts_roster hmax (lines : list (list byte)) :
  2 <= hmax ->
  Forall (fun l => (NL ∉ l) /\ (NUL ∉ l)
                   /\ Z.of_nat (length l) < hmax - 1) lines ->
  let names := filter (fun l => skipped_prefix (hd NL l) = false) lines in
  parse_hosts hmax (concat (map (fun l => l ++ [NL]) lines))
  = Some (Ok (map host_create names, Z.of_nat (length names)))
  /\ Forall (fun l => l <> [] /\ hd NL l <> "#"%byte /\ hd NL l <> " "%byte)
       names.
Proof.
  intros Hmax Hlines names. split.
  - unfold parse_hosts.
    rewrite (parse_hosts_loop_roster hmax lines _ [] 0 1 Hmax Hlines).
    + done.
    + rewrite length_concat.
      assert (forall ls : list (list byte),
                length ls
                <= list_sum (map length (map (fun l => l ++ [NL]) ls)))%nat
        as Hsum.
      { induction ls as [|l ls IH]; [done|].
        cbn [map length]. rewrite length_app. cbn [length].
        unfold list_sum in *. cbn [fold_right]. lia. }
      specialize (Hsum lines). lia.
  - apply Forall_forall. intros l Hl.
    apply list_elem_of_filter in Hl as [Hskip _].
    unfold skipped_prefix in Hskip.
    apply orb_false_iff in Hskip as [Hskip _].
    apply orb_false_iff in Hskip as [Hskip Hn].
    apply orb_false_iff in Hskip as [Hh Hs].
    apply bool_decide_eq_false in Hh, Hs, Hn.
    split; [|done]. by intros ->.
Qed.

(** A roster of a comment, two hosts, a blank line and an indented
    line. *)
Lemma parse_hosts_roster_witness :
  parse_hosts 64
    (lit "# web" ++ [NL] ++ lit "web1" ++ [NL] ++ lit "web2" ++ [NL]
     ++ [NL] ++ lit " web3" ++ [NL])
  = Some (Ok ([host_create (lit "web1"); host_create (lit "web2")], 2)).
Proof.
  apply (parse_hosts_roster 64
           [lit "# web"; lit "web1"; lit "web2"; []; lit " web3"]).
  - lia.
  - repeat constructor;
      try (vm_compute; intros H;
           repeat (inversion H as [|? ? ? H']; clear H; rename H' into H));
      vm_compute; reflexivity.
Defined.

Lemma fgets_take_no_newline (n : nat) (f : list byte) :
  NL ∉ f ->
  (fgets_take n f).1 = take n f /\ NL ∉ (fgets_take n f).1.
Proof.
  revert f. induction n as [|n IH]; intros f Hnl.
  - destruct f; cbn; split; (done || by apply not_elem_of_nil).
  - destruct f as [|c f]; [cbn; split; (done || by apply not_elem_of_nil)|].
    apply not_elem_of_cons in Hnl as [Hc Hf]. cbn [fgets_take].
    rewrite decide_False by done.
    destruct (IH f Hf) as [Ht Hn]. destruct (fgets_take n f) as [l r].
    cbn [fst] in *. subst l. split; [done|].
    by apply not_elem_of_cons.
Qed.

Lemma not_elem_of_until_nul (c : byte) (s : list byte) :
  c ∉ s -> c ∉ until_nul s.
Proof.
  induction s as [|x s IH]; cbn [until_nul]; [done|].
  intros Hc. apply not_elem_of_cons in Hc as [Hx Hs].
  case_decide; [by apply not_elem_of_nil|].
  apply not_elem_of_cons. split; [done | by apply IH].
Qed.

(** X3: a roster whose last line lacks its newline ends the run with exit
    code 2, the error of a line that is too long, whatever the length of
    that line, when the line is not one that is passed over. *)
Theorem parse_hosts_unterminated hmax (lines : list (list byte))
    (l : list byte) :
  2 <= hmax ->
  Forall (fun l => (NL ∉ l) /\ (NUL ∉ l)
                   /\ Z.of_nat (length l) < hmax - 1) lines ->
  NL ∉ l -> skipped_prefix (hd NUL l) = false ->
  parse_hosts hmax (concat (map (fun l => l ++ [NL]) lines) ++ l)
  = Some (Exit 2).
Proof.
  intros Hmax Hlines Hnl Hskip. unfold parse_hosts.
  assert (forall fuel hs num lineno, (0 < fuel)%nat ->
            parse_hosts_loop fuel hmax l hs num lineno = Some (Exit 2))
    as Hlast.
  { intros fuel hs num lineno Hfuel.
    destruct fuel as [|fuel]; [lia|]. cbn [parse_hosts_loop]. unfold fgets.
    destruct l as [|c l']; [done|].
    destruct (fgets_take_no_newline (Z.to_nat (hmax - 1)) (c :: l') Hnl)
      as [Htake Hno].
    destruct (fgets_take (Z.to_nat (hmax - 1)) (c :: l')) as [bytes f'].
    cbn [fst] in *.
    assert (exists bytes', bytes = c :: bytes') as [bytes' ->].
    { rewrite Htake. destruct (Z.to_nat (hmax - 1)) eqn:Hz; [lia|].
      by eexists. }
    cbn [hd] in Hskip.
    assert (c <> NUL) as Hc.
    { intros ->. unfold skipped_prefix in Hskip.
      by rewrite (bool_decide_eq_true_2 (NUL = NUL)), !orb_true_r in Hskip. }
    cbn [until_nul]. rewrite decide_False by done. cbn [hd].
    rewrite Hskip.
    rewrite lsplit_str_none; [done|].
    apply (not_elem_of_until_nul NL (c :: bytes')) in Hno.
    cbn [until_nul] in Hno. by rewrite decide_False in Hno. }
  assert (forall ls fuel hs num lineno,
            Forall (fun l => (NL ∉ l) /\ (NUL ∉ l)
                             /\ Z.of_nat (length l) < hmax - 1) ls ->
            (length ls < fuel)%nat ->
            parse_hosts_loop fuel hmax
              (concat (map (fun l => l ++ [NL]) ls) ++ l) hs num lineno
            = Some (Exit 2)) as Hall.
  { induction ls as [|x ls IH]; intros fuel hs num lineno Hls Hfuel.
    - cbn [map concat app]. apply Hlast. simpl in Hfuel. lia.
    - apply Forall_cons in Hls as [(Hxn & Hxz & Hxl) Hls].
      destruct fuel as [|fuel]; [simpl in Hfuel; lia|].
      cbn [map concat]. rewrite <- !app_assoc. cbn [app].
      cbn [parse_hosts_loop]. unfold fgets.
      destruct (x ++ NL :: concat (map (fun l0 => l0 ++ [NL]) ls) ++ l)
        as [|y f] eqn:Hf.
      { by destruct x. }
      rewrite <- Hf. rewrite fgets_take_line by (done || lia).
      simpl in Hfuel.
      destruct (skipped_prefix (hd NUL (until_nul (x ++ [NL])))).
      + apply IH; (done || lia).
      + destruct (lsplit_str (until_nul (x ++ [NL])) NL) as [s cut].
        destruct cut; cbn [negb]; [|done].
        apply IH; (done || lia). }
  apply Hall; [done|].
  rewrite length_app, length_concat.
  assert (forall ls : list (list byte),
            length ls
            <= list_sum (map length (map (fun l => l ++ [NL]) ls)))%nat
    as Hsum.
  { induction ls as [|x ls IH]; [done|].
    cbn [map length]. rewrite length_app. cbn [length].
    unfold list_sum in *. cbn [fold_right]. lia. }
  specialize (Hsum lines). lia.
Qed.

(** The roster [web1\nweb2] without a newline at its end. *)
Lemma parse_hosts_unterminated_witness :
  parse_hosts 64 (lit "web1" ++ [NL] ++ lit "web2") = Some (Exit 2).
Proof.
  apply (parse_hosts_unterminated 64 [lit "web1"] (lit "web2")).
  - lia.
  - repeat constructor;
      try (vm_compute; intros H;
           repeat (inversion H as [|? ? ? H']; clear H; rename H' into H));
      vm_compute; reflexivity.
  - vm_compute. intros H.
    repeat (inversion H as [|? ? ? H']; clear H; rename H' into H).
  - reflexivity.
Defined.

(** ** Composing the command *)

(** X4: [push_arguments] appends its arguments to the base command in
    their order when the base command then holds 254 arguments at most,
    and ends the run with exit code 2 otherwise. *)
Theorem push_arguments_appends (args : list (list byte)) : forall base,
  args <> [] ->
  push_arguments base args
  = if decide (length base + length args <= 254)%nat
    then Ok (base ++ args) else Exit 2.
Proof.
  induction args as [|s args IH]; intros base Hne; [done|].
  cbn [push_arguments length]. unfold MAX_ARGS.
  destruct (decide (Z.of_nat (length base) >= 256 - 2)) as [Hfull|Hroom].
  - rewrite decide_False by lia. done.
  - destruct args as [|s' args].
    + cbn [push_arguments length]. rewrite decide_True by lia. done.
    + rewrite IH by done. rewrite length_app. cbn [length].
      rewrite <- app_assoc. cbn [app].
      destruct (decide (length base + 1 + S (length args) <= 254)%nat);
        [rewrite decide_True by lia | rewrite decide_False by lia]; done.
Qed.

(** The options [-i key -l root] pushed onto the command [main] starts
    with. *)
Lemma push_arguments_appends_witness :
  push_arguments [lit "echo"; lit "ssh"]
    [lit "-i"; lit "key"; lit "-l"; lit "root"]
  = Ok [lit "echo"; lit "ssh"; lit "-i"; lit "key"; lit "-l"; lit "root"].
Proof.
  rewrite (push_arguments_appends
             [lit "-i"; lit "key"; lit "-l"; lit "root"]
             [lit "echo"; lit "ssh"]); [reflexivity | discriminate].
Defined.

(** X5: [build_ssh_command] composes the base command, the host name and
    the remote command, in this order, when they leave room for the
    terminator in the array of [size] entries, and ends the run with exit
    code 2 otherwise; its last assertion never fails. *)
Theorem build_ssh_command_composes base remote h size :
  0 < size ->
  build_ssh_command base remote h size
  = if decide (Z.of_nat (length base + 1 + length remote) < size)
    then Ok (base ++ name h :: remote) else Exit 2.
Proof.
  intros Hsize. case_decide as Hfit; [|apply build_ssh_command_full; lia].
  unfold build_ssh_command.
  rewrite assert_true by (apply bool_decide_eq_true; lia). cbn [bind].
  rewrite build_items_fits by (cbn [length]; lia). cbn [bind app].
  rewrite build_items_fits by (cbn [length]; lia). cbn [bind].
  rewrite build_items_fits by (rewrite length_app; cbn [length]; lia).
  cbn [bind].
  rewrite assert_true
    by (apply bool_decide_eq_true; rewrite !length_app; cbn [length]; lia).
  cbn [bind]. by rewrite <- app_assoc.
Qed.

(** The command for the host [h]. *)
Lemma build_ssh_command_composes_witness :
  build_ssh_command [lit "echo"; lit "ssh"] [lit "uname"; lit "-a"] host_h
    MAX_ARGS
  = Ok [lit "echo"; lit "ssh"; lit "h"; lit "uname"; lit "-a"].
Proof.
  rewrite (build_ssh_command_composes [lit "echo"; lit "ssh"]
             [lit "uname"; lit "-a"] host_h MAX_ARGS); [reflexivity|].
  reflexivity.
Defined.

(** ** Silent mode *)

Lemma read_loop_silent o cl h fdev k reads fin :
  silent o = true -> fin <> ReadFailed ->
  exists eof, read_loop o cl h fdev k reads fin = Ok (fdev, k, eof).
Proof.
  intros Hs Hfin. induction reads as [|buf reads IH]; cbn [read_loop].
  - destruct fin; [by eexists..|done].
  - case_decide; [by eexists|]. by rewrite Hs.
Qed.

(** X7: with [-s] nothing of what a child writes reaches standard output,
    whatever the child writes and in whatever chunks: the reads are
    made and dropped, and the end of the file finds the line buffer
    empty. *)
Theorem silent_prints_nothing o cl h junk hi c t fdev k drains final :
  silent o = true ->
  fdev_create o junk hi c t = Ok fdev ->
  exists fdev' handed,
    stream_session o cl h fdev k drains final = Ok (fdev', k, handed)
    /\ (mode o <> MODE_JOIN -> fdev' = fdev /\ handed = None).
Proof.
  intros Hs Hc.
  assert (exists fdev' handed,
            process_eof o cl h fdev k = Ok (fdev', k, handed)
            /\ (mode o <> MODE_JOIN -> fdev' = fdev /\ handed = None))
    as (fdev' & handed & Heof & Hrest).
  { unfold process_eof. destruct (mode o) eqn:Hmode.
    - unfold fdev_create in Hc. rewrite Hmode in Hc.
      apply bind_Ok in Hc as (buf & _ & Hc).
      apply bind_Ok in Hc as ([] & _ & Hc). injection Hc as <-.
      unfold eof_line_by_line. cbn [offset]. rewrite decide_True by done.
      cbn [bind]. by eexists _, _.
    - by eexists _, _.
    - assert (0 <= max_output_length o) as Hpos.
      { unfold fdev_create, safe_malloc in Hc. rewrite Hmode in Hc.
        apply bind_Ok in Hc as (buf & Hbuf & _).
        apply bind_Ok in Hbuf as (b & Hb & _).
        apply bind_Ok in Hb as ([] & Ha%assert_Ok%bool_decide_eq_true & _).
        lia. }
      destruct (fdev_create_join o (Z.to_nat (max_output_length o))
                  ltac:(lia) Hmode junk hi c t fdev Hc)
        as (junk0 & _ & _ & Hst).
      destruct (eof_join_spec o _ ltac:(symmetry; apply Z2Nat.id; lia)
                  junk0 fdev [] Hst) as (fdev2 & -> & _).
      cbn [bind]. by eexists _, _. }
  exists fdev', handed. split; [|done].
  induction drains as [|reads drains IH]; cbn [stream_session].
  - destruct (read_loop_silent o cl h fdev k final ReadEOF Hs ltac:(done))
      as [eof ->].
    done.
  - destruct (read_loop_silent o cl h fdev k reads ReadWouldBlock Hs
                ltac:(done)) as [eof ->].
    cbn [bind]. by destruct eof.
Qed.

(** [-s] on a child that writes two lines. *)
Lemma silent_prints_nothing_witness :
  exists fdev' handed,
    stream_session
      (mkOpts false false false false false 50 true false 4 8192
         MODE_LINE_BY_LINE)
      colors_off host_h fdev_line4 console_init [[lit "ab" ++ [NL]]]
      [lit "cd" ++ [NL]]
    = Ok (fdev', console_init, handed).
Proof.
  destruct (silent_prints_nothing
              (mkOpts false false false false false 50 true false 4 8192
                 MODE_LINE_BY_LINE)
              colors_off host_h junk_marks 0%nat child_5_6 PIPE_STDOUT
              fdev_line4 console_init [[lit "ab" ++ [NL]]]
              [lit "cd" ++ [NL]]) as (fdev' & handed & Hrun & _).
  - reflexivity.
  - reflexivity.
  - by exists fdev', handed.
Defined.

(** ** The sizes of the classes of the join aggregator *)

Lemma filter_ext_elem {A : Type} (P Q : A -> Prop)
    `{forall x, Decision (P x)} `{forall x, Decision (Q x)} (l : list A) :
  (forall x, x ∈ l -> P x <-> Q x) -> filter P l = filter Q l.
Proof.
  induction l as [|x l IH]; intros Hpq; [done|].
  rewrite !filter_cons.
  assert (filter P l = filter Q l) as ->.
  { apply IH. intros y Hy. apply Hpq. by right. }
  destruct (decide (P x)) as [Hp|Hp], (decide (Q x)) as [Hq|Hq]; try done;
    exfalso; [apply Hq | apply Hp]; by apply (Hpq x ltac:(by left)).
Qed.

(** The hosts of the positions [l] with the class [c]. *)
Lemma StronglySorted_lt_NoDup (l : list nat) : StronglySorted lt l -> NoDup l.
Proof.
  induction 1 as [|x l Hs IH Hall]; constructor; [|done].
  intros Hx. rewrite Forall_forall in Hall. specialize (Hall x Hx). lia.
Qed.

Lemma class_members_length (hs : list Host) (i : Z) ms :
  Forall (fun h => is_Some (cp h)) hs ->
  class_members hs i = Ok ms ->
  length ms
  = length (filter (fun j => cls hs j = i) (seq 0 (length hs))).
Proof.
  intros Hcp Hms.
  destruct (class_members_spec hs i Hcp) as (ms' & Hms' & Hin & Hsorted).
  rewrite Hms in Hms'. injection Hms' as <-.
  apply Permutation_length, NoDup_Permutation.
  - by apply StronglySorted_lt_NoDup.
  - apply NoDup_filter, NoDup_seq.
  - intros j. rewrite Hin, list_elem_of_filter, elem_of_seq.
    split; [intros [? ?]; split; [done | lia] | intros [? ?]; split; [lia | done]].
Qed.

Section JoinCounts.
Variables (outs : list (list byte)).

(** The inner loop counts the hosts it takes into the class. *)
Lemma join_inner_count i idx s1 (len : nat) : forall a hs num hs' num',
  outs !! i = Some s1 ->
  captured hs outs -> (a + len = length hs)%nat ->
  for_each (join_inner_body i idx) (seq a len) (hs, num) = Ok (hs', num') ->
  num' = num + Z.of_nat (length (filter
                 (fun j => cls hs j < 0 /\ outs !! j = Some s1)
                 (seq a len))).
Proof.
  induction len as [|len IH]; intros a hs num hs' num' Hs1 Hc Hlen Hrun.
  - cbn in Hrun. injection Hrun as _ <-. cbn. lia.
  - cbn [seq for_each] in Hrun. unfold join_inner_body at 1 in Hrun.
    destruct (lookup_lt_is_Some_2 outs a) as [s2 Hs2].
    { rewrite <- (captured_length outs hs Hc). lia. }
    rewrite (host_output_idx_captured outs hs a s2 Hc Hs2) in Hrun.
    cbn [bind] in Hrun. cbn [seq]. rewrite filter_cons.
    destruct (decide (cls hs a >= 0)) as [Hge|Hlt].
    + cbn [bind] in Hrun. rewrite decide_False by lia.
      by apply (IH (S a) hs num hs' num' Hs1 Hc ltac:(lia)).
    + destruct (host_output_captured outs hs i s1 Hc Hs1) as (b1 & Hb1 & Hc1).
      destruct (host_output_captured outs hs a s2 Hc Hs2) as (b2 & Hb2 & Hc2).
      rewrite Hb1, Hb2 in Hrun. cbn [bind] in Hrun.
      destruct (strcmp_cstr b1 b2 s1 s2 Hc1 Hc2) as (d & Hd & Hd0).
      rewrite Hd in Hrun. cbn [bind] in Hrun.
      destruct (decide (d = 0)) as [Hz|Hz].
      * apply Hd0 in Hz. subst s2.
        destruct (set_host_output_idx_captured outs hs a s1 idx Hc Hs2)
          as (hs1 & Hset & Hcap1 & _ & Hcls1).
        rewrite Hset in Hrun. cbn [bind] in Hrun.
        rewrite decide_True by (split; [lia | done]). cbn [length].
        rewrite (IH (S a) hs1 (num + 1) hs' num' Hs1 Hcap1) by
          (rewrite ?(captured_length outs hs1 Hcap1),
             <- ?(captured_length outs hs Hc); (lia || done)).
        rewrite (filter_ext_elem
                   (fun j => cls hs1 j < 0 /\ outs !! j = Some s1)
                   (fun j => cls hs j < 0 /\ outs !! j = Some s1)).
        { lia. }
        intros j Hj. apply elem_of_seq in Hj. rewrite Hcls1.
        by rewrite decide_False by lia.
      * cbn [bind] in Hrun.
        rewrite decide_False.
        { by apply (IH (S a) hs num hs' num' Hs1 Hc ltac:(lia)). }
        intros [_ Heq]. rewrite Hs2 in Heq. injection Heq as ->.
        by apply Hz, Hd0.
Qed.

(** The hosts with the class [c] among the first [n]. *)
Lemma class_count_split (D : nat -> Z) (c : Z) (a n : nat) :
  (a < n)%nat ->
  length (filter (fun j => D j = c) (seq 0 n))
  = (length (filter (fun j => D j = c) (seq 0 a))
     + (if decide (D a = c) then 1 else 0)
     + length (filter (fun j => D j = c) (seq (S a) (n - S a))))%nat.
Proof.
  intros Ha.
  replace n with (a + S (n - S a))%nat at 1 by lia.
  rewrite seq_app, filter_app, length_app. cbn [seq]. rewrite filter_cons.
  cbn [Nat.add]. case_decide; cbn [length]; lia.
Qed.

(** The outer loop stores in [count] the size of every class it forms:
    a class keeps the members it has when it is formed. *)
Lemma join_outer_count (len : nat) : forall a hs K count hs' K' count',
  captured hs outs -> classes_inv outs a (cls hs) K ->
  (a + len = length hs)%nat -> length count = length hs ->
  (forall c, 0 <= c < K ->
     count !! Z.to_nat c
     = Some (Z.of_nat (length (filter (fun j => cls hs j = c)
                                 (seq 0 (length hs)))))) ->
  for_each join_outer_body (seq a len) (hs, K, count) = Ok (hs', K', count') ->
  length count' = length hs
  /\ forall c, 0 <= c < K' ->
       count' !! Z.to_nat c
       = Some (Z.of_nat (length (filter (fun j => cls hs' j = c)
                                   (seq 0 (length hs'))))).
Proof.
  induction len as [|len IH];
    intros a hs K count hs' K' count' Hc Hinv Hlen Hcount Hsizes Hrun.
  - cbn in Hrun. by injection Hrun as <- <- <-.
  - cbn [seq for_each] in Hrun. unfold join_outer_body at 1 in Hrun.
    destruct (lookup_lt_is_Some_2 outs a) as [s1 Hs1].
    { rewrite <- (captured_length outs hs Hc). lia. }
    rewrite (host_output_idx_captured outs hs a s1 Hc Hs1) in Hrun.
    cbn [bind] in Hrun.
    destruct (decide (cls hs a >= 0)) as [Hge|Hlt].
    + cbn [bind] in Hrun.
      apply (IH (S a) hs K count hs' K' count'); try done; [|lia].
      apply classes_inv_skip; [done | lia].
    + destruct (set_host_output_idx_captured outs hs a s1 K Hc Hs1)
        as (hs1 & Hset & Hc1 & He1 & Hcls1).
      rewrite Hset in Hrun. cbn [bind] in Hrun.
      assert (length hs1 = length hs) as Hl1.
      { by rewrite (captured_length outs hs1 Hc1),
          (captured_length outs hs Hc). }
      destruct (join_inner_spec outs a K s1 Hs1 (length hs1 - S a) (S a)
                  hs1 1 Hc1 ltac:(lia))
        as (hs2 & num & Hinner & Hc2 & He2 & Hcls2).
      rewrite Hinner in Hrun. cbn [bind] in Hrun.
      pose proof (join_inner_count a K s1 (length hs1 - S a) (S a) hs1 1
                    hs2 num Hs1 Hc1 ltac:(lia) Hinner) as Hnum.
      assert (length hs2 = length hs) as Hl2.
      { by rewrite (captured_length outs hs2 Hc2),
          (captured_length outs hs Hc). }
      pose proof Hinv as (HK & Hbefore & Hrange & _).
      destruct (store_int_ok count K num) as (count1 & Hstore & Hcount1);
        [lia|].
      rewrite Hstore in Hrun. cbn [bind] in Hrun.
      assert (forall j, cls hs2 j
                        = if decide (j = a) then K
                          else if decide ((S a <= j)%nat /\ cls hs j < 0
                                          /\ outs !! j = Some s1)
                               then K else cls hs j) as Hcls.
      { intros j. rewrite Hcls2, !Hcls1.
        destruct (decide (j = a)) as [->|Hja]; [|done].
        by rewrite decide_False by lia. }
      cut (forall c, 0 <= c < K + 1 ->
             count1 !! Z.to_nat c
             = Some (Z.of_nat (length (filter (fun j => cls hs2 j = c)
                                         (seq 0 (length hs2)))))).
      { intros Hsizes2.
        destruct (IH (S a) hs2 (K + 1) count1 hs' K' count' Hc2) as [? ?];
          try done; try lia.
        - by apply (classes_inv_new outs a (cls hs) (cls hs2) K s1);
            [| |lia|].
        - split; [lia | done]. }
      intros c Hcr. rewrite Hl2.
      unfold store_int in Hstore. rewrite decide_True in Hstore by lia.
      injection Hstore as <-.
      destruct (decide (c = K)) as [->|HcK].
      * (* the class formed in this turn *)
        rewrite list_lookup_insert_eq by lia. f_equal.
        rewrite (class_count_split (cls hs2) K a (length hs)) by lia.
        rewrite (filter_ext_elem (fun j => cls hs2 j = K) (fun _ => False)
                   (seq 0 a)).
        2:{ intros j Hj. apply elem_of_seq in Hj. rewrite Hcls.
            rewrite decide_False by lia. rewrite decide_False by lia.
            split; [|done]. intros Hj'.
            pose proof (Hbefore j ltac:(lia)
                          ltac:(rewrite <- (captured_length outs hs Hc); lia)).
            destruct (Hrange j); lia. }
        rewrite (filter_ext_elem (fun j => cls hs2 j = K)
                   (fun j => cls hs1 j < 0 /\ outs !! j = Some s1)
                   (seq (S a) (length hs - S a))).
        2:{ intros j Hj. apply elem_of_seq in Hj. rewrite Hcls, Hcls1.
            rewrite !(decide_False (P := j = a)) by lia.
            case_decide as Hj'.
            - split; [intros _; by destruct Hj' as (_ & ? & ?) | done].
            - split.
              + intros HjK. destruct (Hrange j); lia.
              + intros [? ?]. exfalso. apply Hj'. split; [lia | done]. }
        assert (cls hs2 a = K) as HaK
          by (rewrite Hcls; by rewrite decide_True).
        rewrite (decide_True (P := cls hs2 a = K)) by done.
        assert (filter (fun _ : nat => False) (seq 0 a) = []) as ->.
        { clear. induction (seq 0 a) as [|x l IHl]; [done|].
          rewrite filter_cons. by rewrite decide_False by tauto. }
        rewrite Hl1 in Hnum. cbn [length]. lia.
      * (* an older class keeps its members *)
        rewrite list_lookup_insert_ne by lia.
        rewrite (Hsizes c ltac:(lia)). do 3 f_equal.
        apply filter_ext_elem. intros j Hj. rewrite Hcls.
        destruct (decide (j = a)) as [->|Hja].
        -- split; [lia|]. intros Hac. lia.
        -- case_decide as Hj'; [|done].
           destruct Hj' as (_ & Hneg & _). split; lia.
Qed.
End JoinCounts.

Lemma list_sum_cons (x : nat) (l : list nat) :
  list_sum (x :: l) = (x + list_sum l)%nat.
Proof. reflexivity. Qed.

(** Every position below [n] has one class below [K]: the sizes of the
    classes add up to [n]. *)
Lemma class_sizes_sum (D : nat -> Z) (K : nat) : forall n,
  (forall j, (j < n)%nat -> 0 <= D j < Z.of_nat K) ->
  list_sum (map (fun c => length (filter (fun j => D j = Z.of_nat c)
                                    (seq 0 n))) (seq 0 K)) = n.
Proof.
  induction n as [|n IH]; intros Hin.
  - change (seq 0 0) with (@nil nat).
    induction (seq 0 K) as [|c l IHl]; [done|].
    cbn [map]. rewrite list_sum_cons, IHl. by rewrite filter_nil.
  - pose proof (IH ltac:(intros; apply Hin; lia)) as IHn.
    specialize (Hin n ltac:(lia)).
    assert (forall l : list nat, NoDup l ->
              list_sum (map (fun c => length (filter
                         (fun j => D j = Z.of_nat c) (seq 0 (S n)))) l)
              = (list_sum (map (fun c => length (filter
                           (fun j => D j = Z.of_nat c) (seq 0 n))) l)
                 + (if decide (Z.to_nat (D n) ∈ l) then 1 else 0))%nat)
      as Hstep.
    { induction l as [|c l IHl]; intros Hnd.
      - cbn. rewrite decide_False by apply not_elem_of_nil. done.
      - apply NoDup_cons in Hnd as [Hc Hnd]. cbn [map].
        rewrite !list_sum_cons, (IHl Hnd). rewrite seq_S, filter_app, length_app.
        cbn [Nat.add]. rewrite filter_cons, filter_nil.
        destruct (decide (D n = Z.of_nat c)) as [Heq|Hneq].
        + assert (Z.to_nat (D n) = c) as Hc' by lia. subst c.
          rewrite (decide_False (P := Z.to_nat (D n) ∈ l)) by done.
          rewrite decide_True by (by left). cbn [length]. lia.
        + cbn [length].
          destruct (decide (Z.to_nat (D n) ∈ l)) as [Hl|Hl].
          * rewrite decide_True by (by right). lia.
          * rewrite decide_False; [lia|].
            intros [Heq|Hr]%elem_of_cons; [lia | done]. }
    rewrite (Hstep (seq 0 K) (NoDup_seq 0 K)), IHn.
    rewrite decide_True by (apply elem_of_seq; lia). lia.
Qed.

(** What the first loop of [join_mode_finish] returns on a roster whose
    child records hold their captured outputs and no class. *)
Lemma join_classes_run junk num_hosts hs outs :
  num_hosts = Z.of_nat (length hs) -> hs <> [] ->
  Forall2 (fun h s =>
             exists c b, cp h = Some c /\ output c = Some b
                         /\ cstr b = Ok s /\ output_idx c = -1) hs outs ->
  exists hs' K count,
    join_classes junk num_hosts hs = Ok (hs', K, count)
    /\ captured hs' outs
    /\ map erase_class hs' = map erase_class hs
    /\ length hs' = length hs
    /\ length count = length hs
    /\ classes_inv outs (length hs) (cls hs') K
    /\ 1 <= K
    /\ (forall j, (j < length hs)%nat -> 0 <= cls hs' j < K)
    /\ (forall c, 0 <= c < K ->
          count !! Z.to_nat c
          = Some (Z.of_nat (length (filter (fun j => cls hs' j = c)
                                      (seq 0 (length hs')))))).
Proof.
  intros Hnum Hne Hall.
  assert (captured hs outs) as Hc.
  { eapply Forall2_impl; [exact Hall|]. intros h s (c & b & ? & ? & ? & _).
    by exists c, b. }
  assert (forall j, cls hs j = -1) as Hnone.
  { intros j. unfold cls. destruct (hs !! j) as [h|] eqn:Hj; [|done].
    destruct (Forall2_lookup_l _ _ _ _ _ Hall Hj)
      as (s & _ & c & b & Hcp & _ & _ & Hidx).
    unfold class_of. by rewrite Hcp. }
  assert (classes_inv outs 0 (cls hs) 0) as Hinv.
  { split; [lia|]. split; [intros; lia|]. split; [by left|].
    split; [|split].
    - intros j k s t Hj. rewrite Hnone in Hj. lia.
    - intros j c Hjc. rewrite Hnone in Hjc. lia.
    - intros c Hc0. lia. }
  unfold join_classes.
  rewrite assert_true
    by (apply bool_decide_eq_true; destruct hs; [done | simpl in *; lia]).
  cbn [bind].
  set (count0 := map junk (seq 0 (Z.to_nat num_hosts))).
  assert (length count0 = length hs) as Hcount0.
  { unfold count0. rewrite length_map, length_seq. lia. }
  destruct (join_outer_spec outs (length hs) 0 hs 0 count0 Hc Hinv)
    as (hs' & K & count & Hrun & Hc' & Hinv' & He); [done|done|].
  destruct (join_outer_count outs (length hs) 0 hs 0 count0 hs' K count
              Hc Hinv) as [Hlen Hsizes]; [done|done|intros; lia|done|].
  exists hs', K, count. split; [done|].
  assert (length hs' = length hs) as Hl'.
  { by rewrite (captured_length outs hs' Hc'), (captured_length outs hs Hc). }
  rewrite Nat.add_0_l in Hinv'.
  pose proof Hinv' as (HK & Hbefore & Hrange & Hsame & Hfirst & Hevery).
  assert (forall j, (j < length hs)%nat -> 0 <= cls hs' j < K) as Hin.
  { intros j Hj.
    pose proof (Hbefore j Hj ltac:(by rewrite <- (captured_length outs hs Hc))).
    destruct (Hrange j); lia. }
  assert (1 <= K) as HK1.
  { destruct hs as [|h0 hs0]; [done|].
    pose proof (Hin 0%nat ltac:(simpl; lia)). lia. }
  done.
Qed.

(** X8: on a roster whose child records hold their captured outputs and
    no class, the aggregator forms as many classes as there are different
    captured strings, one at least; it stores for every class the number
    of its members, which is not zero; and these numbers add up to the
    number of hosts. *)
Theorem join_classes_counts junk num_hosts hs outs :
  num_hosts = Z.of_nat (length hs) -> hs <> [] ->
  Forall2 (fun h s =>
             exists c b, cp h = Some c /\ output c = Some b
                         /\ cstr b = Ok s /\ output_idx c = -1) hs outs ->
  exists hs' K count,
    join_classes junk num_hosts hs = Ok (hs', K, count)
    /\ 1 <= K <= num_hosts
    /\ Z.to_nat K = length (remove_dups outs)
    /\ (forall i ms, 0 <= i < K -> class_members hs' i = Ok ms ->
          ms <> [] /\ count !! Z.to_nat i = Some (Z.of_nat (length ms)))
    /\ foldr Z.add 0 (take (Z.to_nat K) count) = num_hosts.
Proof.
  intros Hnum Hne Hall.
  destruct (join_classes_run junk num_hosts hs outs Hnum Hne Hall)
    as (hs' & K & count & Hrun & Hc' & He & Hl' & Hlen & Hinv' & HK1 & Hin
        & Hsizes).
  assert (captured hs outs) as Hc.
  { eapply Forall2_impl; [exact Hall|]. intros h s (c & b & ? & ? & ? & _).
    by exists c, b. }
  exists hs', K, count. split; [done|].
  pose proof (captured_has_child hs' outs Hc') as Hcp.
  destruct Hinv' as (HK & Hbefore & Hrange & Hsame & Hfirst & Hevery).
  split; [lia|]. split; [|split].
  - (* the classes and the strings *)
    assert (forall m, (m <= Z.to_nat K)%nat ->
              exists reps,
                Forall2 (fun c s => exists k, cls hs' k = Z.of_nat c
                                              /\ outs !! k = Some s)
                  (seq 0 m) reps) as Hreps.
    { induction m as [|m IHm]; intros Hm; [by exists []|].
      destruct (IHm ltac:(lia)) as [reps Hr].
      destruct (Hevery (Z.of_nat m) ltac:(lia)) as (k & Hk & Hkc).
      destruct (lookup_lt_is_Some_2 outs k) as [s Hs].
      { by rewrite <- (captured_length outs hs Hc). }
      exists (reps ++ [s]). rewrite seq_S. apply Forall2_app; [done|].
      repeat constructor. by exists k. }
    destruct (Hreps (Z.to_nat K) ltac:(lia)) as [reps Hr].
    transitivity (length reps).
    { rewrite <- (Forall2_length _ _ _ Hr). by rewrite length_seq. }
    apply Permutation_length, NoDup_Permutation.
    + apply NoDup_alt. intros c1 c2 s H1 H2.
      destruct (Forall2_lookup_r _ _ _ _ _ Hr H1) as (x1 & Hx1 & k1 & Hk1 & Hs1).
      destruct (Forall2_lookup_r _ _ _ _ _ Hr H2) as (x2 & Hx2 & k2 & Hk2 & Hs2).
      apply lookup_seq in Hx1 as [-> ?]. apply lookup_seq in Hx2 as [-> ?].
      cbn [Nat.add] in *.
      pose proof (Hsame k1 k2 s s ltac:(lia) Hs1 Hs2) as [_ Heq].
      specialize (Heq eq_refl). lia.
    + apply NoDup_remove_dups.
    + intros s. rewrite elem_of_remove_dups. split.
      * intros Hs. apply list_elem_of_lookup in Hs as [c Hcs].
        destruct (Forall2_lookup_r _ _ _ _ _ Hr Hcs) as (x & _ & k & _ & Hk).
        by eapply list_elem_of_lookup_2.
      * intros Hs. apply list_elem_of_lookup in Hs as [j Hj].
        pose proof (lookup_lt_Some _ _ _ Hj) as Hjl.
        rewrite <- (captured_length outs hs Hc) in Hjl.
        pose proof (Hin j Hjl) as Hjc.
        destruct (lookup_lt_is_Some_2 reps (Z.to_nat (cls hs' j))) as [t Ht].
        { rewrite <- (Forall2_length _ _ _ Hr), length_seq. lia. }
        destruct (Forall2_lookup_r _ _ _ _ _ Hr Ht) as (x & Hx & k & Hk & Hks).
        apply lookup_seq in Hx as [-> ?]. cbn [Nat.add] in Hk.
        pose proof (Hsame j k s t ltac:(lia) Hj Hks) as [Heq _].
        rewrite <- (Heq ltac:(lia)). by eapply list_elem_of_lookup_2.
  - (* the sizes stored *)
    intros i ms Hi Hms.
    rewrite (Hsizes i Hi), (class_members_length hs' i ms Hcp Hms).
    split; [|done].
    destruct (Hevery i Hi) as (k & Hk & Hki).
    destruct (class_members_spec hs' i Hcp) as (ms' & Hms' & Hmem & _).
    rewrite Hms in Hms'. injection Hms' as <-.
    intros ->. assert (k ∈ @nil nat) as Hin'; [|by apply elem_of_nil in Hin'].
    apply Hmem. split; [lia | done].
  - (* the sizes add up *)
    assert (take (Z.to_nat K) count
            = map (fun c => Z.of_nat (length (filter
                     (fun j => cls hs' j = Z.of_nat c)
                     (seq 0 (length hs'))))) (seq 0 (Z.to_nat K))) as ->.
    { apply list_eq. intros c. rewrite list_lookup_fmap.
      destruct (decide (c < Z.to_nat K)%nat) as [Hlt|Hge].
      - rewrite lookup_take_lt by done.
        rewrite (lookup_seq_lt _ _ _ Hlt). cbn [fmap option_fmap option_map].
        pose proof (Hsizes (Z.of_nat c) ltac:(lia)) as Hsz.
        by rewrite Nat2Z.id in Hsz.
      - rewrite lookup_take_ge by lia.
        by rewrite lookup_seq_ge by lia. }
    assert (forall (f : nat -> nat) l,
              foldr Z.add 0 (map (fun c => Z.of_nat (f c)) l)
              = Z.of_nat (list_sum (map f l))) as Hfold.
    { clear. intros f l. induction l as [|c l IHl]; [done|].
      cbn [map foldr]. rewrite list_sum_cons, IHl. lia. }
    rewrite (Hfold (fun c => length (filter
                      (fun j => cls hs' j = Z.of_nat c)
                      (seq 0 (length hs'))))).
    rewrite class_sizes_sum; [lia|].
    intros j Hj. rewrite Hl' in Hj. pose proof (Hin j Hj). lia.
Qed.

(** Three hosts whose children wrote [x\n], [y\n] and [x\n]: two classes,
    of two members and of one. *)
Lemma join_classes_counts_witness :
  exists hs' count,
    join_classes junk_ints 3 roster_x_y_x = Ok (hs', 2, count)
    /\ take 2 count = [2; 1]
    /\ length (remove_dups [lit "x" ++ [NL]; lit "y" ++ [NL];
                            lit "x" ++ [NL]]) = 2%nat.
Proof.
  destruct (join_classes_counts junk_ints 3 roster_x_y_x
              [lit "x" ++ [NL]; lit "y" ++ [NL]; lit "x" ++ [NL]])
    as (hs' & K & count & Hrun & _ & HK & _).
  - reflexivity.
  - discriminate.
  - repeat constructor; eexists _, _; repeat split; reflexivity.
  - exists hs', count.
    assert (join_classes junk_ints 3 roster_x_y_x
            = Ok (hs', K, count)) as Hrun' by exact Hrun.
    vm_compute in Hrun'. injection Hrun' as <- <- <-.
    repeat split; vm_compute; reflexivity.
Defined.

(** ** The report of the join aggregator *)

Section Report.
Variables (cl : Colors) (num_hosts : Z) (outs : list (list byte)).
Variables (hs : list Host) (K : Z) (count : list Z).
Hypothesis Hc : captured hs outs.
Hypothesis Hsame : forall j k s t,
  0 <= cls hs j -> outs !! j = Some s -> outs !! k = Some t ->
  cls hs k = cls hs j <-> t = s.
Hypothesis Hevery : forall c, 0 <= c < K ->
  exists k, (k < length hs)%nat /\ cls hs k = c.
Hypothesis Hsizes : forall c, 0 <= c < K ->
  count !! Z.to_nat c
  = Some (Z.of_nat (length (filter (fun j => cls hs j = c)
                              (seq 0 (length hs))))).

(** The block of one class: its size, its members, and the captured
    string they share. *)
Lemma print_class_spec k (i : nat) :
  Z.of_nat i < K ->
  exists ms s,
    class_members hs (Z.of_nat i) = Ok ms
    /\ ms <> []
    /\ (forall j, j ∈ ms -> outs !! j = Some s)
    /\ print_class cl num_hosts hs count k i
       = Ok (emit (class_block cl num_hosts hs (Z.of_nat (length ms)) ms s)
               k).
Proof.
  intros Hi.
  pose proof (captured_has_child hs outs Hc) as Hcp.
  destruct (class_members_spec hs (Z.of_nat i) Hcp)
    as (ms & Hms & Hmem & Hsorted).
  pose proof (Hsizes (Z.of_nat i) ltac:(lia)) as Hcount.
  rewrite Nat2Z.id, <- (class_members_length hs _ ms Hcp Hms) in Hcount.
  destruct (Hevery (Z.of_nat i) ltac:(lia)) as (k0 & Hk0 & Hk0c).
  assert (k0 ∈ ms) as Hk0m by (by apply Hmem).
  destruct (lookup_lt_is_Some_2 outs k0) as [s Hs].
  { by rewrite <- (captured_length outs hs Hc). }
  assert (forall j, j ∈ ms -> outs !! j = Some s) as Hout.
  { intros j Hj. apply Hmem in Hj as [Hjl Hjc].
    destruct (lookup_lt_is_Some_2 outs j) as [t Ht].
    { by rewrite <- (captured_length outs hs Hc). }
    pose proof (Hsame k0 j s t ltac:(lia) Hs Ht) as [Heq _].
    by rewrite (Heq ltac:(lia)) in Ht. }
  exists ms, s. split; [done|]. split; [by intros ->; apply elem_of_nil in Hk0m|].
  split; [done|].
  unfold print_class. rewrite Hcount, Hms. cbn [bind].
  destruct (last ms) as [j|] eqn:Hlast.
  2:{ apply last_None in Hlast. subst ms. by apply elem_of_nil in Hk0m. }
  pose proof (Hout j (last_Some_elem_of _ _ Hlast)) as Hj.
  destruct (host_output_captured outs hs j s Hc Hj) as (b & -> & Hb).
  cbn [bind]. rewrite Hb. cbn [bind].
  unfold class_block.
  destruct (ends_in_newline s); cbn [negb];
    rewrite !emit_emit; f_equal; by rewrite <- ?app_assoc.
Qed.

(** The blocks of the classes from [a] on, one after the other. *)
Lemma print_classes_spec (len : nat) : forall a k,
  Z.of_nat (a + len) <= K ->
  exists blocks,
    for_each (print_class cl num_hosts hs count) (seq a len) k
    = Ok (emit (concat blocks) k)
    /\ Forall2 (fun i block =>
         exists ms s,
           class_members hs (Z.of_nat i) = Ok ms /\ ms <> []
           /\ (forall j, j ∈ ms -> outs !! j = Some s)
           /\ block = class_block cl num_hosts hs (Z.of_nat (length ms))
                        ms s) (seq a len) blocks.
Proof.
  induction len as [|len IH]; intros a k Hlen.
  - exists []. cbn. by rewrite emit_nil.
  - cbn [seq for_each].
    destruct (print_class_spec k a ltac:(lia)) as (ms & s & Hms & Hne & Hs & ->).
    cbn [bind].
    destruct (IH (S a) (emit (class_block cl num_hosts hs
                                (Z.of_nat (length ms)) ms s) k)
                ltac:(lia)) as (blocks & -> & Hblocks).
    exists (class_block cl num_hosts hs (Z.of_nat (length ms)) ms s
            :: blocks).
    split; [by rewrite emit_emit|].
    constructor; [|done]. by exists ms, s.
Qed.
End Report.

Lemma ends_app (a b : list byte) :
  (exists p, b = p ++ [NL; NL]) -> exists p, a ++ b = p ++ [NL; NL].
Proof. intros [p ->]. exists (a ++ p). by rewrite app_assoc. Qed.

(** The end of a block: the captured string is followed by an empty
    line. *)
Lemma block_tail (s : list byte) :
  exists p,
    [NL] ++ s ++ (if ends_in_newline s then [] else [NL]) ++ [NL]
    = p ++ [NL; NL].
Proof.
  unfold ends_in_newline.
  destruct (decide (length s = 0%nat)) as [Hz|Hz].
  - destruct s; [|done]. by exists [NL].
  - destruct (bool_decide (last s = Some NL)) eqn:Hl.
    + apply bool_decide_eq_true in Hl. apply last_Some in Hl as [s' ->].
      exists ([NL] ++ s'). by rewrite <- !app_assoc.
    + exists ([NL] ++ s). by rewrite <- !app_assoc.
Qed.

(** X9: on a roster whose child records hold their captured outputs and no
    class, [join_mode_finish] returns: its assertion on the output of a
    class never fails.  It prints an empty line, the number of classes, and
    one block per class in the order of the classes: the size of the class,
    its members in roster order, the captured string they share, and a
    newline when the string does not end with one; every block ends with
    an empty line. *)
Theorem join_mode_finish_report cl junk num_hosts hs outs k :
  num_hosts = Z.of_nat (length hs) -> hs <> [] ->
  Forall2 (fun h s =>
             exists c b, cp h = Some c /\ output c = Some b
                         /\ cstr b = Ok s /\ output_idx c = -1) hs outs ->
  exists hs' K count blocks,
    join_classes junk num_hosts hs = Ok (hs', K, count)
    /\ join_mode_finish cl junk num_hosts hs k
       = Ok (hs',
             emit ([NL] ++ lit "finished with " ++ magenta cl ++ print_int K
                   ++ reset cl ++ lit " unique result" ++ pluralize K
                   ++ [NL; NL] ++ concat blocks) k)
    /\ Forall2 (fun i block =>
         exists ms s,
           class_members hs' (Z.of_nat i) = Ok ms /\ ms <> []
           /\ (forall j, j ∈ ms -> outs !! j = Some s)
           /\ block = class_block cl num_hosts hs' (Z.of_nat (length ms))
                        ms s
           /\ exists pre, block = pre ++ [NL; NL])
         (seq 0 (Z.to_nat K)) blocks.
Proof.
  intros Hnum Hne Hall.
  destruct (join_classes_run junk num_hosts hs outs Hnum Hne Hall)
    as (hs' & K & count & Hrun & Hc' & He & Hl' & Hlen & Hinv' & HK1 & Hin
        & Hsizes).
  destruct Hinv' as (HK & Hbefore & Hrange & Hsame & Hfirst & Hevery).
  assert (forall c, 0 <= c < K ->
            exists k, (k < length hs')%nat /\ cls hs' k = c) as Hevery'.
  { intros c Hcr. destruct (Hevery c Hcr) as (k0 & ? & ?).
    exists k0. split; [lia | done]. }
  destruct (print_classes_spec cl num_hosts outs hs' K count Hc'
              Hsame Hevery' Hsizes
              (Z.to_nat K) 0
              (emit (lit "finished with " ++ magenta cl ++ print_int K
                     ++ reset cl ++ lit " unique result" ++ pluralize K
                     ++ [NL; NL]) (emit [NL] k)) ltac:(lia))
    as (blocks & Hprint & Hblocks).
  exists hs', K, count, blocks. split; [done|]. split.
  - unfold join_mode_finish. rewrite Hrun. cbn [bind].
    rewrite Hprint. cbn [bind]. rewrite !emit_emit.
    do 2 f_equal. by rewrite <- !app_assoc.
  - eapply Forall2_impl; [exact Hblocks|].
    intros i block (ms & s & Hms & Hmne & Hs & ->).
    exists ms, s. split; [done|]. split; [done|]. split; [done|].
    split; [done|].
    unfold class_block. do 12 apply ends_app. apply block_tail.
Qed.

(** The report on three hosts whose children wrote [x\n], [y\n] and
    [x\n]. *)
Lemma join_mode_finish_report_witness :
  exists hs' k',
    join_mode_finish colors_off junk_ints 3 roster_x_y_x console_init
    = Ok (hs', k')
    /\ out k'
       = [NL] ++ lit "finished with 2 unique results" ++ [NL; NL]
         ++ lit "hosts (2/3): a c" ++ [NL] ++ lit "x" ++ [NL; NL]
         ++ lit "hosts (1/3): b" ++ [NL] ++ lit "y" ++ [NL; NL].
Proof.
  destruct (join_mode_finish_report colors_off junk_ints 3 roster_x_y_x
              [lit "x" ++ [NL]; lit "y" ++ [NL]; lit "x" ++ [NL]]
              console_init)
    as (hs' & K & count & blocks & _ & Hfin & _).
  - reflexivity.
  - discriminate.
  - repeat constructor; eexists _, _; repeat split; reflexivity.
  - destruct (join_mode_finish colors_off junk_ints 3 roster_x_y_x
                console_init) as [[hs1 k1]| | |] eqn:Hcomp;
      [|discriminate Hfin..].
    exists hs1, k1. split; [reflexivity|].
    vm_compute in Hcomp. injection Hcomp as _ <-. reflexivity.
Defined.

(** ** The trace of the main loop *)

Section Trace.
Variables (g : Globals) (num_hosts : Z).

(** What an admission does to the roster and to the trace. *)
Lemma admit_host_shape a s s' :
  admit_host g a s = Ok s' ->
  exists h c,
    hosts (world s) !! cur_host s = Some h /\ cp h = None
    /\ 0 < pid c /\ exit_code c = -1
    /\ hosts (world s')
       = <[cur_host s :=
             mkHost (if trim (opts g)
                     then (lsplit_str (name h) "."%byte).1 else name h)
               (Some c)]> (hosts (world s))
    /\ actions (world s')
       = actions (world s) ++ [Forked (cur_host s) (pid c)]
    /\ console (world s') = console (world s)
    /\ cur_host s' = S (cur_host s) /\ pc s' = Launching
    /\ outstanding s' = outstanding s + 1 /\ done s' = done s.
Proof.
  intros H. unfold admit_host in H.
  apply bind_Ok in H as (w1 & Hspawn & H).
  apply bind_Ok in H as (w2 & Htrim & H).
  apply bind_Ok in H as (w3 & Hreg & H). injection H as <-. cbn [world].
  set (hi := cur_host s) in *.
  unfold spawn_child_process in Hspawn.
  destruct (hosts (world s) !! hi) as [h|] eqn:Hh; [|done].
  apply bind_Ok in Hspawn as ([] & Hnone%assert_Ok%bool_decide_eq_true
                              & Hspawn).
  apply bind_Ok in Hspawn as (? & _ & Hspawn).
  apply bind_Ok in Hspawn as ([] & _ & Hspawn).
  destruct (adm_fork a) as [p|]; [|done].
  apply bind_Ok in Hspawn as (tm & _ & Hspawn). injection Hspawn as <-.
  match type of Htrim with
  | context [set_cp (Some ?c0) h] => set (c := c0) in *
  end.
  assert (hi < length (hosts (world s)))%nat as Hlt
    by (by eapply lookup_lt_Some).
  assert (hosts w2
          = <[hi := mkHost (if trim (opts g)
                            then (lsplit_str (name h) "."%byte).1
                            else name h) (Some c)]> (hosts (world s))
          /\ actions w2 = actions (world s) ++ [Forked hi (pid c)]
          /\ console w2 = console (world s)) as (Hh2 & Ha2 & Hk2).
  { destruct (trim (opts g)).
    - cbn [log set_hosts hosts] in Htrim.
      rewrite list_lookup_insert_eq in Htrim by done.
      injection Htrim as <-. cbn [set_hosts hosts actions console].
      by rewrite list_insert_insert_eq.
    - injection Htrim as <-. cbn [log set_hosts hosts actions console].
      by destruct h. }
  assert (hosts w3 = hosts w2 /\ actions w3 = actions w2
          /\ console w3 = console w2) as (Hh3 & Ha3 & Hk3).
  { unfold register_child_process_fds in Hreg. destruct (mode (opts g)).
    - apply bind_Ok in Hreg as (w' & Hr1 & Hr2).
      apply register_child_process_fd_inv in Hr1
        as (? & ? & ? & _ & _ & _ & _ & _ & _ & _ & ->).
      apply register_child_process_fd_inv in Hr2
        as (? & ? & ? & _ & _ & _ & _ & _ & _ & _ & ->). done.
    - apply bind_Ok in Hreg as (w' & Hr1 & Hr2).
      apply register_child_process_fd_inv in Hr1
        as (? & ? & ? & _ & _ & _ & _ & _ & _ & _ & ->).
      apply register_child_process_fd_inv in Hr2
        as (? & ? & ? & _ & _ & _ & _ & _ & _ & _ & ->). done.
    - apply register_child_process_fd_inv in Hreg
        as (? & ? & ? & _ & _ & _ & _ & _ & _ & _ & ->). done. }
  exists h, c. split; [done|]. split; [done|].
  split; [unfold c; cbn; lia|]. split; [by destruct (mode (opts g))|].
  rewrite Hh3, Ha3, Hk3. done.
Qed.

(** [WEXITSTATUS] is a byte. *)
Lemma WEXITSTATUS_range (status : Z) : 0 <= WEXITSTATUS status <= 255.
Proof.
  unfold WEXITSTATUS. rewrite Z.shiftr_land.
  change (Z.shiftr 65280 8) with (Z.ones 8).
  rewrite Z.land_ones by lia.
  pose proof (Z.mod_pos_bound (Z.shiftr status 8) (2 ^ 8) ltac:(lia)). lia.
Qed.

(** What a turn of the dispatch loop does to the roster and to the trace:
    nothing, or the end of the file of a pipe of a running child, or that
    and the reaping of the child. *)
Lemma dispatch_shape r s s' :
  engine_inv g (hosts (world s)) (watch (world s)) (actions (world s))
    (cur_host s) (outstanding s) (done s) ->
  dispatch g num_hosts r s = Ok s' ->
  cur_host s' = cur_host s /\ pc s' = pc s
  /\ exists hi h c,
       hosts (world s) !! hi = Some h /\ cp h = Some c /\ 0 < pid c
       /\ (hi < cur_host s)%nat
       /\ ((hosts (world s') = hosts (world s)
            /\ actions (world s') = actions (world s))
           \/ (exists c' t d,
                 pid c' = pid c /\ exit_code c' = exit_code c
                 /\ hosts (world s')
                    = <[hi := set_cp (Some c') h]> (hosts (world s))
                 /\ actions (world s')
                    = actions (world s) ++ [Closed hi t d])
           \/ (exists c' t d status,
                 pid c' = -2 /\ exit_code c' = WEXITSTATUS status
                 /\ hosts (world s')
                    = <[hi := set_cp (Some c') h]> (hosts (world s))
                 /\ actions (world s')
                    = actions (world s)
                      ++ [Closed hi t d; Reaped hi (pid c)]
                 /\ rdy_wait r = Some status)).
Proof.
  intros Hinv Hd. unfold dispatch in Hd.
  apply bind_Ok in Hd as ([[w1 closed] hi] & Hread & Hd).
  destruct Hinv as (H1 & H2 & H3 & H4 & _).
  unfold read_active_fd in Hread.
  destruct (watch (world s) !! rdy_fd r) as [fdev|] eqn:Hw; [|done].
  destruct (hosts (world s) !! host fdev) as [h|] eqn:Hh; [|done].
  destruct (cp h) as [c|] eqn:Hc; [|done].
  assert (host fdev < cur_host s)%nat as Hlt.
  { destruct (decide (host fdev < cur_host s)%nat) as [|Hge]; [done|].
    rewrite (H2 _ _ Hh) in Hc by lia. done. }
  assert (0 < pid c) as Hpid.
  { destruct (H3 _ _ Hh Hlt) as (c0 & Hc0 & _ & _ & Hp).
    rewrite Hc in Hc0. injection Hc0 as <-.
    destruct Hp as [[_ Hall]|Hp]; [|done].
    destruct (H4 _ _ Hw) as (_ & Hpos & Hty & h0 & c0 & Hh0 & Hc0 & Hfd).
    rewrite Hh in Hh0. injection Hh0 as <-.
    rewrite Hc in Hc0. injection Hc0 as <-.
    specialize (Hall _ Hty). lia. }
  apply bind_Ok in Hread as ([[fdev1 k1] eof] & Hloop & Hread).
  assert (host fdev < length (hosts (world s)))%nat as Hlen
    by (by eapply lookup_lt_Some).
  destruct eof.
  - apply bind_Ok in Hread as ([[fdev2 k2] handed] & Heof & Hread).
    injection Hread as <- <- <-. cbn [hosts] in Hd.
    rewrite list_lookup_insert_eq in Hd by done. cbn [set_cp cp] in Hd.
    match type of Hd with
    | context [child_process_stdio_done ?c0] => set (c1 := c0) in *
    end.
    assert (pid c1 = pid c /\ exit_code c1 = exit_code c) as [Hp1 He1].
    { unfold c1. destruct handed, (type fdev1); done. }
    cbn [andb] in Hd.
    destruct (child_process_stdio_done c1).
    + apply bind_Ok in Hd as (w2 & Hwait & Hd). injection Hd as <-.
      cbn [cur_host pc world]. split; [done|]. split; [done|].
      exists (host fdev), h, c. split; [done|]. split; [done|].
      split; [done|]. split; [done|]. right. right.
      unfold wait_for_child in Hwait. cbn [hosts] in Hwait.
      rewrite list_lookup_insert_eq in Hwait by done.
      cbn [set_cp cp] in Hwait.
      destruct (rdy_wait r) as [status|] eqn:Hstatus; [|done].
      apply bind_Ok in Hwait as (tm & _ & Hwait).
      eexists _, (type fdev1), _, status.
      assert (hosts w2
              = <[host fdev :=
                    set_cp (Some (mkChildProcess (-2) (stdout_fd c1)
                                    (stderr_fd c1) (stdio_fd c1) (output c1)
                                    (output_idx c1) (WEXITSTATUS status)
                                    (started_time c1) tm)) h]>
                  (hosts (world s))
              /\ actions w2
                 = actions (world s)
                   ++ [Closed (host fdev) (type fdev1)
                         (cp_fd (type fdev1) c);
                       Reaped (host fdev) (pid c)]) as [Hh2 Ha2].
      { destruct (exit_codes (opts g) || debug (opts g));
          injection Hwait as <-;
          cbn [log set_hosts set_console hosts actions set_cp name];
          rewrite list_insert_insert_eq, <- app_assoc, Hp1; done. }
      split; [|split; [|split; [|split]]]; cycle 2.
      * destruct (decide (mode (opts g) = MODE_JOIN)); cbn; exact Hh2.
      * destruct (decide (mode (opts g) = MODE_JOIN)); cbn; exact Ha2.
      * done.
      * done.
      * done.
    + injection Hd as <-. cbn [cur_host pc world hosts actions].
      split; [done|]. split; [done|].
      exists (host fdev), h, c. split; [done|]. split; [done|].
      split; [done|]. split; [done|]. right. left.
      by exists c1, (type fdev1), (cp_fd (type fdev1) c).
  - injection Hread as <- <- <-. cbn [hosts] in Hd.
    rewrite Hh, Hc in Hd. cbn [andb] in Hd. injection Hd as <-.
    cbn [cur_host pc world hosts actions].
    split; [done|]. split; [done|].
    exists (host fdev), h, c. split; [done|]. split; [done|].
    split; [done|]. split; [done|]. by left.
Qed.
End Trace.

(** ** Induction on the run of the main loop *)

Section Reached.
Variables (g : Globals) (num_hosts : Z) (names : list (list byte)).
Hypothesis Hjobs : 0 <= max_jobs (opts g).

(** A property of the states of the main loop that holds when the loop is
    entered and is kept by an admission, by a turn of the dispatch loop
    and by the moves between them holds in every state the loop reaches. *)
Lemma main_loop_reached (P : Loop -> Prop) :
  P (main_loop_enter g num_hosts (map host_create names)) ->
  (forall p s, loop_inv g s -> P s -> P (set_pc p s)) ->
  (forall a s s', loop_inv g s -> P s ->
     outstanding s < max_jobs (opts g) ->
     admit_host g a s = Ok s' -> P s') ->
  (forall r s s', loop_inv g s -> P s ->
     dispatch g num_hosts r s = Ok s' -> P s') ->
  forall ins s,
    main_loop g num_hosts (map host_create names) ins = Ok s -> P s.
Proof.
  intros Henter Hpc Hadmit Hdispatch ins s Hrun. unfold main_loop in Hrun.
  pose proof (main_loop_enter_inv g num_hosts names Hjobs) as Hinv.
  revert Hrun Henter Hinv.
  generalize (main_loop_enter g num_hosts (map host_create names)).
  induction ins as [|i ins IH]; intros s0 Hrun HP Hinv; cbn [run] in Hrun.
  - by injection Hrun as <-.
  - apply bind_Ok in Hrun as (s1 & Hstep & Hrun).
    apply (IH s1 Hrun); [|by eapply step_keeps].
    unfold step in Hstep. destruct (pc s0) as [| | |evs|] eqn:Hp.
    + case_decide.
      * apply bind_Ok in Hstep as (? & _ & Hstep). injection Hstep as <-.
        by apply Hpc.
      * injection Hstep as <-. by apply Hpc.
    + case_decide as Hroom.
      * eapply Hadmit; [done|done| |done]. lia.
      * injection Hstep as <-. by apply Hpc.
    + destruct (in_events i); [|done]. injection Hstep as <-. by apply Hpc.
    + destruct evs as [|r evs].
      * injection Hstep as <-. by apply Hpc.
      * apply bind_Ok in Hstep as (s2 & Hd & Hstep). injection Hstep as <-.
        assert (loop_inv g s2) as Hinv2.
        { pose proof Hinv as (He & Hf & Hr & Hsum & _).
          destruct (dispatch_keeps g num_hosts r s0 s2 He Hd)
            as (He1 & Hpc1 & Hcur1 & Hf1 & Hr1 & Hsum1).
          split; [done|]. split; [lia|]. split; [lia|]. split; [lia|].
          intros Hr2. rewrite Hpc1, Hp in Hr2. done. }
        apply Hpc; [done|]. by apply (Hdispatch r s0 s2).
    + by injection Hstep as <-.
Qed.
End Reached.

(** ** The order of the forks *)

Lemma forked_hosts_app (l1 l2 : list Action) :
  forked_hosts (l1 ++ l2) = forked_hosts l1 ++ forked_hosts l2.
Proof.
  induction l1 as [|a l1 IH]; [done|]. cbn [app forked_hosts].
  destruct a; by rewrite ?IH.
Qed.

(** The hosts forked are the hosts before the cursor. *)
Lemma forked_hosts_reached g num_hosts names ins s :
  0 <= max_jobs (opts g) ->
  main_loop g num_hosts (map host_create names) ins = Ok s ->
  forked_hosts (actions (world s)) = seq 0 (cur_host s).
Proof.
  intros Hjobs. revert ins s.
  apply (main_loop_reached g num_hosts names Hjobs
           (fun s => forked_hosts (actions (world s))
                     = seq 0 (cur_host s))).
  - done.
  - done.
  - intros a s s' _ HP _ Hadm.
    apply admit_host_shape in Hadm
      as (h & c & _ & _ & _ & _ & _ & -> & _ & -> & _).
    rewrite forked_hosts_app, HP, seq_S. done.
  - intros r s s' [He _] HP Hd.
    destruct (dispatch_shape g num_hosts r s s' He Hd)
      as (-> & _ & hi & h & c & _ & _ & _ & _
          & [[_ ->]|[(? & ? & ? & _ & _ & _ & ->)
                    |(? & ? & ? & ? & _ & _ & _ & -> & _)]]);
      rewrite ?forked_hosts_app; cbn [forked_hosts];
      by rewrite ?app_nil_r.
Qed.

(** X10: the main loop forks the children in the order of the roster, one
    per host and none twice: in every state it reaches the hosts forked so
    far are the hosts before the cursor, and when it has returned they are
    all the hosts of the roster. *)
Theorem forks_follow_roster g num_hosts names ins s :
  0 <= max_jobs (opts g) ->
  main_loop g num_hosts (map host_create names) ins = Ok s ->
  forked_hosts (actions (world s)) = seq 0 (cur_host s)
  /\ (cur_host s <= length names)%nat
  /\ (pc s = Returned ->
      forked_hosts (actions (world s)) = seq 0 (length names)).
Proof.
  intros Hjobs Hrun.
  pose proof (forked_hosts_reached g num_hosts names ins s Hjobs Hrun)
    as Hseq.
  pose proof (main_loop_inv g num_hosts names ins s Hjobs Hrun)
    as ((Hcur & _) & _ & _ & _ & Hret).
  pose proof (main_loop_roster_length g num_hosts names ins s Hjobs Hrun)
    as Hlen.
  split; [done|]. split; [lia|].
  intros Hpc. destruct (Hret Hpc) as [Hall _]. by rewrite Hseq, Hall, Hlen.
Qed.

(** The run on two hosts with a cap of one job. *)
Lemma forks_follow_roster_witness :
  exists s,
    main_loop globals_cap1 2 (map host_create [lit "a"; lit "b"])
      inputs_two_hosts = Ok s
    /\ forked_hosts (actions (world s)) = [0; 1]%nat.
Proof.
  destruct (main_loop globals_cap1 2 (map host_create [lit "a"; lit "b"])
              inputs_two_hosts) as [s| | |] eqn:Hrun;
    [|by vm_compute in Hrun..].
  exists s. split; [reflexivity|].
  destruct (forks_follow_roster globals_cap1 2 [lit "a"; lit "b"]
              inputs_two_hosts s) as (_ & _ & Hall).
  - vm_compute. discriminate.
  - exact Hrun.
  - apply Hall. vm_compute in Hrun. by injection Hrun as <-.
Defined.

(** ** The trace is in order *)

(** A property of every action of a trace and of the actions before it
    holds of a trace with an action more when it holds of that action. *)
Lemma trace_snoc (Q : list Action -> Action -> Prop) (l : list Action)
    (x : Action) :
  (forall pre post y, l = pre ++ y :: post -> Q pre y) -> Q l x ->
  forall pre post y, l ++ [x] = pre ++ y :: post -> Q pre y.
Proof.
  intros Hl Hx pre post y Hsplit.
  apply snoc_split in Hsplit as [(_ & -> & ->)|(post' & _ & ->)]; [done|].
  by eapply Hl.
Qed.

Lemma forked_hosts_elem (l : list Action) j p :
  Forked j p ∈ l -> j ∈ forked_hosts l.
Proof.
  induction l as [|a l IH]; intros Hin; [by apply elem_of_nil in Hin|].
  apply elem_of_cons in Hin as [<-|Hin]; [by left|].
  destruct a; cbn [forked_hosts]; [right|..]; by apply IH.
Qed.

(** X11: the trace of the main loop is in order.  A host is forked once at
    most; a pipe is closed only for a host that was forked; and the reaper
    waits for the pid that [fork] returned for that host.  The pid of a
    running child is the one [fork] returned for its host. *)
Theorem trace_in_order g num_hosts names ins s :
  0 <= max_jobs (opts g) ->
  main_loop g num_hosts (map host_create names) ins = Ok s ->
  (forall pre post y, actions (world s) = pre ++ y :: post ->
     action_in_order pre y)
  /\ (forall j h c, hosts (world s) !! j = Some h -> cp h = Some c ->
        0 < pid c -> Forked j (pid c) ∈ actions (world s)).
Proof.
  intros Hjobs Hrun.
  cut (forked_hosts (actions (world s)) = seq 0 (cur_host s)
       /\ (forall pre post y, actions (world s) = pre ++ y :: post ->
             action_in_order pre y)
       /\ (forall j h c, hosts (world s) !! j = Some h -> cp h = Some c ->
             0 < pid c -> Forked j (pid c) ∈ actions (world s))).
  { intros (_ & ? & ?). done. }
  revert ins s Hrun.
  apply (main_loop_reached g num_hosts names Hjobs
           (fun s =>
              forked_hosts (actions (world s)) = seq 0 (cur_host s)
              /\ (forall pre post y, actions (world s) = pre ++ y :: post ->
                    action_in_order pre y)
              /\ (forall j h c, hosts (world s) !! j = Some h ->
                    cp h = Some c -> 0 < pid c ->
                    Forked j (pid c) ∈ actions (world s)))).
  - split; [done|]. split.
    + intros pre post y Hnil. by destruct pre.
    + cbn [main_loop_enter world hosts]. intros j h c Hj Hc.
      rewrite list_lookup_fmap in Hj. destruct (names !! j); by simplify_eq/=.
  - done.
  - intros a s s' _ (Hseq & Horder & Hpids) _ Hadm.
    apply admit_host_shape in Hadm
      as (h & c & Hh & _ & Hpid & _ & -> & -> & _ & -> & _).
    split; [by rewrite forked_hosts_app, Hseq, seq_S|]. split.
    + apply trace_snoc; [done|]. cbn [action_in_order].
      intros p Hp. apply forked_hosts_elem in Hp. rewrite Hseq in Hp.
      apply elem_of_seq in Hp. lia.
    + intros j h' c' Hj Hc' Hp'. apply elem_of_app.
      apply list_lookup_insert_Some in Hj as [(<- & <- & _)|[Hne Hj]].
      * right. cbn [cp] in Hc'. injection Hc' as <-. by left.
      * left. by eapply Hpids.
  - intros r s s' [He _] (Hseq & Horder & Hpids) Hd.
    destruct (dispatch_shape g num_hosts r s s' He Hd)
      as (-> & _ & hi & h & c & Hh & Hc & Hpid & _
          & [[-> ->]|[(c' & t & d & Hp' & _ & -> & ->)
                     |(c' & t & d & st & Hp' & _ & -> & -> & _)]]).
    + done.
    + split; [rewrite forked_hosts_app; cbn; by rewrite app_nil_r|]. split.
      * apply trace_snoc; [done|]. cbn [action_in_order].
        exists (pid c). by eapply Hpids.
      * intros j h' c1 Hj Hc1 Hp1. apply elem_of_app. left.
        apply list_lookup_insert_Some in Hj as [(<- & <- & _)|[Hne Hj]].
        -- cbn [set_cp cp] in Hc1. injection Hc1 as <-. rewrite Hp'.
           by eapply Hpids.
        -- by eapply Hpids.
    + split; [rewrite forked_hosts_app; cbn; by rewrite app_nil_r|]. split.
      * change [Closed hi t d; Reaped hi (pid c)]
          with ([Closed hi t d] ++ [Reaped hi (pid c)]).
        rewrite app_assoc. apply trace_snoc.
        -- apply trace_snoc; [done|]. cbn [action_in_order].
           exists (pid c). by eapply Hpids.
        -- cbn [action_in_order]. apply elem_of_app. left. by eapply Hpids.
      * intros j h' c1 Hj Hc1 Hp1. apply elem_of_app. left.
        apply list_lookup_insert_Some in Hj as [(<- & <- & _)|[Hne Hj]].
        -- cbn [set_cp cp] in Hc1. injection Hc1 as <-. lia.
        -- by eapply Hpids.
Qed.

(** The run on two hosts with a cap of one job: the second action of the
    trace and the last. *)
Lemma trace_in_order_witness :
  exists s,
    main_loop globals_cap1 2 (map host_create [lit "a"; lit "b"])
      inputs_two_hosts = Ok s
    /\ action_in_order [Forked 0 100] (Closed 0 PIPE_STDOUT 5)
    /\ action_in_order
         [Forked 0 100; Closed 0 PIPE_STDOUT 5; Closed 0 PIPE_STDERR 6;
          Reaped 0 100; Forked 1 101; Closed 1 PIPE_STDERR 6;
          Closed 1 PIPE_STDOUT 5] (Reaped 1 101).
Proof.
  destruct (main_loop globals_cap1 2 (map host_create [lit "a"; lit "b"])
              inputs_two_hosts) as [s| | |] eqn:Hrun;
    [|by vm_compute in Hrun..].
  exists s. split; [reflexivity|].
  destruct (trace_in_order globals_cap1 2 [lit "a"; lit "b"]
              inputs_two_hosts s) as [Horder _].
  - vm_compute. discriminate.
  - exact Hrun.
  - vm_compute in Hrun. injection Hrun as <-. cbn [world actions] in Horder.
    split.
    + apply (Horder [Forked 0 100]
               [Closed 0 PIPE_STDERR 6; Reaped 0 100; Forked 1 101;
                Closed 1 PIPE_STDERR 6; Closed 1 PIPE_STDOUT 5;
                Reaped 1 101]). reflexivity.
    + apply (Horder _ []). reflexivity.
Defined.

(** ** The state the main loop returns in *)

(** When the loop has returned every host has a child that is reaped,
    with every pipe of the mode closed. *)
Lemma returned_all_reaped g num_hosts names ins s :
  0 <= max_jobs (opts g) ->
  main_loop g num_hosts (map host_create names) ins = Ok s ->
  pc s = Returned ->
  forall j h, hosts (world s) !! j = Some h ->
    exists c, cp h = Some c /\ pid c = -2
              /\ child_ok (mode (opts g)) (watch (world s)) j c
              /\ forall t, t ∈ pipes_of (mode (opts g)) -> cp_fd t c = -2.
Proof.
  intros Hjobs Hrun Hpc j h Hj.
  destruct (main_loop_inv g num_hosts names ins s Hjobs Hrun)
    as (He & _ & _ & _ & Hret).
  destruct (Hret Hpc) as [Hcur Hout].
  destruct He as (_ & _ & H3 & _ & H5 & _).
  assert (j < cur_host s)%nat as Hlt
    by (rewrite Hcur; by eapply lookup_lt_Some).
  destruct (H3 _ _ Hj Hlt) as (c & Hc & Hok).
  exists c. split; [done|].
  assert (running h = false) as Hrun'.
  { destruct (running h) eqn:Hr; [|done]. exfalso.
    pose proof (count_hosts_pos running (hosts (world s)) h
                  ltac:(by eapply list_elem_of_lookup_2) Hr).
    lia. }
  unfold running in Hrun'. rewrite Hc in Hrun'.
  apply bool_decide_eq_false in Hrun'.
  pose proof Hok as (Hother & Hreg & Hp).
  destruct Hp as [[Hp Hall]|Hp]; [|exfalso; apply Hrun'; lia].
  split; [done|]. split; done.
Qed.

(** [WEXITSTATUS] is the second byte of the status. *)
Lemma WEXITSTATUS_byte (status : Z) :
  WEXITSTATUS status = (status / 256) mod 256.
Proof.
  unfold WEXITSTATUS. rewrite Z.shiftr_land.
  change (Z.shiftr 65280 8) with (Z.ones 8).
  rewrite Z.land_ones by lia. rewrite Z.shiftr_div_pow2 by lia. done.
Qed.

(** A step that leaves a host reaped found it reaped and left it alone, or
    is the turn of the dispatch loop that reaps it, with the exit code of
    the status [waitpid] stored. *)
Lemma step_reaps g num_hosts i s s' j h h' c' :
  loop_inv g s ->
  step g num_hosts i s = Ok s' ->
  hosts (world s) !! j = Some h -> hosts (world s') !! j = Some h' ->
  cp h' = Some c' -> pid c' = -2 ->
  h' = h
  \/ (running h = true
      /\ exists r evs status,
           pc s = Dispatching (r :: evs) /\ rdy_wait r = Some status
           /\ exit_code c' = (status / 256) mod 256).
Proof.
  intros [He _] Hstep Hj Hj' Hc' Hp'. unfold step in Hstep.
  assert (hosts (world s') = hosts (world s) -> h' = h) as Hsame.
  { intros Heq. rewrite Heq, Hj in Hj'. by injection Hj'. }
  destruct (pc s) as [| | |[|r evs]|] eqn:Hpc.
  - left. apply Hsame. case_decide; [|by injection Hstep as <-].
    apply bind_Ok in Hstep as (? & _ & Hstep). by injection Hstep as <-.
  - case_decide; [|left; apply Hsame; by injection Hstep as <-].
    apply admit_host_shape in Hstep
      as (h0 & c0 & _ & _ & Hpid & _ & Hhosts & _).
    rewrite Hhosts in Hj'.
    apply list_lookup_insert_Some in Hj' as [(_ & <- & _)|[_ Hj']].
    + cbn [cp] in Hc'. injection Hc' as <-. lia.
    + left. rewrite Hj in Hj'. by injection Hj'.
  - left. apply Hsame. destruct (in_events i); [|done].
    by injection Hstep as <-.
  - left. apply Hsame. by injection Hstep as <-.
  - apply bind_Ok in Hstep as (s1 & Hd & Hstep). injection Hstep as <-.
    cbn [set_pc world] in Hj'.
    destruct (dispatch_shape g num_hosts r s s1 He Hd)
      as (_ & _ & hi & h0 & c0 & Hh0 & Hc0 & Hpid & _
          & [[Hhosts _]|[(c1 & t & d & Hp1 & _ & Hhosts & _)
                        |(c1 & t & d & st & _ & He1 & Hhosts & _ & Hst)]]).
    + left. rewrite Hhosts, Hj in Hj'. by injection Hj'.
    + rewrite Hhosts in Hj'.
      apply list_lookup_insert_Some in Hj' as [(_ & <- & _)|[_ Hj']].
      * cbn [set_cp cp] in Hc'. injection Hc' as <-. lia.
      * left. rewrite Hj in Hj'. by injection Hj'.
    + rewrite Hhosts in Hj'.
      apply list_lookup_insert_Some in Hj' as [(<- & <- & _)|[_ Hj']].
      * right. rewrite Hh0 in Hj. injection Hj as <-. split.
        { unfold running. rewrite Hc0. apply bool_decide_eq_true. lia. }
        exists r, evs, st. split; [done|]. split; [done|].
        cbn [set_cp cp] in Hc'. injection Hc' as <-.
        by rewrite He1, WEXITSTATUS_byte.
      * left. rewrite Hj in Hj'. by injection Hj'.
  - left. apply Hsame. by injection Hstep as <-.
Qed.

(** X12: a child has the exit code -1 as long as it runs and an exit code
    from 0 to 255 once it is reaped: the step that reaps it is a turn of
    the dispatch loop, which stores the second byte of the status that
    [waitpid] returned, [(status / 256) mod 256], and no later step
    changes a host that is reaped.  When the main loop has returned no
    descriptor is left in the interest list, no child is outstanding,
    [done] is the number of hosts, and every host has a reaped child with
    its pipes closed. *)
Theorem main_loop_returns_clean g num_hosts names ins s :
  0 <= max_jobs (opts g) ->
  main_loop g num_hosts (map host_create names) ins = Ok s ->
  (forall j h c, hosts (world s) !! j = Some h -> cp h = Some c ->
     (0 < pid c /\ exit_code c = -1)
     \/ (pid c = -2 /\ 0 <= exit_code c <= 255))
  /\ (forall i s' j h h' c',
        step g num_hosts i s = Ok s' ->
        hosts (world s) !! j = Some h -> hosts (world s') !! j = Some h' ->
        cp h' = Some c' -> pid c' = -2 ->
        h' = h
        \/ (running h = true
            /\ exists r evs status,
                 pc s = Dispatching (r :: evs) /\ rdy_wait r = Some status
                 /\ exit_code c' = (status / 256) mod 256))
  /\ (pc s = Returned ->
      watch (world s) = ∅
      /\ outstanding s = 0
      /\ done s = Z.of_nat (length names)
      /\ Forall (fun h =>
           exists c, cp h = Some c /\ pid c = -2
                     /\ child_process_stdio_done c = true
                     /\ 0 <= exit_code c <= 255) (hosts (world s))).
Proof.
  intros Hjobs Hrun.
  assert (forall j h c, hosts (world s) !! j = Some h -> cp h = Some c ->
            (0 < pid c /\ exit_code c = -1)
            \/ (pid c = -2 /\ 0 <= exit_code c <= 255)) as Hcodes.
  { revert ins s Hrun.
    apply (main_loop_reached g num_hosts names Hjobs
             (fun s => forall j h c,
                hosts (world s) !! j = Some h -> cp h = Some c ->
                (0 < pid c /\ exit_code c = -1)
                \/ (pid c = -2 /\ 0 <= exit_code c <= 255))).
    - cbn [main_loop_enter world hosts]. intros j h c Hj Hc.
      rewrite list_lookup_fmap in Hj. destruct (names !! j); by simplify_eq/=.
    - done.
    - intros a s s' _ HP _ Hadm.
      apply admit_host_shape in Hadm
        as (h & c & Hh & _ & Hpid & Hcode & -> & _).
      intros j h' c' Hj Hc'.
      apply list_lookup_insert_Some in Hj as [(<- & <- & _)|[Hne Hj]];
        [|by eapply HP].
      cbn [cp] in Hc'. injection Hc' as <-. by left.
    - intros r s s' [He _] HP Hd.
      destruct (dispatch_shape g num_hosts r s s' He Hd)
        as (_ & _ & hi & h & c & Hh & Hc & Hpid & _
            & [[-> _]|[(c' & t & d & Hp' & He' & -> & _)
                      |(c' & t & d & st & Hp' & He' & -> & _)]]);
        [done| |]; intros j h' c1 Hj Hc1;
        (apply list_lookup_insert_Some in Hj as [(<- & <- & _)|[Hne Hj]];
         [|by eapply HP]);
        cbn [set_cp cp] in Hc1; injection Hc1 as <-.
      + rewrite Hp', He'. by eapply HP.
      + right. split; [done|]. rewrite He'. apply WEXITSTATUS_range. }
  split; [done|]. split.
  { intros i s' j h h' c' Hstep. apply (step_reaps g num_hosts i s s');
      [by eapply main_loop_inv | done]. }
  intros Hpc.
  pose proof (returned_all_reaped g num_hosts names ins s Hjobs Hrun Hpc)
    as Hall.
  destruct (main_loop_inv g num_hosts names ins s Hjobs Hrun)
    as (He & _ & _ & Hsum & Hret).
  destruct (Hret Hpc) as [Hcur Hout].
  pose proof (main_loop_roster_length g num_hosts names ins s Hjobs Hrun)
    as Hlen.
  destruct He as (_ & _ & _ & H4 & _).
  split; [|split; [done|split; [lia|]]].
  - apply map_empty. intros d.
    destruct (watch (world s) !! d) as [fdev|] eqn:Hd; [|done]. exfalso.
    destruct (H4 _ _ Hd) as (_ & Hpos & Hty & h & c & Hh & Hc & Hfd).
    destruct (Hall _ _ Hh) as (c0 & Hc0 & _ & _ & Hclosed).
    rewrite Hc in Hc0. injection Hc0 as <-.
    specialize (Hclosed _ Hty). lia.
  - apply Forall_lookup. intros j h Hj.
    destruct (Hall _ _ Hj) as (c & Hc & Hp & (Hother & _) & Hclosed).
    exists c. split; [done|]. split; [done|]. split.
    + by apply (child_process_stdio_done_iff (mode (opts g))).
    + destruct (Hcodes _ _ _ Hj Hc) as [[? _]|[_ ?]]; [lia | done].
Qed.

(** The run on two hosts with a cap of one job. *)
Lemma main_loop_returns_clean_witness :
  exists s,
    main_loop globals_cap1 2 (map host_create [lit "a"; lit "b"])
      inputs_two_hosts = Ok s
    /\ watch (world s) = ∅ /\ outstanding s = 0 /\ done s = 2.
Proof.
  destruct (main_loop globals_cap1 2 (map host_create [lit "a"; lit "b"])
              inputs_two_hosts) as [s| | |] eqn:Hrun;
    [|by vm_compute in Hrun..].
  exists s. split; [reflexivity|].
  destruct (main_loop_returns_clean globals_cap1 2 [lit "a"; lit "b"]
              inputs_two_hosts s) as (_ & _ & Hret).
  - vm_compute. discriminate.
  - exact Hrun.
  - destruct Hret as (Hw & Ho & Hd & _).
    + vm_compute in Hrun. by injection Hrun as <-.
    + split; [exact Hw|]. split; [exact Ho | exact Hd].
Defined.

(** ** The names of the hosts *)

Lemma lsplit_str_prefix (s : list byte) (c : byte) :
  (c ∉ (lsplit_str s c).1) /\ exists rest, s = (lsplit_str s c).1 ++ rest.
Proof.
  induction s as [|x s [IH1 [rest IH2]]]; cbn [lsplit_str].
  - split; [apply not_elem_of_nil | by exists []].
  - case_decide as Hx.
    + split; [apply not_elem_of_nil | by eexists].
    + destruct (lsplit_str s c) as [s' b]. cbn [fst] in *. split.
      * by apply not_elem_of_cons.
      * exists rest. by rewrite IH2 at 1.
Qed.

(** X13: the main loop changes the name of a host only with [-t], and
    then once, when the child of the host is forked: in every state the
    hosts before the cursor have the part of their roster name before its
    first dot, which is a prefix of the roster name without a dot, and the
    hosts from the cursor on have their roster name. *)
Theorem names_trimmed_at_admission g num_hosts names ins s :
  0 <= max_jobs (opts g) ->
  main_loop g num_hosts (map host_create names) ins = Ok s ->
  forall j n, names !! j = Some n ->
    exists h,
      hosts (world s) !! j = Some h
      /\ name h = (if decide (trim (opts g) = true /\ (j < cur_host s)%nat)
                   then (lsplit_str n "."%byte).1 else n)
      /\ ("."%byte ∉ (lsplit_str n "."%byte).1)
      /\ exists rest, n = (lsplit_str n "."%byte).1 ++ rest.
Proof.
  intros Hjobs Hrun j n Hn.
  cut (exists h,
         hosts (world s) !! j = Some h
         /\ name h = (if decide (trim (opts g) = true /\ (j < cur_host s)%nat)
                      then (lsplit_str n "."%byte).1 else n)).
  { intros (h & ? & ?). exists h. split; [done|]. split; [done|].
    apply lsplit_str_prefix. }
  revert ins s Hrun.
  apply (main_loop_reached g num_hosts names Hjobs
           (fun s => exists h,
              hosts (world s) !! j = Some h
              /\ name h
                 = (if decide (trim (opts g) = true /\ (j < cur_host s)%nat)
                    then (lsplit_str n "."%byte).1 else n))).
  - cbn [main_loop_enter world hosts cur_host].
    exists (host_create n). rewrite list_lookup_fmap, Hn.
    split; [done|]. rewrite decide_False by lia. done.
  - done.
  - intros a s s' _ (h & Hj & Hname) _ Hadm.
    apply admit_host_shape in Hadm
      as (h0 & c & Hh0 & _ & _ & _ & -> & _ & _ & -> & _).
    destruct (decide (j = cur_host s)) as [->|Hne].
    + rewrite Hh0 in Hj. injection Hj as <-.
      rewrite decide_False in Hname by lia. rewrite Hname.
      eexists. split.
      { apply list_lookup_insert_eq. by eapply lookup_lt_Some. }
      cbn [name]. destruct (trim (opts g)).
      * rewrite decide_True by (split; [done | lia]). done.
      * rewrite decide_False by (intros [? _]; done). done.
    + exists h. rewrite list_lookup_insert_ne by done. split; [done|].
      rewrite Hname. apply decide_ext. intuition lia.
  - intros r s s' [He _] (h & Hj & Hname) Hd.
    destruct (dispatch_shape g num_hosts r s s' He Hd)
      as (-> & _ & hi & h0 & c & Hh & Hc & Hpid & _
          & [[-> _]|[(c' & t & d & _ & _ & -> & _)
                    |(c' & t & d & st & _ & _ & -> & _)]]).
    + by exists h.
    + destruct (decide (j = hi)) as [->|Hne].
      * rewrite Hh in Hj. injection Hj as <-. eexists. split.
        { apply list_lookup_insert_eq. by eapply lookup_lt_Some. }
        done.
      * exists h. by rewrite list_lookup_insert_ne.
    + destruct (decide (j = hi)) as [->|Hne].
      * rewrite Hh in Hj. injection Hj as <-. eexists. split.
        { apply list_lookup_insert_eq. by eapply lookup_lt_Some. }
        done.
      * exists h. by rewrite list_lookup_insert_ne.
Qed.

(** [-t] on the host [web1.example.com]: the line of the child is printed
    under the name [web1]. *)
Lemma names_trimmed_at_admission_witness :
  exists s h,
    main_loop globals_trim 1 (map host_create [lit "web1.example.com"])
      inputs_one_host = Ok s
    /\ hosts (world s) !! 0%nat = Some h
    /\ name h = lit "web1"
    /\ out (console (world s)) = lit "[web1] x" ++ [NL].
Proof.
  destruct (main_loop globals_trim 1
              (map host_create [lit "web1.example.com"]) inputs_one_host)
    as [s| | |] eqn:Hrun; [|by vm_compute in Hrun..].
  destruct (names_trimmed_at_admission globals_trim 1
              [lit "web1.example.com"] inputs_one_host s
              ltac:(vm_compute; discriminate) Hrun 0%nat
              (lit "web1.example.com") eq_refl) as (h & Hh & Hname & _).
  exists s, h. split; [reflexivity|]. split; [exact Hh|].
  vm_compute in Hrun. injection Hrun as <-. split.
  - rewrite Hname. reflexivity.
  - reflexivity.
Defined.

(** ** What the main loop of join mode prints *)

Section JoinConsole.
Variables (g : Globals) (num_hosts : Z).
Hypothesis Hmode : mode (opts g) = MODE_JOIN.
Hypothesis Hcodes : exit_codes (opts g) = false.
Hypothesis Hdebug : debug (opts g) = false.

(** The reads of join mode print nothing. *)
Lemma read_loop_join_console cl h reads fin : forall fdev k fdev' k' eof,
  read_loop (opts g) cl h fdev k reads fin = Ok (fdev', k', eof) -> k' = k.
Proof.
  induction reads as [|buf reads IH]; intros fdev k fdev' k' eof Hrun;
    cbn [read_loop] in Hrun.
  - destruct fin; [| |done]; by injection Hrun as _ <- _.
  - case_decide; [by injection Hrun as _ <- _|].
    destruct (silent (opts g)); [by eapply IH|].
    apply bind_Ok in Hrun as ([fdev1 k1] & Hdata & Hrun).
    unfold process_data in Hdata. rewrite Hmode in Hdata.
    apply bind_Ok in Hdata as ([] & _ & Hdata).
    apply bind_Ok in Hdata as (fdev2 & _ & Hdata).
    injection Hdata as <- <-. by eapply IH.
Qed.

(** A turn of the dispatch loop prints nothing, or the progress line of
    the child it reaps. *)
Lemma dispatch_join_console r s s' :
  dispatch g num_hosts r s = Ok s' ->
  (done s' = done s /\ console (world s') = console (world s))
  \/ (done s' = done s + 1
      /\ console (world s')
         = emit (progress_line (colors g) (done s + 1) num_hosts
                 ++ (if decide (done s + 1 = num_hosts) then [NL] else []))
             (console (world s))).
Proof.
  intros Hd. unfold dispatch in Hd.
  apply bind_Ok in Hd as ([[w1 closed] hi] & Hread & Hd).
  assert (console w1 = console (world s)) as Hk1.
  { unfold read_active_fd in Hread.
    destruct (watch (world s) !! rdy_fd r) as [fdev|]; [|done].
    destruct (hosts (world s) !! host fdev) as [h|]; [|done].
    destruct (cp h) as [c|]; [|done].
    apply bind_Ok in Hread as ([[fdev1 k1] eof] & Hloop & Hread).
    apply read_loop_join_console in Hloop as ->.
    destruct eof.
    - apply bind_Ok in Hread as ([[fdev2 k2] handed] & Heof & Hread).
      injection Hread as <- _ _. cbn [console].
      unfold process_eof in Heof. rewrite Hmode in Heof.
      apply bind_Ok in Heof as (fdev3 & _ & Heof). by injection Heof as _ <- _.
    - by injection Hread as <- _ _. }
  destruct (hosts w1 !! hi) as [h1|] eqn:Hh1; [|done].
  destruct (cp h1) as [c1|] eqn:Hc1; [|done].
  destruct (closed && child_process_stdio_done c1).
  - apply bind_Ok in Hd as (w2 & Hwait & Hd). injection Hd as <-.
    right. cbn [done world]. split; [done|].
    rewrite decide_True by done. cbn [set_console console].
    assert (console w2 = console w1) as ->.
    { unfold wait_for_child in Hwait. rewrite Hh1, Hc1 in Hwait.
      destruct (rdy_wait r); [|done].
      apply bind_Ok in Hwait as (tm & _ & Hwait).
      rewrite Hcodes, Hdebug in Hwait. by injection Hwait as <-. }
    rewrite Hk1. unfold print_progress_line, progress_line.
    case_decide; [by rewrite emit_emit | by rewrite app_nil_r].
  - injection Hd as <-. by left.
Qed.
End JoinConsole.

Lemma progress_report_S cl num_hosts tty (n : nat) :
  progress_report cl num_hosts tty (S n)
  = progress_report cl num_hosts tty n
    ++ progress_line cl (Z.of_nat (S n)) num_hosts
    ++ (if decide (Z.of_nat (S n) = num_hosts) then [NL] else []).
Proof.
  unfold progress_report. rewrite seq_S, map_app, concat_app.
  cbn [map concat Nat.add]. by rewrite app_nil_r, <- !app_assoc.
Qed.

(** X14: in join mode without [-e] and [-d] the main loop prints the
    progress lines and nothing else, so nothing a child writes reaches
    standard output before the report: in every state the loop reaches
    standard output has received the line for no child, if it is a
    terminal, then one line per child reaped so far, whether it is a
    terminal or not, and a newline after the line that counts all the
    hosts. *)
Theorem join_loop_prints_progress g num_hosts names ins s :
  mode (opts g) = MODE_JOIN ->
  exit_codes (opts g) = false -> debug (opts g) = false ->
  0 <= max_jobs (opts g) ->
  main_loop g num_hosts (map host_create names) ins = Ok s ->
  0 <= done s
  /\ console (world s)
     = emit (progress_report (colors g) num_hosts (stdout_isatty g)
               (Z.to_nat (done s))) console_init.
Proof.
  intros Hmode Hcodes Hdebug Hjobs. revert ins s.
  apply (main_loop_reached g num_hosts names Hjobs
           (fun s => 0 <= done s
              /\ console (world s)
                 = emit (progress_report (colors g) num_hosts
                           (stdout_isatty g) (Z.to_nat (done s)))
                     console_init)).
  - split; [done|]. cbn [main_loop_enter world console done].
    rewrite Hmode. rewrite bool_decide_eq_true_2 by done. cbn [andb].
    unfold progress_report. cbn [Z.to_nat seq map concat].
    rewrite app_nil_r. destruct (stdout_isatty g); [done|].
    by rewrite emit_nil.
  - done.
  - intros a s s' _ [Hpos HP] _ Hadm.
    apply admit_host_shape in Hadm
      as (h & c & _ & _ & _ & _ & _ & _ & -> & _ & _ & _ & ->).
    done.
  - intros r s s' _ [Hpos HP] Hd.
    destruct (dispatch_join_console g num_hosts Hmode Hcodes Hdebug r s s' Hd)
      as [[-> ->]|[-> ->]]; [done|].
    split; [lia|]. rewrite HP, emit_emit. f_equal.
    replace (Z.to_nat (done s + 1)) with (S (Z.to_nat (done s))) by lia.
    rewrite progress_report_S.
    by replace (Z.of_nat (S (Z.to_nat (done s)))) with (done s + 1) by lia.
Qed.

(** The run of join mode on three hosts, one child at a time, without a
    terminal. *)
Lemma join_loop_prints_progress_witness :
  exists s,
    main_loop globals_join_cap1 3
      (map host_create [lit "a"; lit "b"; lit "c"]) inputs_join_x_y_x = Ok s
    /\ out (console (world s))
       = lit "[sshp] finished 1/3" ++ [CR] ++ lit "[sshp] finished 2/3"
         ++ [CR] ++ lit "[sshp] finished 3/3" ++ [CR; NL].
Proof.
  destruct (main_loop globals_join_cap1 3
              (map host_create [lit "a"; lit "b"; lit "c"])
              inputs_join_x_y_x) as [s| | |] eqn:Hrun;
    [|by vm_compute in Hrun..].
  exists s. split; [reflexivity|].
  destruct (join_loop_prints_progress globals_join_cap1 3
              [lit "a"; lit "b"; lit "c"] inputs_join_x_y_x s) as [_ Hk].
  - reflexivity.
  - reflexivity.
  - reflexivity.
  - vm_compute. discriminate.
  - exact Hrun.
  - rewrite Hk. vm_compute in Hrun. injection Hrun as <-. reflexivity.
Defined.

(** ** No assertion fails and no buffer is left *)

Section Safety.
Variable g : Globals.
Hypothesis Hmll : 0 < max_line_length (opts g).
Hypothesis Hmol : 0 < max_output_length (opts g).

(** A fresh event record has its buffer in order. *)
Lemma fdev_create_ok junk hi c t f :
  fdev_create (opts g) junk hi c t = Ok f -> fdev_ok (opts g) f.
Proof.
  intros Hc. unfold fdev_ok. destruct (mode (opts g)) eqn:Hmode.
  - exists []. eapply fdev_create_line; [|done|done]. lia.
  - done.
  - destruct (fdev_create_join (opts g)
                (Z.to_nat (max_output_length (opts g))) ltac:(lia) Hmode
                junk hi c t f Hc) as (junk0 & _ & _ & Hst).
    by exists junk0, [].
Qed.

(** The formatter of the mode returns on a chunk that is not empty and
    leaves the buffer in order. *)
Lemma process_data_safe cl h fdev k buf :
  fdev_ok (opts g) fdev -> buf <> [] ->
  exists fdev' k',
    process_data (opts g) cl h fdev k buf = Ok (fdev', k')
    /\ fdev_ok (opts g) fdev'.
Proof.
  unfold fdev_ok. intros Hok Hbuf.
  assert (assert (bool_decide (Z.of_nat (length buf) > 0)) = Ok tt) as Hlen.
  { apply assert_true, bool_decide_eq_true.
    destruct buf; [done | simpl; lia]. }
  destruct (mode (opts g)) eqn:Hmode.
  - destruct Hok as [cur Hst].
    destruct (dispatch_chunks_line (opts g) cl h
                (Z.to_nat (max_line_length (opts g))) ltac:(lia) Hmode
                [buf] fdev k cur ltac:(by repeat constructor) Hst)
      as (fdev' & Hrun & Hst' & _).
    unfold dispatch_chunks in Hrun. cbn [for_each fst snd] in Hrun.
    destruct (process_data (opts g) cl h fdev k buf) as [[f1 k1]| | |];
      cbn [bind] in Hrun; try done.
    injection Hrun as -> _. exists fdev', k1. split; [done|]. by eexists.
  - unfold process_data, process_data_group. rewrite Hmode, Hlen.
    cbn [bind]. by eexists _, _.
  - destruct Hok as (junk0 & seen & Hst).
    unfold process_data, process_data_join. rewrite Hmode, Hlen.
    rewrite assert_true
      by (apply bool_decide_eq_true;
          destruct Hst as [_ [[-> _]|[-> _]]]; done).
    cbn [bind].
    destruct (join_loop_spec (opts g)
                (Z.to_nat (max_output_length (opts g))) junk0 ltac:(lia)
                buf fdev seen Hst) as (fdev' & -> & Hst' & _).
    cbn [bind]. eexists _, _. split; [done|]. by eexists _, _.
Qed.

(** The reads of a drain return, or the run ends with exit code 3 on a
    failed [read]. *)
Lemma read_loop_safe cl h reads fin : forall fdev k,
  fdev_ok (opts g) fdev ->
  (exists fdev' k' eof,
     read_loop (opts g) cl h fdev k reads fin = Ok (fdev', k', eof)
     /\ fdev_ok (opts g) fdev')
  \/ read_loop (opts g) cl h fdev k reads fin = Exit 3.
Proof.
  induction reads as [|buf reads IH]; intros fdev k Hok; cbn [read_loop].
  - destruct fin; [left; by eexists _, _, _ ..|by right].
  - case_decide as Hlen; [left; by eexists _, _, _|].
    destruct (silent (opts g)); [by apply IH|].
    destruct (process_data_safe cl h fdev k buf Hok) as (f1 & k1 & -> & Hok1).
    { by destruct buf. }
    cbn [bind]. by apply IH.
Qed.

(** The end of the file returns. *)
Lemma process_eof_safe cl h fdev k :
  fdev_ok (opts g) fdev ->
  exists fdev' k' handed, process_eof (opts g) cl h fdev k
                          = Ok (fdev', k', handed).
Proof.
  unfold fdev_ok, process_eof. intros Hok.
  destruct (mode (opts g)) eqn:Hmode.
  - destruct Hok as [cur Hst].
    destruct (eof_line_by_line_spec (opts g) cl h
                (Z.to_nat (max_line_length (opts g))) ltac:(lia) fdev k cur
                Hst) as (fdev' & -> & _).
    cbn [bind]. by eexists _, _, _.
  - by eexists _, _, _.
  - destruct Hok as (junk0 & seen & Hst).
    destruct (eof_join_spec (opts g)
                (Z.to_nat (max_output_length (opts g))) ltac:(lia) junk0
                fdev seen Hst) as (fdev' & -> & _).
    cbn [bind]. by eexists _, _, _.
Qed.

(** Reading a registered descriptor returns or ends the run with exit
    code 3, and leaves the buffers of the registered descriptors in
    order. *)
Lemma read_active_fd_safe r w fdev h c :
  buffers_ok (opts g) w ->
  watch w !! rdy_fd r = Some fdev ->
  hosts w !! host fdev = Some h -> cp h = Some c ->
  (exists w' closed,
     read_active_fd g r w = Ok (w', closed, host fdev)
     /\ buffers_ok (opts g) w'
     /\ exists h' c', hosts w' !! host fdev = Some h' /\ cp h' = Some c')
  \/ read_active_fd g r w = Exit 3.
Proof.
  intros Hbuf Hw Hh Hc. unfold read_active_fd. rewrite Hw, Hh, Hc.
  pose proof (Hbuf _ _ Hw) as Hok.
  destruct (read_loop_safe (colors g) h (rdy_reads r) (rdy_end r) fdev
              (console w) Hok) as [(f1 & k1 & eof & -> & Hok1)| ->];
    [|by right].
  left. cbn [bind]. destruct eof.
  - destruct (process_eof_safe (colors g) h f1 k1 Hok1)
      as (f2 & k2 & handed & ->).
    cbn [bind]. eexists _, _. split; [done|]. split.
    + intros d f Hd. cbn [watch] in Hd.
      apply lookup_delete_Some in Hd as [_ Hd].
      apply lookup_delete_Some in Hd as [_ Hd]. by eapply Hbuf.
    + cbn [hosts]. eexists _, _. split.
      * apply list_lookup_insert_eq. by eapply lookup_lt_Some.
      * done.
  - eexists _, _. split; [done|]. split.
    + intros d f Hd. cbn [watch] in Hd.
      apply lookup_insert_Some in Hd as [[_ <-]|[_ Hd]]; [done|].
      by eapply Hbuf.
    + by exists h, c.
Qed.
(** Composing the command returns or ends the run with exit code 2. *)
Lemma build_ssh_command_safe base remote h size :
  0 < size ->
  (exists c, build_ssh_command base remote h size = Ok c)
  \/ build_ssh_command base remote h size = Exit 2.
Proof.
  intros Hsize.
  destruct (decide (Z.of_nat (length base + 1 + length remote) < size))
    as [Hfit|Hfull]; [|right; apply build_ssh_command_full; lia].
  left. unfold build_ssh_command.
  rewrite assert_true by (apply bool_decide_eq_true; lia). cbn [bind].
  rewrite build_items_fits by (cbn [length]; lia). cbn [bind app].
  rewrite build_items_fits by (cbn [length]; lia). cbn [bind].
  rewrite build_items_fits by (rewrite length_app; cbn [length]; lia).
  cbn [bind].
  rewrite assert_true
    by (apply bool_decide_eq_true; rewrite !length_app; cbn [length]; lia).
  cbn [bind]. by eexists.
Qed.

(** The record of a descriptor that is not negative is created. *)
Lemma fdev_create_returns junk hi c t :
  0 <= cp_fd t c ->
  exists f, fdev_create (opts g) junk hi c t = Ok f /\ fd f = cp_fd t c.
Proof.
  intros Hfd. unfold fdev_create, safe_malloc.
  rewrite (assert_true (bool_decide (cp_fd t c >= 0)))
    by (apply bool_decide_eq_true; lia).
  destruct (mode (opts g)).
  - rewrite assert_true by (apply bool_decide_eq_true; lia).
    cbn [bind]. by eexists.
  - cbn [bind]. by eexists.
  - rewrite assert_true by (apply bool_decide_eq_true; lia).
    cbn [bind]. by eexists.
Qed.

(** Registering a pipe keeps the buffers in order. *)
Lemma register_child_process_fd_buffers a hi t w w' :
  buffers_ok (opts g) w ->
  register_child_process_fd g a hi t w = Ok w' ->
  buffers_ok (opts g) w' /\ hosts w' = hosts w.
Proof.
  intros Hbuf H. unfold register_child_process_fd in H.
  destruct (hosts w !! hi) as [h|]; [|done].
  destruct (cp h) as [c|]; [|done].
  apply bind_Ok in H as (f & Hf & H).
  destruct (watch w !! fd f); [done|]. injection H as <-.
  split; [|done]. intros d f' Hd. cbn [set_watch watch] in Hd.
  apply lookup_insert_Some in Hd as [[_ <-]|[_ Hd]].
  - by eapply fdev_create_ok.
  - by eapply Hbuf.
Qed.

(** Registering a pipe whose descriptor is not negative returns, or ends
    the run with exit code 3 when [epoll_ctl] refuses the descriptor. *)
Lemma register_child_process_fd_safe a hi t w h c :
  hosts w !! hi = Some h -> cp h = Some c -> 0 <= cp_fd t c ->
  (exists w', register_child_process_fd g a hi t w = Ok w')
  \/ register_child_process_fd g a hi t w = Exit 3.
Proof.
  intros Hh Hc Hfd. unfold register_child_process_fd. rewrite Hh, Hc.
  destruct (fdev_create_returns (adm_junk a t) hi c t Hfd) as (f & -> & _).
  cbn [bind]. destruct (watch w !! fd f); [by right | left; by eexists].
Qed.

Lemma register_child_process_fds_buffers a hi w w' :
  buffers_ok (opts g) w ->
  register_child_process_fds g a hi w = Ok w' ->
  buffers_ok (opts g) w'.
Proof.
  intros Hbuf H. unfold register_child_process_fds in H.
  destruct (mode (opts g)).
  - apply bind_Ok in H as (w1 & H1 & H).
    apply register_child_process_fd_buffers in H1 as [H1 _]; [|done].
    by apply register_child_process_fd_buffers in H as [H _].
  - apply bind_Ok in H as (w1 & H1 & H).
    apply register_child_process_fd_buffers in H1 as [H1 _]; [|done].
    by apply register_child_process_fd_buffers in H as [H _].
  - by apply register_child_process_fd_buffers in H as [H _].
Qed.

Lemma register_child_process_fds_safe a hi w h c :
  buffers_ok (opts g) w ->
  hosts w !! hi = Some h -> cp h = Some c ->
  (forall t, t ∈ pipes_of (mode (opts g)) -> 0 <= cp_fd t c) ->
  (exists w', register_child_process_fds g a hi w = Ok w')
  \/ register_child_process_fds g a hi w = Exit 3.
Proof.
  intros Hbuf Hh Hc Hfd. unfold register_child_process_fds.
  assert (PIPE_STDOUT ∈ pipes_of (mode (opts g)) ->
            PIPE_STDERR ∈ pipes_of (mode (opts g)) ->
            (exists w',
               (do w1 <- register_child_process_fd g a hi PIPE_STDOUT w;
                register_child_process_fd g a hi PIPE_STDERR w1) = Ok w')
            \/ (do w1 <- register_child_process_fd g a hi PIPE_STDOUT w;
                register_child_process_fd g a hi PIPE_STDERR w1) = Exit 3)
    as Htwo.
  { intros Hout Herr.
    destruct (register_child_process_fd_safe a hi PIPE_STDOUT w h c Hh Hc
                (Hfd _ Hout)) as [[w1 H1]| ->]; [|by right].
    rewrite H1. cbn [bind].
    apply register_child_process_fd_buffers in H1 as [_ Hhosts]; [|done].
    apply (register_child_process_fd_safe a hi PIPE_STDERR w1 h c);
      [by rewrite Hhosts | done | by apply Hfd]. }
  destruct (mode (opts g)) eqn:Hmode.
  - apply Htwo; cbn [pipes_of]; set_solver.
  - apply Htwo; cbn [pipes_of]; set_solver.
  - apply (register_child_process_fd_safe a hi PIPE_STDIO w h c Hh Hc).
    apply Hfd. cbn [pipes_of]. set_solver.
Qed.

(** An admission keeps the buffers in order. *)
Lemma admit_host_buffers a s s' :
  buffers_ok (opts g) (world s) ->
  admit_host g a s = Ok s' ->
  buffers_ok (opts g) (world s').
Proof.
  intros Hbuf H. unfold admit_host in H.
  apply bind_Ok in H as (w1 & H1 & H).
  apply bind_Ok in H as (w2 & H2 & H).
  apply bind_Ok in H as (w3 & H3 & H). injection H as <-. cbn [world].
  apply (register_child_process_fds_buffers a (cur_host s) w2 w3); [|done].
  assert (watch w2 = watch w1) as Hw2.
  { destruct (trim (opts g)); [|by injection H2 as <-].
    destruct (hosts w1 !! cur_host s); [|done]. by injection H2 as <-. }
  apply spawn_child_process_inv in H1 as (h & c & _ & _ & _ & _ & ->).
  intros d f Hd. rewrite Hw2 in Hd. by eapply Hbuf.
Qed.

(** An admission returns or ends the run with exit code 2 or 3: no
    assertion fails and no pointer is wild. *)
Lemma admit_host_safe a s :
  loop_inv g s -> buffers_ok (opts g) (world s) ->
  (cur_host s < length (hosts (world s)))%nat ->
  (forall t, t ∈ pipes_of (mode (opts g)) -> 0 <= adm_fd a t) ->
  (exists s', admit_host g a s = Ok s')
  \/ admit_host g a s = Exit 2 \/ admit_host g a s = Exit 3.
Proof.
  intros [(_ & H2 & _) _] Hbuf Hcur Hfd. unfold admit_host.
  destruct (lookup_lt_is_Some_2 _ _ Hcur) as [h Hh].
  destruct (spawn_child_process g a (cur_host s) (world s)) as [w1| | |]
    eqn:Hspawn; cbn [bind].
  - pose proof Hspawn as Hshape.
    apply spawn_child_process_inv in Hshape
      as (h' & c & Hh' & _ & _ & Hfds & ->).
    rewrite Hh in Hh'. injection Hh' as <-.
    assert (forall t, t ∈ pipes_of (mode (opts g)) -> 0 <= cp_fd t c)
      as Hfd'.
    { intros t Ht. rewrite Hfds, decide_True by done. by apply Hfd. }
    cbn [hosts]. rewrite list_lookup_insert_eq by done.
    set (w2 := if trim (opts g) then _ else _).
    assert (exists h2 w2', w2 = Ok w2' /\ buffers_ok (opts g) w2'
                           /\ hosts w2' !! cur_host s = Some h2
                           /\ cp h2 = Some c)
      as (h2 & w2' & -> & Hb & Hh2 & Hc2).
    { subst w2. destruct (trim (opts g)).
      - eexists _, _. split; [done|]. split; [exact Hbuf|].
        cbn [set_hosts hosts]. split.
        + apply list_lookup_insert_eq. by rewrite length_insert.
        + reflexivity.
      - eexists _, _. split; [done|]. split; [exact Hbuf|].
        cbn [hosts]. split; [by apply list_lookup_insert_eq | reflexivity]. }
    cbn [bind].
    destruct (register_child_process_fds_safe a (cur_host s) w2' h2 c Hb
                Hh2 Hc2 Hfd') as [[w3 ->]| ->]; cbn [bind].
    + left. by eexists.
    + right. by right.
  - unfold spawn_child_process in Hspawn. rewrite Hh in Hspawn.
    rewrite assert_true in Hspawn
      by (apply bool_decide_eq_true; eapply H2; [done | lia]).
    cbn [bind] in Hspawn.
    destruct (build_ssh_command_safe (base_ssh_command g) (remote_command g)
                h MAX_ARGS ltac:(done)) as [[cmd Hcmd]|Hcmd];
      rewrite Hcmd in Hspawn; cbn [bind] in Hspawn.
    + destruct (adm_pipe_ok a); cbn [bind] in Hspawn;
        [|injection Hspawn as <-; right; by right].
      destruct (adm_fork a); [|injection Hspawn as <-; right; by right].
      destruct (adm_clock a); cbn [monotonic_time_ms bind] in Hspawn;
        [done|]. injection Hspawn as <-. right; by right.
    + injection Hspawn as <-. right. by left.
  - exfalso. unfold spawn_child_process in Hspawn. rewrite Hh in Hspawn.
    rewrite assert_true in Hspawn
      by (apply bool_decide_eq_true; eapply H2; [done | lia]).
    cbn [bind] in Hspawn.
    destruct (build_ssh_command_safe (base_ssh_command g) (remote_command g)
                h MAX_ARGS ltac:(done)) as [[cmd Hcmd]|Hcmd];
      rewrite Hcmd in Hspawn; cbn [bind] in Hspawn; [|done].
    destruct (adm_pipe_ok a); cbn [bind] in Hspawn; [|done].
    destruct (adm_fork a); [|done].
    by destruct (adm_clock a).
  - exfalso. unfold spawn_child_process in Hspawn. rewrite Hh in Hspawn.
    rewrite assert_true in Hspawn
      by (apply bool_decide_eq_true; eapply H2; [done | lia]).
    cbn [bind] in Hspawn.
    destruct (build_ssh_command_safe (base_ssh_command g) (remote_command g)
                h MAX_ARGS ltac:(done)) as [[cmd Hcmd]|Hcmd];
      rewrite Hcmd in Hspawn; cbn [bind] in Hspawn; [|done].
    destruct (adm_pipe_ok a); cbn [bind] in Hspawn; [|done].
    destruct (adm_fork a); [|done].
    by destruct (adm_clock a).
Qed.
(** Reading a descriptor keeps the buffers in order. *)
Lemma read_active_fd_buffers r w w' closed hi :
  buffers_ok (opts g) w ->
  read_active_fd g r w = Ok (w', closed, hi) ->
  buffers_ok (opts g) w'.
Proof.
  intros Hbuf H.
  destruct (watch w !! rdy_fd r) as [fdev|] eqn:Hw;
    [|by unfold read_active_fd in H; rewrite Hw in H].
  destruct (hosts w !! host fdev) as [h|] eqn:Hh;
    [|by unfold read_active_fd in H; rewrite Hw, Hh in H].
  destruct (cp h) as [c|] eqn:Hc;
    [|by unfold read_active_fd in H; rewrite Hw, Hh, Hc in H].
  destruct (read_active_fd_safe r w fdev h c Hbuf Hw Hh Hc)
    as [(w1 & closed1 & Hrun & Hbuf1 & _)|Hrun];
    rewrite Hrun in H; [|done].
  by injection H as <- _ _.
Qed.

(** The reaper leaves the registered descriptors alone. *)
Lemma wait_for_child_watch r hi w w' :
  wait_for_child g r hi w = Ok w' -> watch w' = watch w.
Proof.
  unfold wait_for_child. intros H.
  destruct (hosts w !! hi) as [h|]; [|done].
  destruct (cp h) as [c|]; [|done].
  destruct (rdy_wait r) as [status|]; [|done].
  apply bind_Ok in H as (tm & _ & H).
  destruct (exit_codes (opts g) || debug (opts g)); by injection H as <-.
Qed.

(** A turn of the dispatch loop keeps the buffers in order. *)
Lemma dispatch_buffers num_hosts r s s' :
  buffers_ok (opts g) (world s) ->
  dispatch g num_hosts r s = Ok s' ->
  buffers_ok (opts g) (world s').
Proof.
  intros Hbuf H. unfold dispatch in H.
  apply bind_Ok in H as ([[w1 closed] hi] & Hread & H).
  apply read_active_fd_buffers in Hread; [|done].
  destruct (hosts w1 !! hi) as [h|]; [|done].
  destruct (cp h) as [c|]; [|done].
  destruct (closed && child_process_stdio_done c).
  - apply bind_Ok in H as (w2 & Hwait%wait_for_child_watch & H).
    injection H as <-. cbn [world].
    intros d f Hd. apply (Hread d f). rewrite <- Hwait.
    by case_decide.
  - by injection H as <-.
Qed.

(** The reaper returns or ends the run with exit code 3. *)
Lemma wait_for_child_safe r hi w h c :
  hosts w !! hi = Some h -> cp h = Some c ->
  (exists w', wait_for_child g r hi w = Ok w')
  \/ wait_for_child g r hi w = Exit 3.
Proof.
  intros Hh Hc. unfold wait_for_child. rewrite Hh, Hc.
  destruct (rdy_wait r) as [status|]; [|by right].
  destruct (rdy_clock r) as [tm|]; cbn [monotonic_time_ms bind];
    [|by right].
  left. destruct (exit_codes (opts g) || debug (opts g)); by eexists.
Qed.

(** A turn of the dispatch loop on an entry of a registered descriptor
    returns or ends the run with exit code 3. *)
Lemma dispatch_safe num_hosts r s :
  loop_inv g s -> buffers_ok (opts g) (world s) ->
  is_Some (watch (world s) !! rdy_fd r) ->
  (exists s', dispatch g num_hosts r s = Ok s')
  \/ dispatch g num_hosts r s = Exit 3.
Proof.
  intros [(_ & _ & _ & H4 & _) _] Hbuf [fdev Hw]. unfold dispatch.
  destruct (H4 _ _ Hw) as (_ & _ & _ & h & c & Hh & Hc & _).
  destruct (read_active_fd_safe r (world s) fdev h c Hbuf Hw Hh Hc)
    as [(w1 & closed & -> & _ & h1 & c1 & Hh1 & Hc1)| ->]; [|by right].
  cbn [bind]. rewrite Hh1, Hc1.
  destruct (closed && child_process_stdio_done c1); [|left; by eexists].
  destruct (wait_for_child_safe r (host fdev) w1 h1 c1 Hh1 Hc1)
    as [[w2 ->]| ->]; cbn [bind]; [left; by eexists | by right].
Qed.

(** One step of the main loop returns or ends the run with exit code 2
    or 3. *)
Lemma step_safe num_hosts i s :
  loop_inv g s -> buffers_ok (opts g) (world s) -> kernel_ok g i s ->
  (exists s', step g num_hosts i s = Ok s')
  \/ step g num_hosts i s = Exit 2 \/ step g num_hosts i s = Exit 3.
Proof.
  intros Hinv Hbuf [Hadm Hevs]. unfold step.
  destruct (pc s) as [| | |[|r evs]|] eqn:Hpc.
  - case_decide; [|left; by eexists].
    rewrite assert_true; [left; by eexists|].
    apply bool_decide_eq_true.
    destruct Hinv as [(_ & _ & _ & _ & _ & _ & H7 & _) _]. done.
  - case_decide as Hcur; [|left; by eexists].
    apply admit_host_safe; [done | done | by destruct Hcur | by apply Hadm].
  - destruct (in_events i); [left; by eexists | right; by right].
  - left. by eexists.
  - destruct (dispatch_safe num_hosts r s Hinv Hbuf (Hevs r evs eq_refl))
      as [[s1 ->]| ->]; cbn [bind]; [left; by eexists | right; by right].
  - left. by eexists.
Qed.
End Safety.

Section ReachedSafe.
Variables (g : Globals) (num_hosts : Z) (names : list (list byte)).
Hypothesis Hjobs : 0 <= max_jobs (opts g).
Hypothesis Hmll : 0 < max_line_length (opts g).
Hypothesis Hmol : 0 < max_output_length (opts g).

(** In every state the main loop reaches, the buffers of the registered
    descriptors are in order. *)
Lemma main_loop_buffers ins s :
  main_loop g num_hosts (map host_create names) ins = Ok s ->
  buffers_ok (opts g) (world s).
Proof.
  apply (main_loop_reached g num_hosts names Hjobs
           (fun s => buffers_ok (opts g) (world s))).
  - intros d f Hd. unfold main_loop_enter in Hd. cbn [world watch] in Hd.
    by apply lookup_empty_Some in Hd.
  - done.
  - intros a s0 s1 _ Hb _ Hadm. by eapply admit_host_buffers.
  - intros r s0 s1 _ Hb Hd. by eapply dispatch_buffers.
Qed.
End ReachedSafe.

(** X15: with options that [parse_arguments] accepts, no step of the main
    loop fails an assertion or follows a pointer that is not set, whatever
    the children write: from every state the loop reaches, a step in which
    the pipes just created have descriptors that are not negative and the
    entries of [epoll_wait] are of registered descriptors returns, or ends
    the run with exit code 2 (the composed command is too long) or 3 (a
    system call failed). *)
Theorem main_loop_step_safe g num_hosts names ins i s :
  0 <= max_jobs (opts g) ->
  0 < max_line_length (opts g) ->
  0 < max_output_length (opts g) ->
  main_loop g num_hosts (map host_create names) ins = Ok s ->
  kernel_ok g i s ->
  (exists s', step g num_hosts i s = Ok s')
  \/ step g num_hosts i s = Exit 2 \/ step g num_hosts i s = Exit 3.
Proof.
  intros Hjobs Hmll Hmol Hrun Hker.
  apply step_safe; [done | done | | | done].
  - by eapply main_loop_inv.
  - by eapply main_loop_buffers.
Qed.

(** The first entry of the first [epoll_wait] of the run on two hosts with
    a cap of one job. *)
Lemma main_loop_step_safe_witness :
  exists s,
    main_loop globals_cap1 2 (map host_create [lit "a"; lit "b"])
      (take 4 inputs_two_hosts) = Ok s
    /\ ((exists s', step globals_cap1 2 (mkInput (admission 100) None) s
                    = Ok s')
        \/ step globals_cap1 2 (mkInput (admission 100) None) s = Exit 2
        \/ step globals_cap1 2 (mkInput (admission 100) None) s = Exit 3).
Proof.
  destruct (main_loop globals_cap1 2 (map host_create [lit "a"; lit "b"])
              (take 4 inputs_two_hosts)) as [s| | |] eqn:Hrun;
    [|by vm_compute in Hrun..].
  exists s. split; [reflexivity|].
  apply (main_loop_step_safe globals_cap1 2 [lit "a"; lit "b"]
           (take 4 inputs_two_hosts)).
  - vm_compute. discriminate.
  - reflexivity.
  - reflexivity.
  - exact Hrun.
  - vm_compute in Hrun. injection Hrun as <-. split.
    + intros Hpc. discriminate Hpc.
    + intros r evs Hpc. cbn [pc] in Hpc. injection Hpc as <- <-.
      vm_compute. by eexists.
Defined.

(** ** Failed system calls end the run with exit code 3 *)


Section Failures.
Variables (g : Globals) (num_hosts : Z).
Hypothesis Hmll : 0 < max_line_length (opts g).
Hypothesis Hmol : 0 < max_output_length (opts g).







End Failures.



